(** * Social network backend: feed pagination and denormalised counters

    A shallow embedding of the Django application's models ([models.py]),
    helpers ([utils.py]) and JSON views ([posts.py], [profiles.py]),
    followed by the properties of the feed paginator, the like / follow
    toggles and the error policy of the views. *)

From stdpp Require Import gmap strings list sorting.
From Stdlib Require DecimalString DecimalZ DecimalPos.
Set Warnings "-clear-no-such-hyp".

Local Open Scope Z_scope.

(** ** Data model ([models.py])

    Rows are keyed by their primary key in a [gmap]; the two many-to-many
    relations are the sets of rows of their through tables.  Of a user only
    the name and the three counters are kept.  The counters are
    [PositiveIntegerField]s; they are kept in [Z], and the consistency
    theorem below shows that sequential toggles never take them under
    zero. *)

Record User := mkUser {
  username : string;
  post_count : Z;
  followers_count : Z;
  following_count : Z;
}.

Record Post := mkPost {
  p_user : Z;            (* user = ForeignKey("User") *)
  p_timestamp : Z;       (* timestamp, as microseconds on the time line *)
  p_content : string;
  like_count : Z;
  comment_count : Z;
}.

Record Comment := mkComment {
  c_user : Z;
  c_post : Z;
  c_content : string;
  c_timestamp : Z;
}.

(** [user_followers] holds the rows [(from_user, to_user)] of
    [User.followers]: [(u, f)] is present when [f] is in [u.followers], that
    is when [f] follows [u].  [post_likes] holds the rows [(post, user)] of
    [Post.likes]. *)
Record DB := mkDB {
  users : gmap Z User;
  posts : gmap Z Post;
  comments : gmap Z Comment;
  user_followers : gset (Z * Z);
  post_likes : gset (Z * Z);
}.

Definition set_users (f : gmap Z User → gmap Z User) (db : DB) : DB :=
  mkDB (f (users db)) (posts db) (comments db) (user_followers db) (post_likes db).
Definition set_posts (f : gmap Z Post → gmap Z Post) (db : DB) : DB :=
  mkDB (users db) (f (posts db)) (comments db) (user_followers db) (post_likes db).
Definition set_user_followers (f : gset (Z * Z) → gset (Z * Z)) (db : DB) : DB :=
  mkDB (users db) (posts db) (comments db) (f (user_followers db)) (post_likes db).
Definition set_post_likes (f : gset (Z * Z) → gset (Z * Z)) (db : DB) : DB :=
  mkDB (users db) (posts db) (comments db) (user_followers db) (f (post_likes db)).

(** A model instance held by Python code is its primary key and the copy of
    the row that was loaded. *)
Abbreviation PostObj := (Z * Post)%type.

(** ** ORM commands, exceptions and [transaction.atomic]

    Code that talks to the database is a tree of commands.  A [Select] or an
    [Execute] is one statement; outside an [Atomic] block it commits on its
    own.  [Atomic] is [with transaction.atomic():]: the block runs as one
    unit and its writes are dropped when it raises. *)

Inductive exn := DoesNotExist | AttributeError | TypeError | ValueError.

Inductive result (A : Type) := Ok (a : A) | Raised (e : exn).
Arguments Ok {A} a.
Arguments Raised {A} e.

Inductive dbE : Type → Type :=
| Select {X} (q : DB → X) : dbE X
| Execute (m : DB → DB) : dbE unit.

Inductive prog (A : Type) : Type :=
| Ret (a : A)
| Throw (e : exn)
| Vis {X} (e : dbE X) (k : X → prog A)
| Atomic {B} (body : prog B) (k : B → prog A).
Arguments Ret {A} a.
Arguments Throw {A} e.
Arguments Vis {A X} e k.
Arguments Atomic {A B} body k.

Fixpoint prog_bind {A B} (p : prog A) (f : A → prog B) : prog B :=
  match p with
  | Ret a => f a
  | Throw e => Throw e
  | Vis e k => Vis e (λ x, prog_bind (k x) f)
  | Atomic body k => Atomic body (λ b, prog_bind (k b) f)
  end.

#[global] Instance prog_ret : MRet prog := @Ret.
#[global] Instance prog_mbind : MBind prog := λ A B f p, prog_bind p f.

Definition select {X} (q : DB → X) : prog X := Vis (Select q) Ret.
Definition execute (m : DB → DB) : prog unit := Vis (Execute m) Ret.
Definition atomic {A} (body : prog A) : prog A := Atomic body Ret.

Definition handle {X} (e : dbE X) (db : DB) : X * DB :=
  match e with
  | Select q => (q db, db)
  | Execute m => (tt, m db)
  end.

(** Sequential execution of a request against the database. *)
Fixpoint run {A} (p : prog A) (db : DB) : result A * DB :=
  match p with
  | Ret a => (Ok a, db)
  | Throw e => (Raised e, db)
  | Vis e k => let '(x, db') := handle e db in run (k x) db'
  | Atomic body k =>
      match run body db with
      | (Ok b, db') => run (k b) db'
      | (Raised e, _) => (Raised e, db)
      end
  end.

(** One scheduling step of a request: its first command (a statement, or a
    whole atomic block) runs against the shared database.  These are the
    schedules in which transactions do not overlap, some of the schedules a
    database allows: they serve to exhibit an interleaving, not to exclude
    one. *)
Definition step {A} (p : prog A) (db : DB) : prog A * DB :=
  match p with
  | Ret a => (Ret a, db)
  | Throw e => (Throw e, db)
  | Vis e k => let '(x, db') := handle e db in (k x, db')
  | Atomic body k =>
      match run body db with
      | (Ok b, db') => (k b, db')
      | (Raised e, _) => (Throw e, db)
      end
  end.

(** Requests served concurrently: [order] names, step after step, the
    request that advances. *)
Fixpoint interleave {A} (order : list nat) (reqs : list (prog A)) (db : DB)
  : list (prog A) * DB :=
  match order with
  | [] => (reqs, db)
  | i :: order' =>
      match reqs !! i with
      | Some p => let '(p', db') := step p db in
                  interleave order' (<[i := p']> reqs) db'
      | None => interleave order' reqs db
      end
  end.

(** Every statement of the request sits inside an atomic block. *)
Fixpoint all_in_txn {A} (p : prog A) : Prop :=
  match p with
  | Ret _ | Throw _ => True
  | Vis _ _ => False
  | Atomic _ k => ∀ b, all_in_txn (k b)
  end.

(** ** Related managers and [QuerySet.update]  *)

(** [target.followers.filter(id=self.id).exists()] *)
Definition followers_exists (target self : Z) : prog bool :=
  select (λ db, bool_decide ((target, self) ∈ user_followers db)).
(** [target.followers.add(self)]: an existing row is left alone. *)
Definition followers_add (target self : Z) : prog unit :=
  execute (set_user_followers (λ s, {[ (target, self) ]} ∪ s)).
(** [target.followers.remove(self)] *)
Definition followers_remove (target self : Z) : prog unit :=
  execute (set_user_followers (λ s, s ∖ {[ (target, self) ]})).

Definition likes_exists (post user : Z) : prog bool :=
  select (λ db, bool_decide ((post, user) ∈ post_likes db)).
Definition likes_add (post user : Z) : prog unit :=
  execute (set_post_likes (λ s, {[ (post, user) ]} ∪ s)).
Definition likes_remove (post user : Z) : prog unit :=
  execute (set_post_likes (λ s, s ∖ {[ (post, user) ]})).

(** [User.objects.filter(id=id).update(field=F(field) + delta)]: the new
    value is computed by the database from the stored one.  The counters are
    [PositiveIntegerField]s; they are kept in [Z] here, and an UPDATE that
    would take one below 0 is refused by the database.  The embedding covers
    the runs in which no counter leaves the range: the properties of a
    decrement carry the hypothesis that keeps it there
    ([counters_consistent], [ledger_consistent]). *)
Definition add_post_count (delta : Z) (u : User) : User :=
  mkUser (username u) (post_count u + delta) (followers_count u) (following_count u).
Definition add_followers_count (delta : Z) (u : User) : User :=
  mkUser (username u) (post_count u) (followers_count u + delta) (following_count u).
Definition add_following_count (delta : Z) (u : User) : User :=
  mkUser (username u) (post_count u) (followers_count u) (following_count u + delta).
Definition add_like_count (delta : Z) (p : Post) : Post :=
  mkPost (p_user p) (p_timestamp p) (p_content p) (like_count p + delta) (comment_count p).
Definition set_content (c : string) (p : Post) : Post :=
  mkPost (p_user p) (p_timestamp p) c (like_count p) (comment_count p).

Definition users_update (id : Z) (f : User → User) : prog unit :=
  execute (set_users (alter f id)).
Definition posts_update (id : Z) (f : Post → Post) : prog unit :=
  execute (set_posts (alter f id)).

(** [Model.objects.get(id=id)] and [refresh_from_db()] *)
Definition users_get (id : Z) : prog User :=
  r ← select (λ db, users db !! id);
  match r with Some u => Ret u | None => Throw DoesNotExist end.
Definition posts_get (id : Z) : prog Post :=
  r ← select (λ db, posts db !! id);
  match r with Some p => Ret p | None => Throw DoesNotExist end.

(** [instance.save()] of a loaded post writes every field of the instance. *)
Definition post_save (self : PostObj) : prog unit :=
  execute (set_posts (<[ self.1 := self.2 ]>)).

(** [instance.delete()] of a post; [on_delete=CASCADE] takes its comments and
    the rows of its [likes] relation with it. *)
Definition post_delete (self : Z) : prog unit :=
  execute (λ db,
    mkDB (users db) (delete self (posts db))
         (filter (λ kc, c_post kc.2 ≠ self) (comments db))
         (user_followers db)
         (filter (λ e, e.1 ≠ self) (post_likes db))).

(** ** Model methods ([models.py]) *)

(** [User.toggle_follow] *)
Definition toggle_follow (self target_user : Z) : prog bool :=
  if bool_decide (self = target_user) then Ret false
  else
    follow ← followers_exists target_user self;
    atomic (
      if follow : bool then
        followers_remove target_user self;;
        users_update self (add_following_count (-1));;
        users_update target_user (add_followers_count (-1));;
        Ret false
      else
        followers_add target_user self;;
        users_update self (add_following_count 1);;
        users_update target_user (add_followers_count 1);;
        Ret true).

(** [Post.delete_post] *)
Definition delete_post (self : PostObj) : prog unit :=
  atomic (
    post_delete self.1;;
    users_update (p_user self.2) (add_post_count (-1))).

(** [Post.like_post]: returns [liked] and the instance as reloaded by
    [refresh_from_db]. *)
Definition like_post (self : Z) (user : Z) : prog (bool * Post) :=
  atomic (
    already ← likes_exists self user;
    liked ← (if already : bool then
               likes_remove self user;;
               posts_update self (add_like_count (-1));;
               Ret false
             else
               likes_add self user;;
               posts_update self (add_like_count 1);;
               Ret true);
    refreshed ← posts_get self;
    Ret (liked, refreshed)).

(** ** Values crossing the Python and HTTP boundaries *)

(** Outcome of [django.utils.dateparse.parse_datetime]: a datetime, [None]
    for text that is not a datetime at all, or [ValueError] for well-formed
    text that names no real instant. *)
Inductive dt_parse := DtValue (t : Z) | DtNone | DtRaise.

(** The conversions of the Python runtime and of Django used by the views. *)
Class Conversions := {
  parse_datetime : string → dt_parse;
  isoformat : Z → string;        (* datetime.isoformat() *)
  py_int : string → option Z;    (* int(s); [None] when it raises ValueError *)
  py_str : Z → string;           (* str(i) *)
}.

(** What the client relies on when it sends a rendered value back. *)
Class ConversionsRoundTrip `{Conversions} : Prop := {
  parse_isoformat t : parse_datetime (isoformat t) = DtValue t;
  isoformat_nonempty t : isoformat t ≠ "";
  int_str i : py_int (py_str i) = Some i;
  str_nonempty i : py_str i ≠ "";
}.

(** Scalars of a decoded JSON body. *)
Inductive json := JNull | JBool (b : bool) | JNum (n : Z) | JStr (s : string).

#[global] Instance json_eq_dec : EqDecision json.
Proof. solve_decision. Defined.

(** The Python values that [paginate_posts] hands to its callers. *)
Inductive pyval :=
| PyNone
| PyBool (b : bool)
| PyStr (s : string)
| PyPosts (l : list PostObj).

(** A three-element tuple, or a dict with its items in insertion order. *)
Inductive pyret :=
| PyTuple3 (a b c : pyval)
| PyDict (items : list (string * pyval)).

(** [a, b, c = value]: a tuple gives its components, a dict is iterated and
    gives its keys. *)
Definition unpack3 (value : pyret) : result (pyval * pyval * pyval) :=
  match value with
  | PyTuple3 a b c => Ok (a, b, c)
  | PyDict [(k1, _); (k2, _); (k3, _)] => Ok (PyStr k1, PyStr k2, PyStr k3)
  | PyDict _ => Raised ValueError
  end.

(** Truth value of an object in [if x:] and [not x]. *)
Definition truthy (v : pyval) : bool :=
  match v with
  | PyNone => false
  | PyBool b => b
  | PyStr s => bool_decide (s ≠ "")
  | PyPosts l => bool_decide (l ≠ [])
  end.

(** Truth value of [request.GET.get(key)]: a string or [None]. *)
Definition param_truthy (v : option string) : bool :=
  match v with
  | Some s => bool_decide (s ≠ "")
  | None => false
  end.

(** The request bodies that are covered: no body, bytes that [json.loads]
    refuses, and a JSON object whose values are scalars.  A body that decodes
    to a list, a number or a string, or that holds nested values, is not
    among them. *)
Inductive body :=
| BodyEmpty
| BodyInvalid                           (* json.loads raises JSONDecodeError *)
| BodyJson (data : gmap string json).   (* a JSON object of scalars *)

Record HttpRequest := mkRequest {
  req_user : option Z;            (* request.user; [None] is AnonymousUser *)
  req_method : string;
  req_GET : gmap string string;
  req_body : body;
}.

(** [Post.serialize]; the avatar URL, which is read from file storage, is
    left out. *)
Record SerializedPost := mkSerialized {
  s_id : Z;
  s_user : string;
  s_user_id : Z;
  s_user_is_author : bool;
  s_content : string;
  s_timestamp : string;
  s_like_count : Z;
  s_comment_count : Z;
  s_liked : bool;
}.

Inductive response_data :=
| DError (error : pyval)                                   (* {"error": ..} *)
| DPosts (posts : list SerializedPost) (hasNext : bool)    (* {"posts": .., "hasNext": ..} *)
| DLiked (liked : bool) (likes : Z)                        (* {"liked": .., "like_count": ..} *)
| DEdited (message content : string)                       (* {"message": .., "content": ..} *)
| DMessage (message : string)                              (* {"message": ..} *)
| DFollow (follow : bool) (followers : Z).                 (* {"follow": .., "followers_count": ..} *)

Inductive HttpResponse :=
| JsonResponse (data : response_data) (status : Z)
| HttpResponseRedirect.     (* [login_required] sending the client to the login page *)

Definition status_code (r : HttpResponse) : Z :=
  match r with
  | JsonResponse _ status => status
  | HttpResponseRedirect => 302
  end.

(** The two ways a view hands back a response: read-only views are functions
    of the database, mutating views are command trees. *)
Class Respond (R : Type) := respond : HttpResponse → R.
#[global] Instance respond_result : Respond (result HttpResponse) := Ok.
#[global] Instance respond_prog : Respond (prog HttpResponse) := Ret.

(** ** Helpers ([utils.py]) *)

(** [str.strip()] and [str.isspace()] on ASCII text: a [string] is read
    as text whose characters are all below 128, where white space is the
    characters 9 to 13 and 28 to 32 and [len] is the number of characters.
    Properties that depend on what is stripped or counted carry [ascii_field]
    or [ascii_json] for the text they are about. *)
Definition is_space (a : Ascii.ascii) : bool :=
  let n := Ascii.nat_of_ascii a in
  ((9 <=? n) && (n <=? 13) || (28 <=? n) && (n <=? 32))%nat.

Fixpoint lstrip (s : string) : string :=
  match s with
  | String a s' => if is_space a then lstrip s' else s
  | EmptyString => EmptyString
  end.

Definition strip (s : string) : string :=
  String.rev (lstrip (String.rev (lstrip s))).

(** [require_http_methods] *)
Definition require_http_methods {V R} `{Respond R} (methods : list string)
    (view_func : HttpRequest → V → R) (request : HttpRequest) (args : V) : R :=
  if bool_decide (req_method request ∈ methods)
  then view_func request args
  else respond (JsonResponse
                  (DError (PyStr (req_method request +:+ " request required.")))
                  405).

Definition require_get {V R} `{Respond R} := require_http_methods (V:=V) (R:=R) ["GET"].
Definition require_put {V R} `{Respond R} := require_http_methods (V:=V) (R:=R) ["PUT"].
Definition require_put_delete {V R} `{Respond R} :=
  require_http_methods (V:=V) (R:=R) ["PUT"; "DELETE"].

(** [django.contrib.auth.decorators.login_required]: the view runs only for
    an authenticated [request.user], which it receives. *)
Definition login_required {V} (view_func : Z → HttpRequest → V → prog HttpResponse)
    (request : HttpRequest) (args : V) : prog HttpResponse :=
  match req_user request with
  | Some user => view_func user request args
  | None => Ret HttpResponseRedirect
  end.

(** [get_body_content(request, content_type)] for a given field name: the
    value, with strings stripped, or the message of
    [InvalidRequestBodyError].  Strings are stripped as ASCII text is. *)
Definition get_body_content (request : HttpRequest) (content_type : string)
  : string + json :=
  match req_body request with
  | BodyInvalid => inl "Invalid JSON in request body"
  | body =>
      let data := match body with BodyJson data => data | _ => ∅ end in
      match data !! content_type with
      | None => inl ("Missing required field: " +:+ content_type)
      | Some (JStr value) => inr (JStr (strip value))
      | Some value => inr value
      end
  end.

(** The model instance a view argument denotes. *)
Inductive pyarg := ArgNone | ArgInt (i : Z) | ArgStr (s : string).

Section views.
Context `{Conversions}.

(** [get_user(user_id)]: [int(user_id)] raises TypeError on [None] and
    ValueError on text that is not a number; both give [None]. *)
Definition get_user (db : DB) (user_id : pyarg) : option (Z * User) :=
  match user_id with
  | ArgNone => None
  | ArgInt i => (λ u, (i, u)) <$> users db !! i
  | ArgStr s =>
      match py_int s with
      | Some i => (λ u, (i, u)) <$> users db !! i
      | None => None
      end
  end.

Definition param_arg (v : option string) : pyarg :=
  match v with Some s => ArgStr s | None => ArgNone end.

(** [validate_content(content, length)]; a true value that is not a string
    has no [strip].  Emptiness and length are those of ASCII text. *)
Definition validate_content (content : json) (length : Z)
  : result (bool * option string) :=
  let empty := Ok (false, Some "Content cannot be empty.") in
  match content with
  | JNull | JBool false | JNum 0 => empty
  | JBool true | JNum _ => Raised AttributeError
  | JStr s =>
      if bool_decide (s = "") || bool_decide (strip s = "") then empty
      else if bool_decide (length < Z.of_nat (String.length s))
      then Ok (false, Some ("Content exceeds " +:+ py_str length +:+ " characters."))
      else Ok (true, None)
  end.

(** Text of a value inside an f-string. *)
Definition format_json (v : json) : string :=
  match v with
  | JNull => "None"
  | JBool true => "True"
  | JBool false => "False"
  | JNum n => py_str n
  | JStr s => s
  end.

(** ** Cursor pagination ([posts.py]) *)

Definition POST_LIMIT : nat := 10.

(** [p] does not come after [q] under [ORDER BY timestamp DESC, id DESC]. *)
Definition cursor_ge (p q : PostObj) : Prop :=
  p_timestamp q.2 < p_timestamp p.2 ∨
  (p_timestamp q.2 = p_timestamp p.2 ∧ q.1 ≤ p.1).

(** [p] comes strictly before [q] in that order. *)
Definition cursor_gt (p q : PostObj) : Prop :=
  p_timestamp q.2 < p_timestamp p.2 ∨
  (p_timestamp q.2 = p_timestamp p.2 ∧ q.1 < p.1).

(** [posts_qs.order_by("-timestamp", "-id")] *)
Definition order_by_cursor (posts_qs : list PostObj) : list PostObj :=
  merge_sort cursor_ge posts_qs.

(** [Q(timestamp__lt=timestamp) | Q(timestamp=timestamp, id__lt=post_id)] *)
Definition after_cursor (timestamp post_id : Z) (p : PostObj) : Prop :=
  p_timestamp p.2 < timestamp ∨ (p_timestamp p.2 = timestamp ∧ p.1 < post_id).

Definition parse_error : pyret :=
  PyDict [("error", PyStr "Error parsing post data.");
          ("has_next", PyNone);
          ("return_posts", PyNone)].

Definition fetch_page (posts : list PostObj) : pyret :=
  let fetched := take (POST_LIMIT + 1) posts in
  let has_next := bool_decide (POST_LIMIT < length fetched)%nat in
  let return_posts := take POST_LIMIT fetched in
  PyTuple3 PyNone (PyBool has_next) (PyPosts return_posts).

(** [paginate_posts].  A [None] from [parse_datetime] makes
    [timestamp__lt=None] raise ValueError inside the [try]. *)
Definition paginate_posts (posts_qs : list PostObj)
    (timestamp post_id : option string) : pyret :=
  let posts := order_by_cursor posts_qs in
  match timestamp, post_id with
  | Some ts, Some pid =>
      if param_truthy timestamp && param_truthy post_id then
        match parse_datetime ts with
        | DtRaise => parse_error
        | parsed =>
            match py_int pid with
            | None => parse_error
            | Some post_id =>
                match parsed with
                | DtValue timestamp =>
                    fetch_page (filter (after_cursor timestamp post_id) posts)
                | _ => parse_error
                end
            end
        end
      else fetch_page posts
  | _, _ => fetch_page posts
  end.

(** How the two query parameters of a page request are read: no cursor
    at all, or text that parses to the position [(timestamp, id)]. *)
Inductive request_cursor : option string → option string → option (Z * Z) → Prop :=
| first_page : request_cursor None None None
| continuation ts pid t i :
    ts ≠ "" → pid ≠ "" →
    parse_datetime ts = DtValue t → py_int pid = Some i →
    request_cursor (Some ts) (Some pid) (Some (t, i)).

(** The timestamp or the id of a cursor does not parse. *)
Definition malformed (ts pid : string) : Prop :=
  parse_datetime ts = DtNone ∨ parse_datetime ts = DtRaise ∨ py_int pid = None.

(** The posts a page request ranges over. *)
Definition in_range (cursor : option (Z * Z)) (p : PostObj) : Prop :=
  match cursor with
  | None => True
  | Some (t, i) => after_cursor t i p
  end.

#[global] Instance in_range_dec cursor p : Decision (in_range cursor p).
Proof. destruct cursor as [[t i]|]; apply _. Defined.

(** ** Feed assembly ([posts.py]) *)

(** [Post.objects.all().select_related("user")] *)
Definition all_posts (db : DB) : list PostObj := map_to_list (posts db).

(** [post.serialize(request.user)] for a post of a queryset built by
    [get_posts], whose [likes] were prefetched for an authenticated
    [request.user] only. *)
Definition serialize (db : DB) (user : option Z) (post : PostObj)
  : SerializedPost :=
  {| s_id := post.1;
     s_user := from_option username "" (users db !! p_user post.2);
     s_user_id := p_user post.2;
     s_user_is_author :=
       match user with
       | Some u => bool_decide (u = p_user post.2)
       | None => false
       end;
     s_content := p_content post.2;
     s_timestamp := isoformat (p_timestamp post.2);
     s_like_count := like_count post.2;
     s_comment_count := comment_count post.2;
     s_liked :=
       match user with
       | Some u => bool_decide ((post.1, u) ∈ post_likes db)
       | None => false
       end |}.

(** [get_posts] *)
Definition get_posts (db : DB) (request : HttpRequest) (filter_ : string)
  : option string * list PostObj * Z :=
  let posts := all_posts db in
  let '(error, posts, status) :=
    if bool_decide (filter_ = "following") then
      match req_user request with
      | Some u =>
          (None, filter (λ p, (p_user p.2, u) ∈ user_followers db) posts, 200)
      | None => (Some "User not authenticated.", posts, 401)
      end
    else if bool_decide (filter_ = "all") then (None, posts, 200)
    else if bool_decide (filter_ = "profile") then
      match get_user db (param_arg (req_GET request !! "user_id")) with
      | Some user => (None, filter (λ p, p_user p.2 = user.1) posts, 200)
      | None => (Some "User not found.", posts, 404)
      end
    else (Some "Filter not found.", posts, 404) in
  (error, if bool_decide (status = 200) then posts else [], status).

(** The tail shared by [posts_view] and [get_more_posts]: the JSON page. *)
Definition page_response (db : DB) (request : HttpRequest)
    (has_next return_posts : pyval) (empty_status : Z) : result HttpResponse :=
  if negb (truthy return_posts) then
    Ok (JsonResponse (DPosts [] false) empty_status)
  else
    match has_next, return_posts with
    | PyBool has_next, PyPosts return_posts =>
        Ok (JsonResponse
              (DPosts (serialize db (req_user request) <$> return_posts) has_next)
              200)
    | _, _ => Raised TypeError
    end.

(** [posts_view], under [@require_get] *)
Definition posts_view (db : DB) : HttpRequest → string → result HttpResponse :=
  require_get (λ request filter_,
    let '(error, posts_qs, status) := get_posts db request filter_ in
    match error with
    | Some error => Ok (JsonResponse (DError (PyStr error)) status)
    | None =>
        match unpack3 (paginate_posts posts_qs None None) with
        | Ok (_, has_next, return_posts) =>
            page_response db request has_next return_posts 200
        | Raised e => Raised e
        end
    end).

(** [get_more_posts], under [@require_get] *)
Definition get_more_posts (db : DB) : HttpRequest → string → result HttpResponse :=
  require_get (λ request filter_,
    let timestamp := req_GET request !! "timestamp" in
    let post_id := req_GET request !! "post_id" in
    let '(error, posts_qs, status) := get_posts db request filter_ in
    match error with
    | Some error => Ok (JsonResponse (DError (PyStr error)) status)
    | None =>
        match unpack3 (paginate_posts posts_qs timestamp post_id) with
        | Ok (error, has_next, return_posts) =>
            if truthy error then Ok (JsonResponse (DError error) 400)
            else page_response db request has_next return_posts 204
        | Raised e => Raised e
        end
    end).

(** ** Post actions ([posts.py]) *)

(** [edit_post]: the outcome triple and the instance as it is afterwards. *)
Definition edit_post (user : Z) (request : HttpRequest) (post : PostObj)
  : prog (bool * string * Z * PostObj) :=
  if bool_decide (p_user post.2 ≠ user) then
    Ret (false, "Unauthorized.", 403, post)
  else
    match get_body_content request "content" with
    | inl error => Ret (false, error, 400, post)
    | inr content =>
        match validate_content content 250 with
        | Raised e => Throw e
        | Ok (false, error) => Ret (false, default "" error, 400, post)
        | Ok (true, _) =>
            (* [content] is a string: [validate_content] accepted it *)
            let post := (post.1, set_content (format_json content) post.2) in
            post_save post;;
            Ret (true, "Post edited.", 200, post)
        end
    end.

(** [update_post], under [@login_required] and [@require_put_delete] *)
Definition update_post : HttpRequest → Z → prog HttpResponse :=
  login_required (λ user, require_put_delete (λ request post_id,
    found ← select (λ db, posts db !! post_id);
    match found with
    | None => Ret (JsonResponse (DError (PyStr "Post does not exist.")) 400)
    | Some row =>
        let post := (post_id, row) in
        match get_body_content request "action" with
        | inl e => Ret (JsonResponse (DError (PyStr e)) 400)
        | inr action =>
            if bool_decide (action = JStr "like") then
              '(liked, post) ← like_post post_id user;
              Ret (JsonResponse (DLiked liked (like_count post)) 200)
            else if bool_decide (action = JStr "edit") then
              '(edited, message, status, post) ← edit_post user request post;
              if edited : bool
              then Ret (JsonResponse (DEdited message (p_content post.2)) status)
              else Ret (JsonResponse (DError (PyStr message)) status)
            else if bool_decide (action = JStr "delete") then
              if bool_decide (p_user row ≠ user) then
                Ret (JsonResponse (DError (PyStr "Unauthorized.")) 403)
              else
                delete_post post;;
                Ret (JsonResponse (DMessage "Post deleted.") 200)
            else
              Ret (JsonResponse
                     (DError (PyStr ("Invalid action: " +:+ format_json action)))
                     400)
        end
    end)).

(** ** Following ([profiles.py]) *)

(** [follow_view], under [@login_required] and [@require_put] *)
Definition follow_view : HttpRequest → Z → prog HttpResponse :=
  login_required (λ user, require_put (λ request id,
    target_user ← select (λ db, get_user db (ArgInt id));
    match target_user with
    | None => Ret (JsonResponse (DError (PyStr "User not found.")) 404)
    | Some target_user =>
        if bool_decide (target_user.1 = user) then
          Ret (JsonResponse (DError (PyStr "You cannot follow yourself.")) 400)
        else
          follow ← toggle_follow user target_user.1;
          target_user ← users_get target_user.1;
          Ret (JsonResponse (DFollow follow (followers_count target_user)) 200)
    end)).

(** ** The client's scroll loop

    As [test_infinite_scroll_complete_flow] and
    [test_get_more_posts_unauthenticated_liked_posts_none] drive the two
    views: the first page comes from [posts_view]; while the last response
    said [hasNext], the next one comes from [get_more_posts] with the
    [timestamp] and [id] of the last item received. *)

Definition with_cursor (request : HttpRequest) (timestamp post_id : string)
  : HttpRequest :=
  mkRequest (req_user request) (req_method request)
    (<["timestamp" := timestamp]> (<["post_id" := post_id]> (req_GET request)))
    (req_body request).

Fixpoint scroll_more (fuel : nat) (db : DB) (request : HttpRequest)
    (filter_ : string) (last_item : SerializedPost) : list SerializedPost :=
  match fuel with
  | O => []
  | S fuel =>
      let request' :=
        with_cursor request (s_timestamp last_item) (py_str (s_id last_item)) in
      match get_more_posts db request' filter_ with
      | Ok (JsonResponse (DPosts items hasNext) 200) =>
          items ++
          (if hasNext then
             match last items with
             | Some item => scroll_more fuel db request filter_ item
             | None => []
             end
           else [])
      | _ => []
      end
  end.

Definition scroll (fuel : nat) (db : DB) (request : HttpRequest)
    (filter_ : string) : list SerializedPost :=
  match posts_view db request filter_ with
  | Ok (JsonResponse (DPosts items hasNext) 200) =>
      items ++
      (if hasNext then
         match last items with
         | Some item => scroll_more fuel db request filter_ item
         | None => []
         end
       else [])
  | _ => []
  end.
End views.

(** ** Decimal text for numbers

    An instance of the conversions in which both integers and instants are
    written in decimal, used to evaluate the views on concrete requests. *)

Definition decimal_str (i : Z) : string :=
  DecimalString.NilZero.string_of_int (Z.to_int i).

Definition decimal_int (s : string) : option Z :=
  Z.of_int <$> DecimalString.NilZero.int_of_string s.

Definition decimal_conversions : Conversions :=
  {| parse_datetime s := from_option DtValue DtNone (decimal_int s);
     isoformat := decimal_str;
     py_int := decimal_int;
     py_str := decimal_str |}.

(** ** Sequences of toggles and the facts the counters mirror *)

Inductive toggle_op :=
| LikePost (post user : Z)         (* post.like_post(user) *)
| ToggleFollow (self target : Z).  (* self.toggle_follow(target) *)

#[global] Instance toggle_op_eq_dec : EqDecision toggle_op.
Proof. solve_decision. Defined.

Definition apply_toggle (db : DB) (op : toggle_op) : DB :=
  match op with
  | LikePost post user => (run (like_post post user) db).2
  | ToggleFollow self target => (run (toggle_follow self target) db).2
  end.

Definition apply_toggles (ops : list toggle_op) (db : DB) : DB :=
  foldl apply_toggle db ops.

(** How many times a given toggle occurs in a sequence. *)
Definition toggles_of (op : toggle_op) (ops : list toggle_op) : nat :=
  length (filter (λ o, o = op) ops).

Definition like_edges (db : DB) (post : Z) : nat :=
  size (filter (λ e, e.1 = post) (post_likes db)).
(** Follow edges pointing at [u]: the rows of [u.followers]. *)
Definition follower_edges (db : DB) (u : Z) : nat :=
  size (filter (λ e, e.1 = u) (user_followers db)).
(** Follow edges out of [u]: the rows in which [u] is the follower. *)
Definition following_edges (db : DB) (u : Z) : nat :=
  size (filter (λ e, e.2 = u) (user_followers db)).

Definition counters_consistent (db : DB) : Prop :=
  (∀ id p, posts db !! id = Some p → like_count p = Z.of_nat (like_edges db id)) ∧
  (∀ id u, users db !! id = Some u →
     followers_count u = Z.of_nat (follower_edges db id) ∧
     following_count u = Z.of_nat (following_edges db id)).

(** Every liked post of the sequence is a stored row (the method is called
    on an instance loaded from the database). *)
Definition liked_posts_exist (db : DB) (ops : list toggle_op) : Prop :=
  ∀ post user, LikePost post user ∈ ops → is_Some (posts db !! post).

(** The database after each successful branch of the two toggles. *)
Definition followed (self target : Z) (db : DB) : DB :=
  set_users (alter (add_followers_count 1) target)
    (set_users (alter (add_following_count 1) self)
       (set_user_followers (λ s, {[ (target, self) ]} ∪ s) db)).

Definition unfollowed (self target : Z) (db : DB) : DB :=
  set_users (alter (add_followers_count (-1)) target)
    (set_users (alter (add_following_count (-1)) self)
       (set_user_followers (λ s, s ∖ {[ (target, self) ]}) db)).

Definition liked (post user : Z) (db : DB) : DB :=
  set_posts (alter (add_like_count 1) post)
    (set_post_likes (λ s, {[ (post, user) ]} ∪ s) db).

Definition unliked (post user : Z) (db : DB) : DB :=
  set_posts (alter (add_like_count (-1)) post)
    (set_post_likes (λ s, s ∖ {[ (post, user) ]}) db).

(** ** A concrete database

    Modelled on the fixture of [tests/base.py]: the users alice and bob, and
    thirty posts of alice one second apart, the newest first. *)

Definition BASE_TIMESTAMP : Z := 1764504000000000.

Definition fixture_posts : list PostObj :=
  (λ i, (i, mkPost 1 (BASE_TIMESTAMP - (i - 1) * 1000000)
                   "Post" 0 0)) <$> seqZ 1 30.

Definition fixture_db : DB :=
  mkDB (<[1 := mkUser "alice" 0 0 0]> (<[2 := mkUser "bob" 0 0 0]> ∅))
       (list_to_map fixture_posts) ∅ ∅ ∅.

(** Twenty-five posts of bob that all carry the same timestamp. *)
Definition tied_posts : list PostObj :=
  (λ i, (i, mkPost 2 BASE_TIMESTAMP "Post" 0 0)) <$> seqZ 1 25.

Definition tied_db : DB :=
  mkDB (users fixture_db) (list_to_map tied_posts) ∅ ∅ ∅.

(** Bob likes post 3 twice, alice follows bob and likes post 3, and alice
    tries to follow herself. *)
Definition fixture_toggles : list toggle_op :=
  [LikePost 3 2; ToggleFollow 1 2; LikePost 3 2; LikePost 3 1; ToggleFollow 1 1].

(** Requests against the fixture, after [tests/test_posts.py] and
    [tests/test_profiles.py]. *)
Definition GET_request (user : option Z) (params : list (string * string))
  : HttpRequest :=
  mkRequest user "GET" (list_to_map params) BodyEmpty.

Definition PUT_request (user : option Z) (fields : list (string * json))
  : HttpRequest :=
  mkRequest user "PUT" ∅ (BodyJson (list_to_map fields)).

(** The cursor of the last post of the fixture, and the positions of its
    tenth and last posts. *)
Definition last_post_cursor : list (string * string) :=
  [("timestamp", "1764503971000000"); ("post_id", "30")].
Definition tenth_post_position : Z * Z := (1764503991000000, 10).
Definition last_post_position : Z * Z := (1764503971000000, 30).

(** Requests of [tests/test_posts.py] with cursor text that does not parse,
    and requests in which a cursor field is empty or missing. *)
Definition unparsable_cursor_request : HttpRequest :=
  GET_request None [("timestamp", "data-que-nao-existe"); ("post_id", "abc")].
Definition empty_timestamp_request : HttpRequest :=
  GET_request None [("timestamp", ""); ("post_id", "abc")].
Definition missing_params_request : HttpRequest := GET_request None [].
(** Bob has no post: his profile is an empty view. *)
Definition bob_profile_request : HttpRequest :=
  GET_request None [("user_id", "2")].
Definition bob_profile_timestamp_only_request : HttpRequest :=
  GET_request None [("user_id", "2"); ("timestamp", "1764503991000000")].

Definition bob_likes_request : HttpRequest :=
  PUT_request (Some 2) [("action", JStr "like")].
Definition alice_follows_request : HttpRequest := PUT_request (Some 1) [].

(** * The rest of the models, helpers and views *)

(** ** Posts and comments as the models create and delete them
    ([models.py]) *)

Definition set_comments (f : gmap Z Comment → gmap Z Comment) (db : DB) : DB :=
  mkDB (users db) (posts db) (f (comments db)) (user_followers db) (post_likes db).

Definition set_timestamp (t : Z) (p : Post) : Post :=
  mkPost (p_user p) t (p_content p) (like_count p) (comment_count p).
Definition add_comment_count (delta : Z) (p : Post) : Post :=
  mkPost (p_user p) (p_timestamp p) (p_content p) (like_count p) (comment_count p + delta).
Definition set_comment_count (n : Z) (p : Post) : Post :=
  mkPost (p_user p) (p_timestamp p) (p_content p) (like_count p) n.
Definition set_c_timestamp (t : Z) (c : Comment) : Comment :=
  mkComment (c_user c) (c_post c) (c_content c) t.
Definition set_c_content (s : string) (c : Comment) : Comment :=
  mkComment (c_user c) (c_post c) s (c_timestamp c).

(** [Post(user=user, content=content)]: an instance that is not stored yet.
    Both counters take their default 0; the timestamp is unset and is
    written by [auto_now_add] when the row is inserted. *)
Definition new_post (user : Z) (content : string) : Post :=
  mkPost user 0 content 0 0.

(** [Comment(user=user, post=post, content=content)] *)
Definition new_comment (user : Z) (post : PostObj) (content : string) : Comment :=
  mkComment user post.1 content 0.

(** [Post.save_post] of an instance without primary key, as [create_post]
    calls it.  [pk] is the key the database hands out for the new row and
    [now] the clock read by [auto_now_add]; the instance is returned as it is
    after [save()]. *)
Definition save_post (pk now : Z) (self : Post) : prog PostObj :=
  atomic (
    let stored := set_timestamp now self in
    post_save (pk, stored);;
    users_update (p_user self) (add_post_count 1);;
    Ret (pk, stored)).

(** [Comment.save_comment] of a new comment whose [post] attribute is the
    instance [post].  Returns the comment as stored and [post] after
    [refresh_from_db(fields=["comment_count"])], which is the object the
    caller still holds. *)
Definition save_comment (pk now : Z) (self : Comment) (post : PostObj)
  : prog ((Z * Comment) * PostObj) :=
  atomic (
    let stored := set_c_timestamp now self in
    execute (set_comments (<[ pk := stored ]>));;
    posts_update post.1 (add_comment_count 1);;
    refreshed ← posts_get post.1;
    Ret ((pk, stored), (post.1, set_comment_count (comment_count refreshed) post.2))).

(** [Comment.delete_comment] of a comment loaded by [Comment.objects.get]:
    [self.post] is fetched inside the block.  Returns that post instance after
    its [comment_count] was refreshed. *)
Definition delete_comment (self : Z * Comment) : prog PostObj :=
  atomic (
    post ← posts_get (c_post self.2);
    execute (set_comments (delete self.1));;
    posts_update (c_post self.2) (add_comment_count (-1));;
    refreshed ← posts_get (c_post self.2);
    Ret (c_post self.2, set_comment_count (comment_count refreshed) post)).

(** ** The facts the other counters mirror *)

(** Comments that reference a post, posts that a user owns. *)
Definition comments_of (db : DB) (post : Z) : nat :=
  size (filter (λ kc, c_post kc.2 = post) (comments db)).
Definition posts_of (db : DB) (user : Z) : nat :=
  size (filter (λ kp, p_user kp.2 = user) (posts db)).

(** Every like and every comment belongs to a stored post. *)
Definition references_resolve (db : DB) : Prop :=
  (∀ e, e ∈ post_likes db → is_Some (posts db !! e.1)) ∧
  (∀ id c, comments db !! id = Some c → is_Some (posts db !! c_post c)).

(** All four kinds of counters agree with the rows they count. *)
Definition ledger_consistent (db : DB) : Prop :=
  counters_consistent db ∧
  (∀ id p, posts db !! id = Some p → comment_count p = Z.of_nat (comments_of db id)) ∧
  (∀ id u, users db !! id = Some u → post_count u = Z.of_nat (posts_of db id)) ∧
  references_resolve db.

(** The database after a successful [save_post], [delete_post],
    [save_comment] and [delete_comment]. *)
Definition post_saved (pk : Z) (stored : Post) (db : DB) : DB :=
  set_users (alter (add_post_count 1) (p_user stored))
    (set_posts (<[ pk := stored ]>) db).

Definition post_deleted (id : Z) (row : Post) (db : DB) : DB :=
  set_users (alter (add_post_count (-1)) (p_user row))
    (mkDB (users db) (delete id (posts db))
          (filter (λ kc, c_post kc.2 ≠ id) (comments db))
          (user_followers db)
          (filter (λ e, e.1 ≠ id) (post_likes db))).

Definition comment_saved (pk : Z) (stored : Comment) (db : DB) : DB :=
  set_posts (alter (add_comment_count 1) (c_post stored))
    (set_comments (<[ pk := stored ]>) db).

Definition comment_deleted (id : Z) (row : Comment) (db : DB) : DB :=
  set_posts (alter (add_comment_count (-1)) (c_post row))
    (set_comments (delete id) db).

(** The users of the fixture, without any post. *)
Definition users_db : DB := mkDB (users fixture_db) ∅ ∅ ∅ ∅.

(** The same after alice created post 7, and after bob commented on it. *)
Definition one_post_db : DB :=
  (run (save_post 7 BASE_TIMESTAMP (new_post 1 "hello")) users_db).2.
Definition hello_post : PostObj := (7, mkPost 1 BASE_TIMESTAMP "hello" 0 0).
Definition one_comment_db : DB :=
  (run (save_comment 4 (BASE_TIMESTAMP + 5) (new_comment 2 hello_post "hi")
          hello_post) one_post_db).2.

(** ** Responses of the creation, comment and profile views *)

(** [Comment.serialize]; the avatar URL is left out, as for posts. *)
Record SerializedComment := mkSerializedComment {
  sc_id : Z;
  sc_user_id : Z;
  sc_user : string;
  sc_user_is_author : bool;
  sc_content : string;
  sc_timestamp : Z;
}.

Record ProfileData := mkProfile {
  pr_username : string;
  pr_id : Z;
  pr_followers : Z;
  pr_following : Z;
  pr_follow : bool;
  pr_post_count : Z;
}.

Inductive more_data :=
| DPostData (postData : SerializedPost)                 (* {"postData": ..} *)
| DComments (comments : list SerializedComment)         (* {"comments": ..} *)
| DCommentCreated (message : string) (comment : SerializedComment)
                  (commentCount : Z)   (* {"message": .., "comment": .., "commentCount": ..} *)
| DCommentDeleted (message : string) (commentCount : Z) (* {"message": .., "commentCount": ..} *)
| DProfile (profile : ProfileData).

(** A response of one of these views: one of the bodies above, or one of
    the responses shared with the feed and post views. *)
Inductive ApiResponse :=
| Plain (r : HttpResponse)
| JsonMore (data : more_data) (status : Z).

Definition api_status (r : ApiResponse) : Z :=
  match r with
  | Plain r => status_code r
  | JsonMore _ status => status
  end.

#[global] Instance respond_api_result : Respond (result ApiResponse) :=
  λ r, Ok (Plain r).
#[global] Instance respond_api_prog : Respond (prog ApiResponse) :=
  λ r, Ret (Plain r).

Definition require_post {V R} `{Respond R} := require_http_methods (V:=V) (R:=R) ["POST"].

(** [login_required] in front of a view with these responses. *)
Definition login_required_api {V}
    (view_func : Z → HttpRequest → V → prog ApiResponse)
    (request : HttpRequest) (args : V) : prog ApiResponse :=
  match req_user request with
  | Some user => view_func user request args
  | None => Ret (Plain HttpResponseRedirect)
  end.

Definition error_response (message : string) (status : Z) : ApiResponse :=
  Plain (JsonResponse (DError (PyStr message)) status).

(** [data["liked"] = value] on a serialized post. *)
Definition set_liked (value : bool) (data : SerializedPost) : SerializedPost :=
  mkSerialized (s_id data) (s_user data) (s_user_id data)
    (s_user_is_author data) (s_content data) (s_timestamp data)
    (s_like_count data) (s_comment_count data) value.

(** No leading white space. *)
Definition starts_clean (s : string) : Prop :=
  match s with
  | String a _ => is_space a = false
  | EmptyString => True
  end.

(** Neither leading nor trailing white space. *)
Definition trimmed (s : string) : Prop :=
  starts_clean s ∧ starts_clean (String.rev s).

(** Text made of ASCII characters only, and JSON values that are such text
    or no text at all. *)
Fixpoint ascii_text (s : string) : bool :=
  match s with
  | String a s' => (Ascii.nat_of_ascii a <? 128)%nat && ascii_text s'
  | EmptyString => true
  end.

Definition ascii_json (v : json) : Prop :=
  match v with
  | JStr s => ascii_text s = true
  | _ => True
  end.

(** The field [key] of the request body, as it was sent, is ASCII text when
    it is text. *)
Definition ascii_field (request : HttpRequest) (key : string) : Prop :=
  match req_body request with
  | BodyJson data => from_option ascii_json True (data !! key)
  | _ => True
  end.

Section more_views.
Context `{Conversions}.

(** [comment.serialize(user)] *)
Definition serialize_comment (db : DB) (user : option Z) (comment : Z * Comment)
  : SerializedComment :=
  {| sc_id := comment.1;
     sc_user_id := c_user comment.2;
     sc_user := from_option username "" (users db !! c_user comment.2);
     sc_user_is_author :=
       match user with
       | Some u => bool_decide (u = c_user comment.2)
       | None => false
       end;
     sc_content := c_content comment.2;
     sc_timestamp := c_timestamp comment.2 |}.

(** [create_post], under [@login_required] and [@require_post].  [pk] and
    [now] are the key and the time the insertion gets.  The author shown is
    [request.user], read here from the users table. *)
Definition create_post (pk now : Z) : HttpRequest → unit → prog ApiResponse :=
  login_required_api (λ user, require_post (λ request _,
    match get_body_content request "content" with
    | inl error => Ret (error_response error 400)
    | inr content =>
        match validate_content content 250 with
        | Raised e => Throw e
        | Ok (false, error) => Ret (error_response (default "" error) 400)
        | Ok (true, _) =>
            (* [content] is a string: [validate_content] accepted it *)
            post ← save_post pk now (new_post user (format_json content));
            data ← select (λ db, serialize db (Some user) post);
            Ret (JsonMore (DPostData (set_liked false data)) 201)
        end
    end)).

(** [c1] does not come after [c2] under [ORDER BY timestamp DESC]. *)
Definition newer_comment (c1 c2 : Z * Comment) : Prop :=
  c_timestamp c2.2 ≤ c_timestamp c1.2.

#[global] Instance newer_comment_dec c1 c2 : Decision (newer_comment c1 c2).
Proof. unfold newer_comment. apply _. Defined.

(** [Comment.objects.filter(post_id=post_id).order_by("-timestamp")] *)
Definition post_comments (db : DB) (post_id : Z) : list (Z * Comment) :=
  merge_sort newer_comment
    (filter (λ kc, c_post kc.2 = post_id) (map_to_list (comments db))).

(** [comments_view], under [@require_get] *)
Definition comments_view (db : DB) : HttpRequest → Z → result ApiResponse :=
  require_get (λ request post_id,
    Ok (JsonMore
          (DComments (serialize_comment db (req_user request)
                        <$> post_comments db post_id))
          200)).

(** [create_comment], under [@login_required] and [@require_post] *)
Definition create_comment (pk now : Z) : HttpRequest → Z → prog ApiResponse :=
  login_required_api (λ user, require_post (λ request post_id,
    match get_body_content request "content" with
    | inl error => Ret (error_response error 400)
    | inr content =>
        match validate_content content 100 with
        | Raised e => Throw e
        | Ok (false, error) => Ret (error_response (default "" error) 400)
        | Ok (true, _) =>
            found ← select (λ db, posts db !! post_id);
            match found with
            | None => Ret (error_response "Post does not exist." 400)
            | Some row =>
                let post := (post_id, row) in
                '(comment, post) ←
                  save_comment pk now
                    (new_comment user post (format_json content)) post;
                data ← select (λ db, serialize_comment db (Some user) comment);
                Ret (JsonMore
                       (DCommentCreated "Comment created." data
                                        (comment_count post.2))
                       201)
            end
        end
    end)).

(** [update_comment], under [@login_required] and [@require_put_delete] *)
Definition update_comment : HttpRequest → Z → prog ApiResponse :=
  login_required_api (λ user, require_put_delete (λ request comment_id,
    found ← select (λ db, comments db !! comment_id);
    match found with
    | None => Ret (error_response "Comment does not exist." 400)
    | Some row =>
        let comment := (comment_id, row) in
        match get_body_content request "action" with
        | inl e => Ret (error_response e 400)
        | inr action =>
            if bool_decide (action = JStr "delete") then
              if bool_decide (c_user row ≠ user) then
                Ret (error_response "Unauthorized." 403)
              else
                post ← delete_comment comment;
                Ret (JsonMore
                       (DCommentDeleted "Comment deleted." (comment_count post.2))
                       200)
            else if bool_decide (action = JStr "edit") then
              match get_body_content request "content" with
              | inl error => Ret (error_response error 400)
              | inr content =>
                  match validate_content content 100 with
                  | Raised e => Throw e
                  | Ok (false, error) =>
                      Ret (error_response (default "" error) 400)
                  | Ok (true, _) =>
                      let row := set_c_content (format_json content) row in
                      execute (set_comments (<[ comment_id := row ]>));;
                      Ret (Plain (JsonResponse
                                    (DEdited "Comment edited." (c_content row))
                                    200))
                  end
              end
            else
              Ret (error_response ("Invalid action: " +:+ format_json action) 400)
        end
    end)).

(** [profile_view], under [@require_get]; the picture URL is left out. *)
Definition profile_view (db : DB) : HttpRequest → Z → result ApiResponse :=
  require_get (λ request id,
    match get_user db (ArgInt id) with
    | None => Ok (error_response "User not found." 404)
    | Some user =>
        let is_following :=
          match req_user request with
          | Some requester => bool_decide ((user.1, requester) ∈ user_followers db)
          | None => false
          end in
        Ok (JsonMore
              (DProfile
                 {| pr_username := username user.2;
                    pr_id := user.1;
                    pr_followers := followers_count user.2;
                    pr_following := following_count user.2;
                    pr_follow := is_following;
                    pr_post_count := post_count user.2 |})
              200)
    end).
(** The posts a feed request asks for: every post, the posts of the users
    the requester follows, or the posts of the user named in [user_id]. *)
Definition view_shows (db : DB) (request : HttpRequest) (filter_ : string)
    (p : Post) : Prop :=
  filter_ = "all" ∨
  (filter_ = "following" ∧
   ∃ u, req_user request = Some u ∧ (p_user p, u) ∈ user_followers db) ∨
  (filter_ = "profile" ∧
   ∃ user, get_user db (param_arg (req_GET request !! "user_id")) = Some user ∧
           p_user p = user.1).
End more_views.

(** ** Requests against the small databases

    After [tests/test_posts.py], [tests/test_comments.py] and
    [tests/test_profiles.py]. *)
Definition POST_request (user : option Z) (fields : list (string * json))
  : HttpRequest :=
  mkRequest user "POST" ∅ (BodyJson (list_to_map fields)).

Definition DELETE_request (user : option Z) (fields : list (string * json))
  : HttpRequest :=
  mkRequest user "DELETE" ∅ (BodyJson (list_to_map fields)).

(** Alice edits and deletes her post 7, and writes a new one. *)
Definition alice_edits_request : HttpRequest :=
  PUT_request (Some 1) [("action", JStr "edit"); ("content", JStr "  Edited  ")].
Definition alice_deletes_request : HttpRequest :=
  DELETE_request (Some 1) [("action", JStr "delete")].
Definition alice_posts_request : HttpRequest :=
  POST_request (Some 1) [("content", JStr " Second post ")].

(** Bob comments, then edits and deletes his comment 4; alice tries the same
    on bob's comment. *)
Definition bob_comments_request : HttpRequest :=
  POST_request (Some 2) [("content", JStr " Nice ")].
Definition bob_edits_comment_request : HttpRequest :=
  PUT_request (Some 2) [("action", JStr "edit"); ("content", JStr "hello")].
Definition bob_deletes_comment_request : HttpRequest :=
  DELETE_request (Some 2) [("action", JStr "delete")].
Definition alice_edits_comment_request : HttpRequest :=
  PUT_request (Some 1) [("action", JStr "edit"); ("content", JStr "Rewritten")].
Definition alice_deletes_comment_request : HttpRequest :=
  DELETE_request (Some 1) [("action", JStr "delete")].

(** Bob follows alice. *)
Definition bob_follows_request : HttpRequest := PUT_request (Some 2) [].

(** A post of bob that is newer than every post of the fixture. *)
Definition newest_post : PostObj :=
  (31, mkPost 2 (BASE_TIMESTAMP + 1000000) "New" 0 0).

(** Continuation requests with the timestamp only, and with an empty
    [post_id]. *)
Definition timestamp_only_request : HttpRequest :=
  GET_request None [("timestamp", "1764503991000000")].
Definition empty_post_id_request : HttpRequest :=
  GET_request None [("timestamp", "1764503991000000"); ("post_id", "")].

(** Bob sends an action that does not exist, and no action at all. *)
Definition bob_shouts_request : HttpRequest :=
  PUT_request (Some 2) [("action", JStr "shout")].
Definition bob_says_nothing_request : HttpRequest := PUT_request (Some 2) [].

(** Alice's second post, one second after the first, and the database that
    holds both. *)
Definition world_post : PostObj :=
  (8, mkPost 1 (BASE_TIMESTAMP + 1000000) "world" 0 0).
Definition two_posts_db : DB :=
  (run (save_post 8 (BASE_TIMESTAMP + 1000000) (new_post 1 "world"))
     one_post_db).2.
Definition alice_posts_again_request : HttpRequest :=
  POST_request (Some 1) [("content", JStr " world ")].

(** * Properties *)

(** Closes a decidable closed goal by evaluation. *)
Ltac by_compute :=
  match goal with
  | |- ?P => apply (bool_decide_unpack P); vm_compute; exact I
  end.

(** ** Counting edges of a relation *)

Section edge_count.
Context (P : Z * Z → Prop) `{!∀ e, Decision (P e)}.
Implicit Types (S : gset (Z * Z)) (e : Z * Z).

Lemma size_filter_add S e :
  e ∉ S →
  size (filter P ({[e]} ∪ S))
  = ((if decide (P e) then 1 else 0) + size (filter P S))%nat.
Proof.
  intros Hnew. rewrite filter_union_L by apply _.
  rewrite size_union by (apply disjoint_filter; set_solver).
  rewrite filter_singleton_L by apply _.
  destruct (decide (P e)); by rewrite ?size_singleton, ?size_empty.
Qed.

Lemma size_filter_remove S e :
  e ∈ S →
  size (filter P S)
  = ((if decide (P e) then 1 else 0) + size (filter P (S ∖ {[e]})))%nat.
Proof.
  intros Hin. rewrite <- size_filter_add by set_solver.
  f_equal. apply set_eq. intros x. destruct (decide (x = e)); set_solver.
Qed.
End edge_count.

(** ** What one toggle does to the database *)

Lemma run_toggle_follow self target db :
  run (toggle_follow self target) db =
    if decide (self = target) then (Ok false, db)
    else if decide ((target, self) ∈ user_followers db)
         then (Ok false, unfollowed self target db)
         else (Ok true, followed self target db).
Proof.
  unfold toggle_follow. case_bool_decide; case_decide; try done.
  cbn. case_bool_decide; case_decide; done.
Qed.

Lemma run_like_post post user db :
  run (like_post post user) db =
    match posts db !! post with
    | None => (Raised DoesNotExist, db)
    | Some p =>
        if decide ((post, user) ∈ post_likes db)
        then (Ok (false, add_like_count (-1) p), unliked post user db)
        else (Ok (true, add_like_count 1 p), liked post user db)
    end.
Proof.
  unfold like_post. cbn. case_bool_decide; case_decide; try done; cbn;
    rewrite lookup_alter_eq; by destruct (posts db !! post).
Qed.

Lemma apply_toggle_follow self target db :
  apply_toggle db (ToggleFollow self target) =
    if decide (self = target) then db
    else if decide ((target, self) ∈ user_followers db)
         then unfollowed self target db else followed self target db.
Proof. unfold apply_toggle. rewrite run_toggle_follow. by repeat case_decide. Qed.

Lemma apply_toggle_like post user db :
  apply_toggle db (LikePost post user) =
    match posts db !! post with
    | None => db
    | Some _ => if decide ((post, user) ∈ post_likes db)
                then unliked post user db else liked post user db
    end.
Proof.
  unfold apply_toggle. rewrite run_like_post. destruct (posts db !! post); [|done].
  by case_decide.
Qed.

(** The rows of the tables never appear or disappear under a toggle. *)
Lemma apply_toggle_posts_dom db op id :
  is_Some (posts (apply_toggle db op) !! id) ↔ is_Some (posts db !! id).
Proof.
  destruct op as [post user|self target].
  - rewrite apply_toggle_like. destruct (posts db !! post) eqn:Hp; [|done].
    case_decide; cbn; rewrite lookup_alter_is_Some; done.
  - rewrite apply_toggle_follow. by repeat case_decide.
Qed.

(** ** The counters follow the edges *)

Lemma counters_consistent_toggle db op :
  counters_consistent db → counters_consistent (apply_toggle db op).
Proof.
  intros [Hlikes Hfollows]. destruct op as [post user|self target].
  - rewrite apply_toggle_like. destruct (posts db !! post) eqn:Hpost; [|done].
    case_decide as Hin; (split; [|done]); intros id q; cbn;
      unfold like_edges; cbn; rewrite lookup_alter;
      case_decide as Hid; (try subst id); intros Hp.
    + rewrite Hpost in Hp. injection Hp as <-. cbn.
      rewrite (Hlikes _ _ Hpost). unfold like_edges.
      rewrite (size_filter_remove _ _ _ Hin). rewrite decide_True by done. lia.
    + rewrite (Hlikes _ _ Hp). unfold like_edges.
      rewrite (size_filter_remove _ _ _ Hin). rewrite decide_False; [done|].
      cbn. congruence.
    + rewrite Hpost in Hp. injection Hp as <-. cbn.
      rewrite (Hlikes _ _ Hpost). unfold like_edges.
      rewrite size_filter_add by done. rewrite decide_True by done. lia.
    + rewrite (Hlikes _ _ Hp). unfold like_edges.
      rewrite size_filter_add by done. rewrite decide_False; [done|].
      cbn. congruence.
  - rewrite apply_toggle_follow. case_decide as Hself; [done|].
    case_decide as Hin; (split; [done|]); intros id u; cbn;
      unfold follower_edges, following_edges; cbn.
    + rewrite !lookup_alter.
      repeat case_decide; subst; try done; intros Hu;
        try (apply fmap_Some in Hu as (u0 & Hu0 & ->));
        try (apply fmap_Some in Hu0 as (u1 & Hu1 & ->));
        cbn; match goal with H : users db !! _ = Some _ |- _ =>
          destruct (Hfollows _ _ H) as [E1 E2] end;
        unfold follower_edges, following_edges in E1, E2;
        rewrite (size_filter_remove (λ e, e.1 = _) _ _ Hin) in E1;
        rewrite (size_filter_remove (λ e, e.2 = _) _ _ Hin) in E2; cbn in E1, E2;
        repeat case_decide; try congruence; lia.
    + rewrite (size_filter_add (λ e, e.1 = id)) by done.
      rewrite (size_filter_add (λ e, e.2 = id)) by done.
      cbn. rewrite !lookup_alter.
      repeat case_decide; subst; try done; intros Hu;
        try (apply fmap_Some in Hu as (u0 & Hu0 & ->));
        try (apply fmap_Some in Hu0 as (u1 & Hu1 & ->));
        cbn; match goal with H : users db !! _ = Some _ |- _ =>
          destruct (Hfollows _ _ H) as [E1 E2] end;
        unfold follower_edges, following_edges in E1, E2; lia.
Qed.

Lemma counters_consistent_toggles ops db :
  counters_consistent db → counters_consistent (apply_toggles ops db).
Proof.
  revert db. induction ops as [|op ops IH]; intros db Hdb; [done|].
  apply IH. by apply counters_consistent_toggle.
Qed.

(** ** Presence of an edge is the parity of its toggles *)

Lemma toggles_of_cons op o ops :
  toggles_of op (o :: ops)
  = ((if decide (o = op) then 1 else 0) + toggles_of op ops)%nat.
Proof. unfold toggles_of. rewrite filter_cons. by case_decide. Qed.

Lemma liked_posts_exist_cons db op ops :
  liked_posts_exist db (op :: ops) → liked_posts_exist (apply_toggle db op) ops.
Proof.
  intros H post user Hin. apply apply_toggle_posts_dom. eapply H.
  right. exact Hin.
Qed.

Lemma like_edge_toggle db op post user :
  (∀ user', op = LikePost post user' → is_Some (posts db !! post)) →
  bool_decide ((post, user) ∈ post_likes (apply_toggle db op))
  = xorb (bool_decide ((post, user) ∈ post_likes db))
         (bool_decide (op = LikePost post user)).
Proof.
  intros Hrow. destruct op as [post' user'|self target].
  - rewrite apply_toggle_like.
    destruct (decide (post' = post)) as [->|Hne].
    + destruct (Hrow user' eq_refl) as [p ->].
      case_decide; cbn; repeat case_bool_decide; simplify_eq; cbn;
        try done; set_solver.
    + destruct (posts db !! post');
        [case_decide|]; cbn; repeat case_bool_decide; simplify_eq; cbn;
        try done; set_solver.
  - rewrite apply_toggle_follow.
    repeat case_decide; cbn; repeat case_bool_decide; simplify_eq; done.
Qed.

Lemma follow_edge_toggle db op self target :
  self ≠ target →
  bool_decide ((target, self) ∈ user_followers (apply_toggle db op))
  = xorb (bool_decide ((target, self) ∈ user_followers db))
         (bool_decide (op = ToggleFollow self target)).
Proof.
  intros Hne. destruct op as [post' user'|self' target'].
  - rewrite apply_toggle_like.
    destruct (posts db !! post'); [case_decide|]; cbn;
      repeat case_bool_decide; simplify_eq; done.
  - rewrite apply_toggle_follow.
    repeat case_decide; cbn; repeat case_bool_decide; simplify_eq; cbn;
      try done; set_solver.
Qed.

Lemma self_edge_toggle db op u :
  (u, u) ∈ user_followers (apply_toggle db op) ↔ (u, u) ∈ user_followers db.
Proof.
  destruct op as [post' user'|self' target'].
  - rewrite apply_toggle_like.
    destruct (posts db !! post'); [case_decide|]; done.
  - rewrite apply_toggle_follow. repeat case_decide; cbn; set_solver.
Qed.

Lemma xorb_odd_step (b : bool) (c : bool) n :
  xorb (xorb b c) (Nat.odd n) = xorb b (Nat.odd ((if c then 1 else 0) + n)).
Proof.
  destruct c; cbn [Nat.add]; [|by rewrite xorb_false_r].
  rewrite Nat.odd_succ, <- Nat.negb_odd. by destruct b, (Nat.odd n).
Qed.

Lemma like_edge_toggles ops db post user :
  liked_posts_exist db ops →
  bool_decide ((post, user) ∈ post_likes (apply_toggles ops db))
  = xorb (bool_decide ((post, user) ∈ post_likes db))
         (Nat.odd (toggles_of (LikePost post user) ops)).
Proof.
  revert db. induction ops as [|op ops IH]; intros db Hrows.
  { cbn. by rewrite xorb_false_r. }
  cbn [apply_toggles foldl]. fold (apply_toggles ops (apply_toggle db op)).
  rewrite IH by by apply liked_posts_exist_cons.
  rewrite like_edge_toggle.
  2:{ intros user' ->. eapply Hrows. left. }
  rewrite toggles_of_cons, xorb_odd_step.
  do 2 f_equal. by case_bool_decide; case_decide.
Qed.

Lemma follow_edge_toggles ops db self target :
  self ≠ target →
  bool_decide ((target, self) ∈ user_followers (apply_toggles ops db))
  = xorb (bool_decide ((target, self) ∈ user_followers db))
         (Nat.odd (toggles_of (ToggleFollow self target) ops)).
Proof.
  intros Hne. revert db. induction ops as [|op ops IH]; intros db.
  { cbn. by rewrite xorb_false_r. }
  cbn [apply_toggles foldl]. fold (apply_toggles ops (apply_toggle db op)).
  rewrite IH, follow_edge_toggle by done.
  rewrite toggles_of_cons, xorb_odd_step.
  do 2 f_equal. by case_bool_decide; case_decide.
Qed.

Lemma self_edge_toggles ops db u :
  (u, u) ∈ user_followers (apply_toggles ops db) ↔ (u, u) ∈ user_followers db.
Proof.
  revert db. induction ops as [|op ops IH]; intros db; [done|].
  cbn [apply_toggles foldl]. fold (apply_toggles ops (apply_toggle db op)).
  by rewrite IH, self_edge_toggle.
Qed.

(** A database without edges and with every counter at zero is consistent. *)
Lemma counters_consistent_fresh db :
  post_likes db = ∅ → user_followers db = ∅ →
  map_Forall (λ _ p, like_count p = 0) (posts db) →
  map_Forall (λ _ u, followers_count u = 0 ∧ following_count u = 0) (users db) →
  counters_consistent db.
Proof.
  intros Hl Hf Hp Hu. split.
  - intros id p Hid. unfold like_edges. rewrite Hl, (Hp _ _ Hid).
    by rewrite filter_empty_L, size_empty by apply _.
  - intros id u Hid. unfold follower_edges, following_edges. rewrite Hf.
    rewrite !filter_empty_L, size_empty by apply _. exact (Hu _ _ Hid).
Qed.

Lemma fixture_db_consistent : counters_consistent fixture_db.
Proof.
  apply counters_consistent_fresh; [done|done|..]; by_compute.
Qed.

(** C1 (as amended).  From a consistent database, after any sequence of
    [like_post] and [toggle_follow] calls: every stored like_count,
    followers_count and following_count equals the number of present edges it
    mirrors; a like edge that was absent at the start is present exactly when
    its pair was toggled an odd number of times; so is a follow edge between
    two different users; a self-targeted [toggle_follow] changes nothing, so
    a user never follows itself however often that pair is toggled. *)
Theorem toggle_sequence_parity_and_counters db ops :
  counters_consistent db →
  liked_posts_exist db ops →
  counters_consistent (apply_toggles ops db) ∧
  (∀ post user,
     (post, user) ∉ post_likes db →
     ((post, user) ∈ post_likes (apply_toggles ops db)
      ↔ Nat.odd (toggles_of (LikePost post user) ops) = true)) ∧
  (∀ self target,
     self ≠ target →
     (target, self) ∉ user_followers db →
     ((target, self) ∈ user_followers (apply_toggles ops db)
      ↔ Nat.odd (toggles_of (ToggleFollow self target) ops) = true)) ∧
  (∀ u, (u, u) ∉ user_followers db →
        (u, u) ∉ user_followers (apply_toggles ops db)).
Proof.
  intros Hdb Hrows. split; [by apply counters_consistent_toggles|].
  split; [|split].
  - intros post user Habs.
    pose proof (like_edge_toggles ops db post user Hrows) as E.
    rewrite (bool_decide_eq_false_2 _ Habs) in E. cbn in E.
    rewrite <- E. by rewrite bool_decide_eq_true.
  - intros self target Hne Habs.
    pose proof (follow_edge_toggles ops db self target Hne) as E.
    rewrite (bool_decide_eq_false_2 _ Habs) in E. cbn in E.
    rewrite <- E. by rewrite bool_decide_eq_true.
  - intros u Habs. by rewrite self_edge_toggles.
Qed.

Lemma toggle_sequence_parity_and_counters_fixture :
  (counters_consistent (apply_toggles fixture_toggles fixture_db)) ∧
  (3, 1) ∈ post_likes (apply_toggles fixture_toggles fixture_db) ∧
  ((3, 2) ∉ post_likes (apply_toggles fixture_toggles fixture_db)) ∧
  (2, 1) ∈ user_followers (apply_toggles fixture_toggles fixture_db) ∧
  (1, 1) ∉ user_followers (apply_toggles fixture_toggles fixture_db).
Proof.
  assert (liked_posts_exist fixture_db fixture_toggles) as Hrows.
  { intros post user Hin.
    unfold fixture_toggles in Hin.
    repeat (apply elem_of_cons in Hin as [Hin|Hin];
            [first [discriminate Hin|injection Hin as -> ->; by_compute]|]).
    by apply elem_of_nil in Hin. }
  pose proof (toggle_sequence_parity_and_counters fixture_db fixture_toggles
                fixture_db_consistent Hrows) as (Hc & Hlike & Hfollow & Hself).
  split; [exact Hc|]. split; [|split; [|split]].
  - refine (proj2 (Hlike 3 1 _) _); by_compute.
  - intros Hin. refine (_ (proj1 (Hlike 3 2 _) Hin)); [by vm_compute|by_compute].
  - refine (proj2 (Hfollow 1 2 _ _) _); by_compute.
  - refine (Hself 1 _). by_compute.
Defined.

(** C1, as the claim states it, fails on the self pair: one
    [toggle_follow] of user 1 on itself is an odd number of toggles and
    leaves the edge absent. *)
Lemma self_follow_toggled_once_not_present :
  ¬ ((1, 1) ∈ user_followers (apply_toggles [ToggleFollow 1 1] fixture_db)
     ↔ Nat.odd (toggles_of (ToggleFollow 1 1) [ToggleFollow 1 1]) = true).
Proof.
  intros [_ H]. specialize (H eq_refl). by vm_compute in H.
Qed.

(** ** Where the membership check runs *)

Lemma like_post_all_in_txn post user : all_in_txn (like_post post user).
Proof. by intros b. Qed.

(** Two follow requests of user 1 for user 2 served one after the other
    cancel out: no edge, both counters back at zero. *)
Lemma toggle_follow_twice_in_sequence :
  let db' := apply_toggles [ToggleFollow 1 2; ToggleFollow 1 2] fixture_db in
  user_followers db' = ∅ ∧
  followers_count <$> users db' !! 2 = Some 0 ∧
  following_count <$> users db' !! 1 = Some 0.
Proof. by vm_compute. Qed.

(** C4.  [like_post] checks membership inside its atomic block, but
    [toggle_follow] runs [followers.filter(...).exists()] before entering
    [transaction.atomic()].  When two requests of user 1 to follow user 2 both
    run the check before either block, both take the follow branch: one edge
    is stored and each counter is incremented twice. *)
Theorem toggle_follow_checks_membership_outside_transaction :
  (∀ post user, all_in_txn (like_post post user)) ∧
  ¬ all_in_txn (toggle_follow 1 2) ∧
  (let '(reqs, db') :=
     interleave [0; 1; 0; 1]%nat [toggle_follow 1 2; toggle_follow 1 2]
                fixture_db in
   reqs = [Ret true; Ret true] ∧
   user_followers db' = {[ (2, 1) ]} ∧
   followers_count <$> users db' !! 2 = Some 2 ∧
   following_count <$> users db' !! 1 = Some 2 ∧
   ¬ counters_consistent db').
Proof.
  split; [exact like_post_all_in_txn|]. split; [by intros []|].
  vm_compute interleave. repeat split; try by vm_compute.
  intros [_ Hf].
  specialize (Hf 2 (mkUser "bob" 0 2 0) ltac:(by vm_compute)).
  vm_compute in Hf. by destruct Hf.
Qed.

(** ** The feed order *)

#[global] Instance cursor_ge_total : Total cursor_ge.
Proof. intros p q. unfold cursor_ge. lia. Qed.

#[global] Instance cursor_ge_trans : Transitive cursor_ge.
Proof. intros p q r. unfold cursor_ge. lia. Qed.

Lemma cursor_gt_irrefl p : ¬ cursor_gt p p.
Proof. unfold cursor_gt. lia. Qed.

Lemma cursor_ge_gt p q : cursor_ge p q → p.1 ≠ q.1 → cursor_gt p q.
Proof. unfold cursor_ge, cursor_gt. lia. Qed.

Lemma order_by_cursor_perm posts_qs : order_by_cursor posts_qs ≡ₚ posts_qs.
Proof. apply merge_sort_Permutation. Qed.

Lemma order_by_cursor_sorted posts_qs :
  StronglySorted cursor_ge (order_by_cursor posts_qs).
Proof. apply StronglySorted_merge_sort; apply _. Qed.

(** With distinct primary keys the order is strict. *)
Lemma StronglySorted_strict (l : list PostObj) :
  NoDup l.*1 → StronglySorted cursor_ge l → StronglySorted cursor_gt l.
Proof.
  induction l as [|p l IH]; intros Hnd Hs; [constructor|].
  apply NoDup_cons in Hnd as [Hp Hnd]. apply StronglySorted_inv in Hs as [Hs Hall].
  constructor; [by apply IH|].
  apply Forall_forall. intros q Hq. apply cursor_ge_gt.
  - by eapply Forall_forall in Hall.
  - intros Heq. apply Hp. rewrite Heq. apply list_elem_of_fmap. by exists q.
Qed.

Lemma order_by_cursor_strict posts_qs :
  NoDup posts_qs.*1 → StronglySorted cursor_gt (order_by_cursor posts_qs).
Proof.
  intros Hnd. apply StronglySorted_strict; [|apply order_by_cursor_sorted].
  by rewrite order_by_cursor_perm.
Qed.

Lemma StronglySorted_filter {A} (R : relation A) (P : A → Prop)
    `{!∀ x, Decision (P x)} (l : list A) :
  StronglySorted R l → StronglySorted R (filter P l).
Proof.
  induction 1 as [|x l Hs IH Hall]; [constructor|].
  rewrite filter_cons. case_decide; [|done].
  constructor; [done|]. apply Forall_forall. intros y Hy.
  apply list_elem_of_filter in Hy as [_ Hy]. by eapply Forall_forall in Hall.
Qed.

(** ** One page *)

Lemma filter_in_range_cursor t i (l : list PostObj) :
  filter (in_range (Some (t, i))) l = filter (after_cursor t i) l.
Proof. by apply list_filter_iff. Qed.

Lemma fetch_page_spec (posts : list PostObj) :
  fetch_page posts =
    PyTuple3 PyNone (PyBool (bool_decide (10 < length posts)%nat))
             (PyPosts (take 10 posts)).
Proof.
  unfold fetch_page, POST_LIMIT. rewrite take_take, length_take.
  do 2 f_equal. apply bool_decide_ext. lia.
Qed.

Section paginate.
Context `{Conversions}.

Lemma paginate_posts_reads posts_qs timestamp post_id cursor :
  request_cursor timestamp post_id cursor →
  paginate_posts posts_qs timestamp post_id
  = fetch_page (filter (in_range cursor) (order_by_cursor posts_qs)).
Proof.
  destruct 1 as [|ts pid t i Hts Hpid Ht Hi]; unfold paginate_posts; cbn.
  - f_equal. symmetry. induction (order_by_cursor posts_qs) as [|p l IH]; [done|].
    rewrite filter_cons_True by done. by f_equal.
  - rewrite !bool_decide_eq_true_2 by done. cbn. by rewrite Ht, Hi.
Qed.

(** C2.  Over any set of posts with distinct ids, a page request (a first
    page, or a continuation whose cursor parses to [(t, i)]) returns the
    first ten posts, in (timestamp descending, id descending) order, of
    the posts it ranges over (all of them, or those with
    [timestamp < t ∨ (timestamp = t ∧ id < i)]), and [has_next] is true
    exactly when more than ten such posts exist. *)
Theorem paginate_posts_page posts_qs timestamp post_id cursor :
  NoDup posts_qs.*1 →
  request_cursor timestamp post_id cursor →
  ∃ ordered,
    ordered ≡ₚ filter (in_range cursor) posts_qs ∧
    StronglySorted cursor_gt ordered ∧
    paginate_posts posts_qs timestamp post_id
    = PyTuple3 PyNone
        (PyBool (bool_decide
                   (10 < length (filter (in_range cursor) posts_qs))%nat))
        (PyPosts (take 10 ordered)).
Proof.
  intros Hnd Hcur. exists (filter (in_range cursor) (order_by_cursor posts_qs)).
  split; [by rewrite order_by_cursor_perm|]. split.
  - by apply StronglySorted_filter, order_by_cursor_strict.
  - rewrite (paginate_posts_reads _ _ _ _ Hcur), fetch_page_spec.
    do 2 f_equal. apply bool_decide_ext.
    assert (length (filter (in_range cursor) (order_by_cursor posts_qs))
            = length (filter (in_range cursor) posts_qs)) as ->; [|done].
    by rewrite order_by_cursor_perm.
Qed.
End paginate.

(** ** Responses of the two feed views *)

Lemma filter_all {A} (P : A → Prop) `{!∀ x, Decision (P x)} (l : list A) :
  Forall P l → filter P l = l.
Proof.
  induction 1 as [|x l Hx _ IH]; [done|]. by rewrite filter_cons_True, IH.
Qed.

Lemma filter_none {A} (P : A → Prop) `{!∀ x, Decision (P x)} (l : list A) :
  Forall (λ x, ¬ P x) l → filter P l = [].
Proof.
  induction 1 as [|x l Hx _ IH]; [done|]. by rewrite filter_cons_False.
Qed.

Lemma NoDup_fst_filter {A B} (P : A * B → Prop) `{!∀ x, Decision (P x)}
    (l : list (A * B)) :
  NoDup l.*1 → NoDup (filter P l).*1.
Proof.
  induction l as [|x l IH]; [done|]. rewrite fmap_cons.
  intros [Hx Hl]%NoDup_cons.
  rewrite filter_cons. case_decide; [|by apply IH].
  rewrite fmap_cons. apply NoDup_cons. split; [|by apply IH].
  intros (y & Hy1 & Hy2)%list_elem_of_fmap. apply Hx.
  apply list_elem_of_filter in Hy2 as [_ Hy2].
  apply list_elem_of_fmap. by exists y.
Qed.

Section feed.
Context `{Conversions}.

Lemma get_posts_NoDup db request filter_ error posts_qs status :
  get_posts db request filter_ = (error, posts_qs, status) →
  NoDup posts_qs.*1.
Proof.
  pose proof (NoDup_fst_map_to_list (posts db)) as Hall.
  unfold get_posts, all_posts.
  repeat case_bool_decide; repeat case_match; simplify_eq; cbn;
    intros [= <- <- <-]; cbn;
    try apply NoDup_nil_2; try done; by apply NoDup_fst_filter.
Qed.

Lemma posts_view_page db request filter_ posts_qs :
  req_method request = "GET" →
  get_posts db request filter_ = (None, posts_qs, 200) →
  posts_view db request filter_
  = Ok (JsonResponse
          (DPosts (serialize db (req_user request)
                     <$> take 10 (order_by_cursor posts_qs))
                  (bool_decide (10 < length posts_qs)%nat))
          200).
Proof.
  intros Hget Hview. unfold posts_view, require_get, require_http_methods.
  rewrite Hget, bool_decide_eq_true_2 by set_solver. rewrite Hview.
  change (paginate_posts posts_qs None None)
    with (fetch_page (order_by_cursor posts_qs)).
  rewrite fetch_page_spec. cbn [unpack3].
  assert (length (order_by_cursor posts_qs) = length posts_qs) as Hlen
    by by rewrite order_by_cursor_perm.
  unfold page_response, truthy. case_bool_decide as Hempty; cbn [negb].
  - do 3 f_equal. apply bool_decide_ext. by rewrite Hlen.
  - rewrite Hempty. cbn. do 3 f_equal.
    symmetry. apply bool_decide_eq_false_2.
    destruct (order_by_cursor posts_qs) as [|p l] eqn:E;
      [rewrite <- Hlen; cbn; lia|done].
Qed.

Lemma get_more_posts_page db request filter_ posts_qs t i :
  req_method request = "GET" →
  get_posts db request filter_ = (None, posts_qs, 200) →
  request_cursor (req_GET request !! "timestamp")
                 (req_GET request !! "post_id") (Some (t, i)) →
  let rest := filter (after_cursor t i) (order_by_cursor posts_qs) in
  get_more_posts db request filter_
  = Ok (JsonResponse
          (DPosts (serialize db (req_user request) <$> take 10 rest)
                  (bool_decide (10 < length rest)%nat))
          (if decide (rest = []) then 204 else 200)).
Proof.
  intros Hget Hview Hcur rest.
  unfold get_more_posts, require_get, require_http_methods.
  rewrite Hget, bool_decide_eq_true_2 by set_solver. rewrite Hview.
  rewrite (paginate_posts_reads _ _ _ _ Hcur), filter_in_range_cursor.
  fold rest. rewrite fetch_page_spec. cbn [unpack3 truthy].
  unfold page_response, truthy. case_bool_decide as Hempty; cbn [negb].
  - rewrite decide_False; [done|]. by intros ->.
  - destruct rest as [|p l]; [|done]. by rewrite decide_True.
Qed.

Lemma get_posts_with_cursor db request filter_ ts pid :
  get_posts db (with_cursor request ts pid) filter_
  = get_posts db request filter_.
Proof.
  unfold get_posts, with_cursor. cbn.
  by rewrite !lookup_insert_ne by done.
Qed.
End feed.

(** ** Scrolling through the whole feed *)

(** What lies strictly after an item of a strictly ordered list is the part
    of the list behind it. *)
Lemma filter_after_cursor_split (A B : list PostObj) (x : PostObj) :
  StronglySorted cursor_gt (A ++ x :: B) →
  filter (after_cursor (p_timestamp x.2) x.1) (A ++ x :: B) = B.
Proof.
  intros (Hcross & _ & [HB _]%StronglySorted_cons)%StronglySorted_app.
  rewrite filter_app, filter_cons_False by apply cursor_gt_irrefl.
  rewrite filter_none, filter_all; [done|exact HB|].
  apply Forall_forall. intros a Ha Hafter.
  assert (cursor_gt a x) as Hax by (apply Hcross; [done|left]).
  revert Hafter Hax. unfold after_cursor, cursor_gt. lia.
Qed.

Section scroll.
Context `{Conversions, !ConversionsRoundTrip}.

Lemma scroll_more_rest db request filter_ posts_qs fuel :
  req_method request = "GET" →
  get_posts db request filter_ = (None, posts_qs, 200) →
  ∀ A x B,
    order_by_cursor posts_qs = A ++ x :: B →
    (length B ≤ 10 * fuel)%nat →
    scroll_more fuel db request filter_ (serialize db (req_user request) x)
    = serialize db (req_user request) <$> B.
Proof.
  intros Hget Hview.
  pose proof (order_by_cursor_strict _ (get_posts_NoDup _ _ _ _ _ _ Hview))
    as Hsorted.
  induction fuel as [|fuel IH]; intros A x B Hsplit Hlen.
  { destruct B; [done|cbn in Hlen; lia]. }
  cbn [scroll_more serialize s_timestamp s_id].
  set (request' := with_cursor request _ _).
  rewrite (get_more_posts_page db request' filter_ posts_qs
             (p_timestamp x.2) x.1);
    [|done|by unfold request'; rewrite get_posts_with_cursor|].
  2:{ unfold request', with_cursor. cbn [req_GET].
      rewrite lookup_insert_eq, lookup_insert_ne, lookup_insert_eq by done.
      constructor;
        [apply isoformat_nonempty|apply str_nonempty
        |apply parse_isoformat|apply int_str]. }
  rewrite Hsplit, filter_after_cursor_split by by rewrite <- Hsplit.
  case_decide as HB; [by subst B|]. cbn [req_user request' with_cursor].
  destruct (last (take 10 B)) as [y|] eqn:Hlast.
  2:{ apply last_None, take_nil_inv in Hlast as [|]; done. }
  rewrite fmap_last, Hlast. cbn [fmap option_fmap option_map].
  case_bool_decide as Hmore.
  - apply last_Some in Hlast as [B' HB'].
    rewrite (IH (A ++ x :: B') y (drop 10 B)).
    + by rewrite <- fmap_app, take_drop.
    + rewrite Hsplit, <- (take_drop 10 B) at 1. rewrite HB'.
      by rewrite <- !app_assoc.
    + rewrite length_drop. lia.
  - rewrite app_nil_r, take_ge by lia. done.
Qed.

(** C3.  For any view that resolves without error, the first page followed
    by the continuation pages, each requested with the timestamp and id of
    the last item received while [hasNext] holds, is the whole set of posts
    of the view: every post once (the ids are distinct), none missing, in
    strict (timestamp descending, id descending) order, whatever timestamps
    the posts share.  Ten posts per unit of fuel are enough. *)
Theorem scroll_complete db request filter_ posts_qs fuel :
  req_method request = "GET" →
  get_posts db request filter_ = (None, posts_qs, 200) →
  (length posts_qs ≤ 10 * (fuel + 1))%nat →
  ∃ ordered,
    ordered ≡ₚ posts_qs ∧
    NoDup ordered.*1 ∧
    StronglySorted cursor_gt ordered ∧
    scroll fuel db request filter_
    = serialize db (req_user request) <$> ordered.
Proof.
  intros Hget Hview Hlen. exists (order_by_cursor posts_qs).
  pose proof (get_posts_NoDup _ _ _ _ _ _ Hview) as Hnd.
  split; [apply order_by_cursor_perm|]. split.
  { by rewrite order_by_cursor_perm. }
  split; [by apply order_by_cursor_strict|].
  unfold scroll. rewrite (posts_view_page _ _ _ _ Hget Hview).
  assert (length (order_by_cursor posts_qs) = length posts_qs) as Hlen'
    by by rewrite order_by_cursor_perm.
  set (L := order_by_cursor posts_qs) in *.
  case_bool_decide as Hmore.
  - destruct (last (take 10 L)) as [y|] eqn:Hlast.
    2:{ apply last_None, take_nil_inv in Hlast as [|Hnil]; [done|].
        rewrite Hnil in Hlen'. cbn in Hlen'. lia. }
    rewrite fmap_last, Hlast. cbn [fmap option_fmap option_map].
    apply last_Some in Hlast as [L' HL'].
    rewrite (scroll_more_rest db request filter_ posts_qs fuel Hget Hview
               L' y (drop 10 L)).
    + by rewrite <- fmap_app, take_drop.
    + fold L. rewrite <- (take_drop 10 L) at 1. rewrite HL'.
      by rewrite <- app_assoc.
    + rewrite length_drop. lia.
  - rewrite app_nil_r, take_ge by lia. done.
Qed.
End scroll.

(** ** Rejections of feed assembly *)

Section rejections.
Context `{Conversions}.

Lemma get_posts_error_status db request filter_ error posts_qs status :
  get_posts db request filter_ = (Some error, posts_qs, status) →
  posts_qs = [] ∧ (status = 401 ∨ status = 404).
Proof.
  unfold get_posts.
  repeat case_bool_decide; repeat case_match; simplify_eq; cbn;
    intros [= <- <- <-]; auto.
Qed.

Lemma feed_views_error db request filter_ error posts_qs status :
  req_method request = "GET" →
  get_posts db request filter_ = (Some error, posts_qs, status) →
  posts_view db request filter_
    = Ok (JsonResponse (DError (PyStr error)) status) ∧
  get_more_posts db request filter_
    = Ok (JsonResponse (DError (PyStr error)) status).
Proof.
  intros Hget Hview.
  unfold posts_view, get_more_posts, require_get, require_http_methods.
  rewrite Hget, bool_decide_eq_true_2 by set_solver. by rewrite Hview.
Qed.

(** C7.  Feed assembly rejects, with an empty queryset: the [following]
    view for an anonymous requester, with 401; the [profile] view when
    [user_id] resolves to no stored user, with 404; any other view name
    than [following], [all] and [profile], with 404.  Both feed views then
    answer a GET with that error and status. *)
Theorem get_posts_rejections db request filter_ :
  req_method request = "GET" →
  let reply error status :=
    get_posts db request filter_ = (Some error, [], status) ∧
    posts_view db request filter_
      = Ok (JsonResponse (DError (PyStr error)) status) ∧
    get_more_posts db request filter_
      = Ok (JsonResponse (DError (PyStr error)) status) in
  (filter_ = "following" → req_user request = None →
     reply "User not authenticated." 401) ∧
  (filter_ = "profile" →
     get_user db (param_arg (req_GET request !! "user_id")) = None →
     reply "User not found." 404) ∧
  (filter_ ∉ ["following"; "all"; "profile"] →
     reply "Filter not found." 404).
Proof.
  intros Hget reply.
  assert (∀ error status,
            get_posts db request filter_ = (Some error, [], status) →
            reply error status) as Hreply.
  { intros error status Hview. split; [done|].
    by apply (feed_views_error _ _ _ _ []). }
  split; [|split].
  - intros -> Hanon. apply Hreply. unfold get_posts. cbn. by rewrite Hanon.
  - intros -> Hnone. apply Hreply. unfold get_posts. cbn. by rewrite Hnone.
  - intros Hother. apply Hreply. unfold get_posts.
    rewrite !bool_decide_eq_false_2; [done|set_solver..].
Qed.
End rejections.

(** ** Cursor text that does not parse, and cursors that are ignored *)

Section cursors.
Context `{Conversions}.

Lemma paginate_posts_malformed posts_qs ts pid :
  ts ≠ "" → pid ≠ "" → malformed ts pid →
  paginate_posts posts_qs (Some ts) (Some pid) = parse_error.
Proof.
  intros Hts Hpid Hbad. unfold paginate_posts. cbn.
  rewrite !bool_decide_eq_true_2 by done. cbn.
  destruct Hbad as [->| [->| ->]]; [by destruct (py_int pid)|done|].
  by destruct (parse_datetime ts).
Qed.

Lemma paginate_posts_ignored posts_qs timestamp post_id :
  param_truthy timestamp && param_truthy post_id = false →
  paginate_posts posts_qs timestamp post_id
  = fetch_page (order_by_cursor posts_qs).
Proof.
  intros Hfalsy. unfold paginate_posts.
  destruct timestamp, post_id; try done. by rewrite Hfalsy.
Qed.

(** C5 (as amended).  A continuation request whose two cursor fields are
    both present and non-empty, and of which the timestamp or the id does
    not parse, is answered with an error body and a 4xx status: 400 when
    the view resolves, else the 401 or 404 of the view.  It is never
    answered with a page, nor with the 204 of an exhausted feed. *)
Theorem get_more_posts_malformed_cursor db request filter_ ts pid :
  req_method request = "GET" →
  req_GET request !! "timestamp" = Some ts →
  req_GET request !! "post_id" = Some pid →
  ts ≠ "" → pid ≠ "" →
  malformed ts pid →
  ∃ error status,
    get_more_posts db request filter_
      = Ok (JsonResponse (DError error) status) ∧
    (status = 400 ∨ status = 401 ∨ status = 404) ∧
    ((get_posts db request filter_).1.1 = None → status = 400).
Proof.
  intros Hget Hts Hpid Hts' Hpid' Hbad.
  destruct (get_posts db request filter_) as [[[error|] posts_qs] status]
    eqn:Hview.
  - exists (PyStr error), status.
    destruct (feed_views_error _ _ _ _ _ _ Hget Hview) as [_ ->].
    destruct (get_posts_error_status _ _ _ _ _ _ Hview) as [_ Hst].
    split; [done|]. split; [tauto|done].
  - exists (PyStr "error"), 400.
    unfold get_more_posts, require_get, require_http_methods.
    rewrite Hget, bool_decide_eq_true_2 by set_solver.
    rewrite Hview, Hts, Hpid, paginate_posts_malformed by done.
    split; [done|]. split; [tauto|done].
Qed.
End cursors.

Section empty_pages.
Context `{Conversions}.

(** C6.  When the view resolves: a first-page request over a view with no
    post is answered 200 with an empty list and [hasNext] false; a
    continuation whose cursor has no post of the view after it (the cursor
    of the last item, or one past it) is answered 204 with the same empty
    body, not with an error; the two responses differ by their status. *)
Theorem empty_page_responses db request filter_ posts_qs :
  req_method request = "GET" →
  get_posts db request filter_ = (None, posts_qs, 200) →
  (posts_qs = [] →
     posts_view db request filter_ = Ok (JsonResponse (DPosts [] false) 200)) ∧
  (∀ t i,
     request_cursor (req_GET request !! "timestamp")
                    (req_GET request !! "post_id") (Some (t, i)) →
     Forall (λ p, ¬ after_cursor t i p) posts_qs →
     get_more_posts db request filter_
     = Ok (JsonResponse (DPosts [] false) 204)) ∧
  JsonResponse (DPosts [] false) 200 ≠ JsonResponse (DPosts [] false) 204.
Proof.
  intros Hget Hview. split; [|split; [|done]].
  - intros ->. by rewrite (posts_view_page _ _ _ _ Hget Hview).
  - intros t i Hcur Hpast.
    rewrite (get_more_posts_page _ _ _ _ _ _ Hget Hview Hcur).
    rewrite filter_none; [done|]. by rewrite order_by_cursor_perm.
Qed.

(** C10 (as amended).  When the view resolves and one of the two cursor
    fields is missing or empty, [get_more_posts] ignores the cursor: with
    at least one post in the view it answers like the first page, 200 with
    the first ten posts; with none it answers 204.  It never answers with
    the 400 of a malformed cursor. *)
Theorem get_more_posts_ignored_cursor db request filter_ posts_qs :
  req_method request = "GET" →
  get_posts db request filter_ = (None, posts_qs, 200) →
  param_truthy (req_GET request !! "timestamp")
    && param_truthy (req_GET request !! "post_id") = false →
  get_more_posts db request filter_
  = Ok (JsonResponse
          (DPosts (serialize db (req_user request)
                     <$> take 10 (order_by_cursor posts_qs))
                  (bool_decide (10 < length posts_qs)%nat))
          (if decide (posts_qs = []) then 204 else 200)) ∧
  (posts_qs ≠ [] →
     get_more_posts db request filter_ = posts_view db request filter_).
Proof.
  intros Hget Hview Hfalsy.
  assert (get_more_posts db request filter_
          = Ok (JsonResponse
                  (DPosts (serialize db (req_user request)
                             <$> take 10 (order_by_cursor posts_qs))
                          (bool_decide (10 < length posts_qs)%nat))
                  (if decide (posts_qs = []) then 204 else 200))) as Hmore.
  { unfold get_more_posts, require_get, require_http_methods.
    rewrite Hget, bool_decide_eq_true_2 by set_solver.
    rewrite Hview, paginate_posts_ignored, fetch_page_spec by done.
    cbn [unpack3 truthy].
    assert (length (order_by_cursor posts_qs) = length posts_qs) as Hlen
      by by rewrite order_by_cursor_perm.
    unfold page_response, truthy. case_bool_decide as Hempty; cbn [negb].
    - rewrite decide_False.
      + do 3 f_equal. apply bool_decide_ext. by rewrite Hlen.
      + intros ->. by apply Hempty.
    - apply take_nil_inv in Hempty as [|Hempty]; [done|].
      rewrite Hempty in *. destruct posts_qs; [|done].
      by rewrite decide_True. }
  split; [done|]. intros Hne.
  rewrite Hmore, (posts_view_page _ _ _ _ Hget Hview).
  by rewrite decide_False.
Qed.
End empty_pages.

(** ** Running command trees *)

Lemma run_bind {A B} (p : prog A) (f : A → prog B) db :
  run (p ≫= f) db =
    match run p db with
    | (Ok a, db') => run (f a) db'
    | (Raised e, db') => (Raised e, db')
    end.
Proof.
  revert B f db. induction p as [A a|A e|A X e k IH|A C body IHb k IH];
    intros B f db; try done.
  - cbn. destruct (handle e db) as [x db']. apply IH.
  - cbn. destruct (run body db) as [[b|e] db']; [apply IH|done].
Qed.

Lemma run_select {X} (q : DB → X) db : run (select q) db = (Ok (q db), db).
Proof. done. Qed.


(** ** Ownership of posts *)

Lemma insert_stored_alter {A} (f : A → A) k v (m : gmap Z A) :
  m !! k = Some v → <[ k := f v ]> m = alter f k m.
Proof.
  intros Hk. apply map_eq. intros j. destruct (decide (k = j)) as [<-|Hne].
  - by rewrite lookup_insert_eq, lookup_alter_eq, Hk.
  - by rewrite lookup_insert_ne, lookup_alter_ne.
Qed.

(** A stored edge is counted. *)
Lemma edge_counted (P : Z * Z → Prop) `{!∀ e, Decision (P e)}
    (S : gset (Z * Z)) e :
  e ∈ S → P e → (1 ≤ size (filter P S))%nat.
Proof.
  intros He HP. destruct (size (filter P S)) eqn:Hsize; [|lia].
  apply size_empty_inv in Hsize. exfalso.
  apply (not_elem_of_empty (C:=gset (Z * Z)) e). rewrite <- Hsize.
  by apply elem_of_filter.
Qed.

Section post_actions.
Context `{Conversions}.

Lemma run_update_post request user post_id row action db :
  req_user request = Some user →
  req_method request ∈ ["PUT"; "DELETE"] →
  posts db !! post_id = Some row →
  get_body_content request "action" = inr action →
  run (update_post request post_id) db =
    if bool_decide (action = JStr "like") then
      run ('(liked, post) ← like_post post_id user;
           Ret (JsonResponse (DLiked liked (like_count post)) 200)) db
    else if bool_decide (action = JStr "edit") then
      run ('(edited, message, status, post) ← edit_post user request (post_id, row);
           if edited : bool
           then Ret (JsonResponse (DEdited message (p_content post.2)) status)
           else Ret (JsonResponse (DError (PyStr message)) status)) db
    else if bool_decide (action = JStr "delete") then
      if bool_decide (p_user row ≠ user) then
        (Ok (JsonResponse (DError (PyStr "Unauthorized.")) 403), db)
      else
        run (delete_post (post_id, row);;
             Ret (JsonResponse (DMessage "Post deleted.") 200)) db
    else
      (Ok (JsonResponse
             (DError (PyStr ("Invalid action: " +:+ format_json action))) 400),
       db).
Proof.
  intros Huser Hmethod Hrow Haction.
  unfold update_post, login_required, require_put_delete, require_http_methods.
  rewrite Huser, bool_decide_eq_true_2 by done.
  rewrite run_bind, run_select, Hrow, Haction.
  by repeat case_bool_decide.
Qed.


(** ** Following oneself *)

(** C9.  A follow request whose target is the acting user never changes the
    database: the follow edges and every counter are as before.  For a PUT
    of a stored user the answer is the 400 policy error; and
    [toggle_follow] itself returns [False] without touching anything. *)
Theorem follow_view_self db request user :
  req_user request = Some user →
  (run (follow_view request user) db).2 = db ∧
  (req_method request = "PUT" → is_Some (users db !! user) →
     run (follow_view request user) db
     = (Ok (JsonResponse (DError (PyStr "You cannot follow yourself.")) 400),
        db)) ∧
  run (toggle_follow user user) db = (Ok false, db).
Proof.
  intros Huser.
  unfold follow_view, login_required, require_put, require_http_methods.
  rewrite Huser. split; [|split].
  - case_bool_decide; [|done].
    rewrite run_bind, run_select. cbn [get_user].
    destruct (users db !! user); cbn; [|done].
    by rewrite bool_decide_eq_true_2.
  - intros -> [u Hu]. rewrite bool_decide_eq_true_2 by set_solver.
    rewrite run_bind, run_select. cbn [get_user]. rewrite Hu. cbn.
    by rewrite bool_decide_eq_true_2.
  - rewrite run_toggle_follow. by rewrite decide_True.
Qed.
End post_actions.

(** * The properties on the fixture *)

Lemma decimal_int_str i : decimal_int (decimal_str i) = Some i.
Proof.
  unfold decimal_int, decimal_str.
  rewrite DecimalString.NilZero.isi.
  - cbn. by rewrite DecimalZ.of_to.
  - destruct i; cbn; try done.
    intros [= Hnil]. by apply DecimalPos.Unsigned.to_uint_nonnil in Hnil.
  - destruct i; cbn; try done.
    intros [= Hnil]. by apply DecimalPos.Unsigned.to_uint_nonnil in Hnil.
Qed.

Lemma decimal_str_nonempty i : decimal_str i ≠ "".
Proof.
  intros Hempty. pose proof (decimal_int_str i) as E. by rewrite Hempty in E.
Qed.

Lemma decimal_round_trip : ConversionsRoundTrip (H:=decimal_conversions).
Proof.
  split; cbn; intros; rewrite ?decimal_int_str;
    try done; apply decimal_str_nonempty.
Qed.

Lemma paginate_posts_page_fixture :
  ∃ ordered,
    ordered ≡ₚ filter (in_range (Some tenth_post_position)) fixture_posts ∧
    StronglySorted cursor_gt ordered ∧
    paginate_posts (H:=decimal_conversions) fixture_posts
      (Some "1764503991000000") (Some "10")
    = PyTuple3 PyNone
        (PyBool (bool_decide
           (10 < length (filter (in_range (Some tenth_post_position))
                                fixture_posts))%nat))
        (PyPosts (take 10 ordered)).
Proof.
  refine (paginate_posts_page (H:=decimal_conversions) fixture_posts
            (Some "1764503991000000") (Some "10")
            (Some tenth_post_position) _ _).
  - by_compute.
  - constructor; by vm_compute.
Defined.

Lemma scroll_complete_tied :
  ∃ ordered,
    ordered ≡ₚ all_posts tied_db ∧
    NoDup ordered.*1 ∧
    StronglySorted cursor_gt ordered ∧
    scroll (H:=decimal_conversions) 2 tied_db (GET_request None []) "all"
    = serialize (H:=decimal_conversions) tied_db None <$> ordered.
Proof.
  refine (scroll_complete (H:=decimal_conversions) (H0:=decimal_round_trip)
            tied_db (GET_request None []) "all" (all_posts tied_db) 2
            _ _ _).
  - reflexivity.
  - by vm_compute.
  - by_compute.
Defined.

Lemma get_more_posts_malformed_cursor_fixture :
  ∃ error status,
    get_more_posts (H:=decimal_conversions) fixture_db
      unparsable_cursor_request "all"
    = Ok (JsonResponse (DError error) status) ∧
    (status = 400 ∨ status = 401 ∨ status = 404) ∧
    ((get_posts (H:=decimal_conversions) fixture_db
        unparsable_cursor_request "all").1.1 = None → status = 400).
Proof.
  refine (get_more_posts_malformed_cursor (H:=decimal_conversions) fixture_db
            unparsable_cursor_request "all" "data-que-nao-existe" "abc"
            _ _ _ _ _ _).
  - reflexivity.
  - by vm_compute.
  - by vm_compute.
  - done.
  - done.
  - left. by vm_compute.
Defined.

(** C5, as the claim states it, fails when a cursor field is supplied
    empty: the request below carries both fields, neither parses, and it is
    answered like a first page, 200 with the ten newest posts. *)
Lemma empty_timestamp_cursor_answered_as_first_page :
  is_Some (req_GET empty_timestamp_request !! "timestamp") ∧
  is_Some (req_GET empty_timestamp_request !! "post_id") ∧
  malformed (H:=decimal_conversions) "" "abc" ∧
  get_more_posts (H:=decimal_conversions) fixture_db empty_timestamp_request "all"
  = posts_view (H:=decimal_conversions) fixture_db empty_timestamp_request "all" ∧
  status_code
    <$> (match get_more_posts (H:=decimal_conversions) fixture_db
                 empty_timestamp_request "all" with
         | Ok r => Some r
         | Raised _ => None
         end) = Some 200.
Proof.
  split; [by_compute|]. split; [by_compute|].
  split; [left; by vm_compute|]. split; by vm_compute.
Qed.

Lemma empty_page_responses_fixture :
  posts_view (H:=decimal_conversions) fixture_db bob_profile_request "profile"
  = Ok (JsonResponse (DPosts [] false) 200) ∧
  get_more_posts (H:=decimal_conversions) fixture_db
    (GET_request None last_post_cursor) "all"
  = Ok (JsonResponse (DPosts [] false) 204).
Proof.
  split.
  - refine (proj1 (empty_page_responses (H:=decimal_conversions) fixture_db
                     bob_profile_request "profile" [] _ _) _);
      [reflexivity|by vm_compute|reflexivity].
  - refine (proj1 (proj2 (empty_page_responses (H:=decimal_conversions)
                            fixture_db (GET_request None last_post_cursor)
                            "all" (all_posts fixture_db) _ _))
              last_post_position.1 last_post_position.2 _ _).
    + reflexivity.
    + by vm_compute.
    + constructor; by vm_compute.
    + by_compute.
Defined.

Lemma get_posts_rejections_fixture :
  get_posts (H:=decimal_conversions) fixture_db (GET_request None []) "following"
  = (Some "User not authenticated.", [], 401) ∧
  get_posts (H:=decimal_conversions) fixture_db
    (GET_request (Some 1) [("user_id", "99999")]) "profile"
  = (Some "User not found.", [], 404) ∧
  posts_view (H:=decimal_conversions) fixture_db
    (GET_request (Some 1) []) "hack_the_planet"
  = Ok (JsonResponse (DError (PyStr "Filter not found.")) 404).
Proof.
  split; [|split].
  - refine (proj1 (proj1 (get_posts_rejections (H:=decimal_conversions)
                            fixture_db (GET_request None []) "following" _)
                     _ _)); reflexivity.
  - refine (proj1 (proj1 (proj2 (get_posts_rejections (H:=decimal_conversions)
                            fixture_db (GET_request (Some 1) [("user_id", "99999")])
                            "profile" _))
                     _ _)); [reflexivity|reflexivity|by vm_compute].
  - refine (proj1 (proj2 (proj2 (proj2 (get_posts_rejections
                            (H:=decimal_conversions) fixture_db
                            (GET_request (Some 1) []) "hack_the_planet" _))
                     _))); [reflexivity|by_compute].
Defined.

Lemma get_more_posts_ignored_cursor_fixture :
  req_GET timestamp_only_request !! "timestamp" = Some "1764503991000000" ∧
  req_GET timestamp_only_request !! "post_id" = None ∧
  get_more_posts (H:=decimal_conversions) fixture_db timestamp_only_request "all"
  = Ok (JsonResponse
          (DPosts (serialize (H:=decimal_conversions) fixture_db None
                     <$> take 10 fixture_posts)
                  true)
          200) ∧
  req_GET empty_post_id_request !! "post_id" = Some "" ∧
  get_more_posts (H:=decimal_conversions) fixture_db empty_post_id_request "all"
  = posts_view (H:=decimal_conversions) fixture_db empty_post_id_request "all".
Proof.
  split; [by vm_compute|]. split; [by vm_compute|]. split; [|split].
  - refine (eq_trans
              (proj1 (get_more_posts_ignored_cursor (H:=decimal_conversions)
                        fixture_db timestamp_only_request "all"
                        (all_posts fixture_db) _ _ _)) _).
    + reflexivity.
    + by vm_compute.
    + by vm_compute.
    + by vm_compute.
  - by vm_compute.
  - refine (proj2 (get_more_posts_ignored_cursor (H:=decimal_conversions)
                     fixture_db empty_post_id_request "all"
                     (all_posts fixture_db) _ _ _) _).
    + reflexivity.
    + by vm_compute.
    + by vm_compute.
    + by_compute.
Defined.

(** C10, as the claim states it, fails on a view without posts: with only the
    timestamp supplied the cursor is ignored, but the answer is 204, where
    the first page of the same view is answered 200. *)
Lemma ignored_cursor_on_empty_view_answers_204 :
  req_GET bob_profile_timestamp_only_request !! "post_id" = None ∧
  get_more_posts (H:=decimal_conversions) fixture_db
    bob_profile_timestamp_only_request "profile"
  = Ok (JsonResponse (DPosts [] false) 204) ∧
  posts_view (H:=decimal_conversions) fixture_db
    bob_profile_timestamp_only_request "profile"
  = Ok (JsonResponse (DPosts [] false) 200).
Proof. split; [by vm_compute|]. split; by vm_compute. Qed.

Lemma fixture_post_3 :
  posts fixture_db !! 3 = Some (mkPost 1 (BASE_TIMESTAMP - 2000000) "Post" 0 0).
Proof. by vm_compute. Qed.


Lemma follow_view_self_fixture :
  run (follow_view (H:=decimal_conversions) alice_follows_request 1) fixture_db
  = (Ok (JsonResponse (DError (PyStr "You cannot follow yourself.")) 400),
     fixture_db).
Proof.
  refine (proj1 (proj2 (follow_view_self (H:=decimal_conversions) fixture_db
                          alice_follows_request 1 _)) _ _).
  - reflexivity.
  - reflexivity.
  - by_compute.
Defined.

(** * Further properties of the models, helpers and views *)

(** ** Toggling twice *)

Lemma alter_alter_id {A} (f g : A → A) (k : Z) (m : gmap Z A) :
  (∀ x, f (g x) = x) → alter f k (alter g k m) = m.
Proof.
  intros Hfg. apply map_eq. intros j.
  destruct (decide (k = j)) as [<-|Hne];
    [|by rewrite !lookup_alter_ne by done].
  rewrite !lookup_alter_eq. destruct (m !! k); cbn; [|done].
  by rewrite Hfg.
Qed.

Lemma add_like_count_cancel a b p :
  a + b = 0 → add_like_count b (add_like_count a p) = p.
Proof. intros Hab. destruct p. unfold add_like_count. cbn. f_equal. lia. Qed.

Lemma unliked_liked post user db :
  (post, user) ∉ post_likes db → unliked post user (liked post user db) = db.
Proof.
  intros Habs. destruct db as [us ps cs fs ls].
  unfold unliked, liked, set_posts, set_post_likes. cbn in *. f_equal.
  - apply alter_alter_id. intros p. by apply add_like_count_cancel.
  - set_solver.
Qed.

Lemma liked_unliked post user db :
  (post, user) ∈ post_likes db → liked post user (unliked post user db) = db.
Proof.
  intros Hin. destruct db as [us ps cs fs ls].
  unfold unliked, liked, set_posts, set_post_likes. cbn in *. f_equal.
  - apply alter_alter_id. intros p. by apply add_like_count_cancel.
  - apply set_eq. intros e. destruct (decide (e = (post, user))); set_solver.
Qed.

(** X1.  Liking a stored post twice in a row is a round trip, on a database
    whose counters agree with its edges: the first call reports the new
    state of the like and a [like_count] that stays within its range, the
    counters still agree with the edges in between, the second call reports
    the opposite state, and afterwards the database, and with it
    [like_count], is exactly what it was; the second call hands back the
    post as it was stored at the start. *)
Theorem like_post_twice_restores db post user row :
  posts db !! post = Some row →
  counters_consistent db →
  ∃ first db1,
    run (like_post post user) db = (Ok first, db1) ∧
    first.1 = negb (bool_decide ((post, user) ∈ post_likes db)) ∧
    like_count first.2 = like_count row + (if first.1 then 1 else -1) ∧
    0 ≤ like_count first.2 ∧
    counters_consistent db1 ∧
    run (like_post post user) db1 = (Ok (negb first.1, row), db).
Proof.
  intros Hrow Hdb.
  pose proof (counters_consistent_toggle db (LikePost post user) Hdb) as Hdb1.
  pose proof (proj1 Hdb _ _ Hrow) as Hcount. unfold like_edges in Hcount.
  unfold apply_toggle in Hdb1. revert Hdb1. rewrite run_like_post, Hrow.
  destruct (decide ((post, user) ∈ post_likes db)) as [Hin|Habs]; intros Hdb1.
  - pose proof (edge_counted (λ e, e.1 = post) _ _ Hin eq_refl).
    eexists _, _. split; [done|]. cbn [fst snd].
    rewrite bool_decide_eq_true_2 by done. split; [done|]. split; [done|].
    split; [cbn; lia|]. split; [done|].
    rewrite run_like_post. cbn. rewrite lookup_alter_eq, Hrow. cbn.
    rewrite decide_False by set_solver.
    by rewrite add_like_count_cancel, liked_unliked.
  - eexists _, _. split; [done|]. cbn [fst snd].
    rewrite bool_decide_eq_false_2 by done. split; [done|]. split; [done|].
    split; [cbn; lia|]. split; [done|].
    rewrite run_like_post. cbn. rewrite lookup_alter_eq, Hrow. cbn.
    rewrite decide_True by set_solver.
    by rewrite add_like_count_cancel, unliked_liked.
Qed.

Lemma like_post_twice_restores_fixture :
  ∃ first db1,
    run (like_post 3 2) fixture_db = (Ok first, db1) ∧
    first.1 = negb (bool_decide ((3, 2) ∈ post_likes fixture_db)) ∧
    like_count first.2
    = like_count (mkPost 1 (BASE_TIMESTAMP - 2000000) "Post" 0 0)
      + (if first.1 then 1 else -1) ∧
    0 ≤ like_count first.2 ∧
    counters_consistent db1 ∧
    run (like_post 3 2) db1
    = (Ok (negb first.1, mkPost 1 (BASE_TIMESTAMP - 2000000) "Post" 0 0),
       fixture_db).
Proof.
  exact (like_post_twice_restores fixture_db 3 2 _ fixture_post_3
           fixture_db_consistent).
Defined.

Lemma users_follow_cancel a b self target (us : gmap Z User) :
  a + b = 0 →
  alter (add_followers_count b) target
    (alter (add_following_count b) self
       (alter (add_followers_count a) target
          (alter (add_following_count a) self us))) = us.
Proof.
  intros Hab. apply map_eq. intros j. rewrite !lookup_alter.
  repeat case_decide; subst; destruct (us !! _) as [[n pc fc gc]|];
    cbn; try done; unfold add_followers_count, add_following_count; cbn;
    do 2 f_equal; lia.
Qed.

(** X2.  Two [toggle_follow] calls in a row by the same user on the same
    target, on a database whose counters agree with its edges, leave the
    database exactly as it was: the edge and both counters are back, whether
    the first call followed or unfollowed; the counters agree with the edges
    in between, so none of them left its range; and the two calls report
    opposite states unless the user targets itself. *)
Theorem toggle_follow_twice_restores db self target :
  counters_consistent db →
  ∃ first db1,
    run (toggle_follow self target) db = (Ok first, db1) ∧
    counters_consistent db1 ∧
    run (toggle_follow self target) db1
    = (Ok (if decide (self = target) then false else negb first), db).
Proof.
  intros Hdb.
  pose proof (counters_consistent_toggle db (ToggleFollow self target) Hdb)
    as Hdb1.
  unfold apply_toggle in Hdb1. revert Hdb1.
  rewrite run_toggle_follow. case_decide as Hself.
  { intros Hdb1. eexists _, _. split; [done|]. split; [done|].
    rewrite run_toggle_follow. by rewrite decide_True. }
  destruct (decide ((target, self) ∈ user_followers db)) as [Hin|Habs];
    intros Hdb1.
  - eexists _, _. split; [done|]. split; [done|]. rewrite run_toggle_follow.
    rewrite decide_False by done. cbn.
    rewrite decide_False by set_solver. f_equal.
    destruct db as [us ps cs fs ls].
    unfold followed, unfollowed, set_users, set_user_followers. cbn in *.
    f_equal; [by apply users_follow_cancel|].
    apply set_eq. intros e. destruct (decide (e = (target, self))); set_solver.
  - eexists _, _. split; [done|]. split; [done|]. rewrite run_toggle_follow.
    rewrite decide_False by done. cbn.
    rewrite decide_True by set_solver. f_equal.
    destruct db as [us ps cs fs ls].
    unfold followed, unfollowed, set_users, set_user_followers. cbn in *.
    f_equal; [by apply users_follow_cancel|]. set_solver.
Qed.

Lemma toggle_follow_twice_restores_fixture :
  ∃ first db1,
    run (toggle_follow 2 1) fixture_db = (Ok first, db1) ∧
    counters_consistent db1 ∧
    run (toggle_follow 2 1) db1
    = (Ok (if decide (2 = 1) then false else negb first), fixture_db).
Proof. exact (toggle_follow_twice_restores fixture_db 2 1 fixture_db_consistent). Defined.

(** ** Counting rows of a table *)

Section row_count.
Context {A : Type} (P : Z * A → Prop) `{!∀ x, Decision (P x)}.
Implicit Types (m : gmap Z A).

Lemma size_filter_insert_fresh m k v :
  m !! k = None →
  size (filter P (<[k := v]> m))
  = ((if decide (P (k, v)) then 1 else 0) + size (filter P m))%nat.
Proof.
  intros Hfresh. rewrite map_filter_insert. case_decide.
  - rewrite map_size_insert_None; [done|].
    apply map_lookup_filter_None. by left.
  - by rewrite delete_id.
Qed.

Lemma size_filter_delete_stored m k v :
  m !! k = Some v →
  size (filter P m)
  = ((if decide (P (k, v)) then 1 else 0) + size (filter P (delete k m)))%nat.
Proof.
  intros Hstored. rewrite <- (insert_delete_id m k v) at 1 by done.
  apply size_filter_insert_fresh, lookup_delete_eq.
Qed.

Lemma size_filter_same_keys {B} (Q : Z * B → Prop) `{!∀ x, Decision (Q x)}
    m (m' : gmap Z B) :
  (∀ k, is_Some (filter P m !! k) ↔ is_Some (filter Q m' !! k)) →
  size (filter P m) = size (filter Q m').
Proof.
  intros Hkeys.
  rewrite <- (size_dom (D:=gset Z) (filter P m)).
  rewrite <- (size_dom (D:=gset Z) (filter Q m')).
  f_equal. apply set_eq. intros k. by rewrite !elem_of_dom.
Qed.

Lemma size_filter_none m :
  (∀ k v, m !! k = Some v → ¬ P (k, v)) → size (filter P m) = 0%nat.
Proof.
  intros Hnone. apply map_size_empty_iff, map_empty. intros k.
  apply map_lookup_filter_None. right. intros v Hk. by apply Hnone.
Qed.
End row_count.

Lemma size_filter_alter {A} (P : Z * A → Prop) `{!∀ x, Decision (P x)}
    (f : A → A) k (m : gmap Z A) :
  (∀ v, P (k, f v) ↔ P (k, v)) →
  size (filter P (alter f k m)) = size (filter P m).
Proof.
  intros Hinv. apply size_filter_same_keys. intros j.
  unfold is_Some. setoid_rewrite map_lookup_filter_Some.
  destruct (decide (k = j)) as [<-|Hne];
    [|by setoid_rewrite (lookup_alter_ne f m k j Hne)].
  setoid_rewrite lookup_alter_eq. split.
  - intros (x & Hx & HP). apply fmap_Some in Hx as (v & Hv & ->).
    exists v. split; [done|]. by apply Hinv.
  - intros (v & Hv & HP). exists (f v). rewrite Hv. split; [done|].
    by apply Hinv.
Qed.

Lemma size_gset_filter_none (P : Z * Z → Prop) `{!∀ e, Decision (P e)}
    (S : gset (Z * Z)) :
  (∀ e, e ∈ S → ¬ P e) → size (filter P S) = 0%nat.
Proof.
  intros Hnone. apply size_empty_iff. apply set_equiv. intros e.
  rewrite elem_of_filter. set_solver.
Qed.

(** ** Creating and deleting posts and comments *)

Lemma run_save_post pk now self db :
  run (save_post pk now self) db
  = (Ok (pk, set_timestamp now self), post_saved pk (set_timestamp now self) db).
Proof. done. Qed.

Lemma run_delete_post id row db :
  run (delete_post (id, row)) db = (Ok (), post_deleted id row db).
Proof. done. Qed.

Lemma run_save_comment pk now self post row db :
  posts db !! post.1 = Some row →
  c_post self = post.1 →
  run (save_comment pk now self post) db
  = (Ok ((pk, set_c_timestamp now self),
         (post.1, set_comment_count (comment_count row + 1) post.2)),
     comment_saved pk (set_c_timestamp now self) db).
Proof.
  intros Hrow Hpost. unfold save_comment, comment_saved. cbn.
  rewrite lookup_alter_eq, Hrow. cbn. by rewrite Hpost.
Qed.

Lemma run_delete_comment id c row db :
  posts db !! c_post c = Some row →
  run (delete_comment (id, c)) db
  = (Ok (c_post c, set_comment_count (comment_count row + -1) row),
     comment_deleted id c db).
Proof.
  intros Hrow. unfold delete_comment, comment_deleted. cbn.
  rewrite Hrow. cbn. by rewrite lookup_alter_eq, Hrow.
Qed.

Lemma lookup_alter_post_count d k (us : gmap Z User) id u' :
  alter (add_post_count d) k us !! id = Some u' →
  ∃ u, us !! id = Some u ∧
       followers_count u' = followers_count u ∧
       following_count u' = following_count u ∧
       post_count u' = post_count u + (if decide (k = id) then d else 0).
Proof.
  rewrite lookup_alter. case_decide as Hk.
  - subst id. intros (u & Hu & ->)%fmap_Some. exists u. cbn.
    repeat split; try done; lia.
  - intros Hu. exists u'. repeat split; try done; lia.
Qed.

Lemma lookup_alter_comment_count d k (ps : gmap Z Post) id p' :
  alter (add_comment_count d) k ps !! id = Some p' →
  ∃ p, ps !! id = Some p ∧
       like_count p' = like_count p ∧
       comment_count p' = comment_count p + (if decide (k = id) then d else 0).
Proof.
  rewrite lookup_alter. case_decide as Hk.
  - subst id. intros (p & Hp & ->)%fmap_Some. exists p. cbn.
    repeat split; try done; lia.
  - intros Hp. exists p'. repeat split; try done; lia.
Qed.

Lemma post_saved_ledger pk stored db :
  ledger_consistent db →
  posts db !! pk = None →
  like_count stored = 0 → comment_count stored = 0 →
  ledger_consistent (post_saved pk stored db).
Proof.
  intros ((Hlikes & Hfollows) & Hcomments & Hposts & Hrl & Hrc) Hfresh Hl Hc.
  assert (like_edges db pk = 0%nat) as Hnolikes.
  { apply size_gset_filter_none. intros e He Hpk.
    destruct (Hrl e He) as [p Hp]. rewrite Hpk in Hp. congruence. }
  assert (comments_of db pk = 0%nat) as Hnocomments.
  { apply size_filter_none. intros k c Hk Hpk. cbn in Hpk.
    destruct (Hrc k c Hk) as [p Hp]. rewrite Hpk in Hp. congruence. }
  destruct db as [us ps cs fs ls].
  unfold ledger_consistent, counters_consistent, references_resolve,
    post_saved, set_users, set_posts, like_edges, follower_edges,
    following_edges, comments_of, posts_of in *. cbn in *.
  split; [split|split; [|split; [|split]]].
  - intros id p. rewrite lookup_insert. case_decide as Hid.
    + intros [= <-]. subst id. lia.
    + apply Hlikes.
  - intros id u' (u & Hu & -> & -> & _)%lookup_alter_post_count.
    by apply Hfollows.
  - intros id p. rewrite lookup_insert. case_decide as Hid.
    + intros [= <-]. subst id. lia.
    + apply Hcomments.
  - intros id u' (u & Hu & _ & _ & ->)%lookup_alter_post_count.
    rewrite size_filter_insert_fresh by done. cbn.
    rewrite (Hposts _ _ Hu). repeat case_decide; try congruence; lia.
  - intros e He. rewrite lookup_insert_is_Some'. right. by apply Hrl.
  - intros id c Hc'. rewrite lookup_insert_is_Some'. right. by eapply Hrc.
Qed.

Lemma post_deleted_ledger id row db :
  ledger_consistent db →
  posts db !! id = Some row →
  ledger_consistent (post_deleted id row db).
Proof.
  intros ((Hlikes & Hfollows) & Hcomments & Hposts & Hrl & Hrc) Hrow.
  destruct db as [us ps cs fs ls].
  unfold ledger_consistent, counters_consistent, references_resolve,
    post_deleted, set_users, like_edges, follower_edges,
    following_edges, comments_of, posts_of in *. cbn in *.
  split; [split|split; [|split; [|split]]].
  - intros j p. rewrite lookup_delete. case_decide as Hj; [done|].
    intros Hp. rewrite (Hlikes _ _ Hp). do 2 f_equal.
    apply set_eq. intros e. rewrite !elem_of_filter.
    split; [|naive_solver]. intros [He Hin]. repeat split; try done.
    congruence.
  - intros j u' (u & Hu & -> & -> & _)%lookup_alter_post_count.
    by apply Hfollows.
  - intros j p. rewrite lookup_delete. case_decide as Hj; [done|].
    intros Hp. rewrite (Hcomments _ _ Hp). f_equal.
    apply size_filter_same_keys. intros k. unfold is_Some.
    setoid_rewrite map_lookup_filter_Some.
    setoid_rewrite map_lookup_filter_Some. cbn.
    split; [|naive_solver]. intros (c & Hc & Hcj). exists c.
    repeat split; try done. congruence.
  - intros j u' (u & Hu & _ & _ & ->)%lookup_alter_post_count.
    rewrite (Hposts _ _ Hu).
    rewrite (size_filter_delete_stored (λ kp, p_user kp.2 = j) ps id row Hrow).
    cbn. repeat case_decide; try congruence; lia.
  - intros e [He Hin]%elem_of_filter. rewrite lookup_delete_is_Some.
    split; [done|]. by apply Hrl.
  - intros k c [Hc Hck]%map_lookup_filter_Some. cbn in Hck.
    rewrite lookup_delete_is_Some. split; [done|]. by eapply Hrc.
Qed.

Lemma comment_saved_ledger pk stored db :
  ledger_consistent db →
  comments db !! pk = None →
  is_Some (posts db !! c_post stored) →
  ledger_consistent (comment_saved pk stored db).
Proof.
  intros ((Hlikes & Hfollows) & Hcomments & Hposts & Hrl & Hrc) Hfresh Hpost.
  destruct db as [us ps cs fs ls].
  unfold ledger_consistent, counters_consistent, references_resolve,
    comment_saved, set_posts, set_comments, like_edges, follower_edges,
    following_edges, comments_of, posts_of in *. cbn in *.
  split; [split|split; [|split; [|split]]].
  - intros id p' (p & Hp & -> & _)%lookup_alter_comment_count.
    by apply Hlikes.
  - done.
  - intros id p' (p & Hp & _ & ->)%lookup_alter_comment_count.
    rewrite size_filter_insert_fresh by done. cbn.
    rewrite (Hcomments _ _ Hp). repeat case_decide; try congruence; lia.
  - intros id u Hu. rewrite size_filter_alter; [by apply Hposts|done].
  - intros e He. rewrite lookup_alter_is_Some. by apply Hrl.
  - intros id c. rewrite lookup_alter_is_Some, lookup_insert.
    case_decide; [by intros [= <-]|]. by apply Hrc.
Qed.

Lemma comment_deleted_ledger id row db :
  ledger_consistent db →
  comments db !! id = Some row →
  ledger_consistent (comment_deleted id row db).
Proof.
  intros ((Hlikes & Hfollows) & Hcomments & Hposts & Hrl & Hrc) Hrow.
  destruct db as [us ps cs fs ls].
  unfold ledger_consistent, counters_consistent, references_resolve,
    comment_deleted, set_posts, set_comments, like_edges, follower_edges,
    following_edges, comments_of, posts_of in *. cbn in *.
  split; [split|split; [|split; [|split]]].
  - intros j p' (p & Hp & -> & _)%lookup_alter_comment_count.
    by apply Hlikes.
  - done.
  - intros j p' (p & Hp & _ & ->)%lookup_alter_comment_count.
    rewrite (Hcomments _ _ Hp).
    rewrite (size_filter_delete_stored (λ kc, c_post kc.2 = j) cs id row Hrow).
    cbn. repeat case_decide; try congruence; lia.
  - intros j u Hu. rewrite size_filter_alter; [by apply Hposts|done].
  - intros e He. rewrite lookup_alter_is_Some. by apply Hrl.
  - intros k c. rewrite lookup_alter_is_Some, lookup_delete.
    case_decide; [done|]. by apply Hrc.
Qed.

Lemma users_db_ledger : ledger_consistent users_db.
Proof.
  split; [|split; [|split; [|split]]].
  - apply counters_consistent_fresh; [done|done|..]; by_compute.
  - intros id p Hp. cbn in Hp. by rewrite lookup_empty in Hp.
  - intros id u Hu. unfold posts_of. cbn.
    rewrite map_filter_empty, map_size_empty.
    assert (map_Forall (λ _ u, post_count u = 0) (users users_db)) as Hzero
      by by_compute.
    exact (Hzero _ _ Hu).
  - intros e He. by apply not_elem_of_empty in He.
  - intros id c Hc. cbn in Hc. by rewrite lookup_empty in Hc.
Qed.

(** X4.  [save_post] of a new post under a key the table does not hold
    stores the post with the insertion time and both counters at zero,
    raises the author's [post_count] by one, and keeps every counter of the
    database equal to the rows it counts. *)
Theorem save_post_ledger db pk now user content :
  ledger_consistent db →
  posts db !! pk = None →
  let stored := mkPost user now content 0 0 in
  let db' := (run (save_post pk now (new_post user content)) db).2 in
  (run (save_post pk now (new_post user content)) db).1 = Ok (pk, stored) ∧
  posts db' = <[ pk := stored ]> (posts db) ∧
  users db' !! user = add_post_count 1 <$> users db !! user ∧
  ledger_consistent db'.
Proof.
  intros Hdb Hfresh stored db'. unfold db'. rewrite run_save_post.
  split; [done|]. split; [done|]. split.
  - cbn. by rewrite lookup_alter_eq.
  - by apply post_saved_ledger.
Qed.

Lemma save_post_ledger_users :
  let db' := (run (save_post 7 BASE_TIMESTAMP (new_post 1 "hello")) users_db).2 in
  (run (save_post 7 BASE_TIMESTAMP (new_post 1 "hello")) users_db).1
  = Ok (7, mkPost 1 BASE_TIMESTAMP "hello" 0 0) ∧
  posts db' = <[ 7 := mkPost 1 BASE_TIMESTAMP "hello" 0 0 ]> (posts users_db) ∧
  users db' !! 1 = add_post_count 1 <$> users users_db !! 1 ∧
  ledger_consistent db'.
Proof.
  exact (save_post_ledger users_db 7 BASE_TIMESTAMP 1 "hello"
           users_db_ledger eq_refl).
Defined.

(** X5.  [delete_post] of a stored post removes the post together with its
    comments and its likes, lowers the owner's [post_count] by one, leaves
    every other post as it was, and keeps every counter of the database
    equal to the rows it counts; no comment and no like is left that refers
    to the deleted post. *)
Theorem delete_post_ledger db id row :
  ledger_consistent db →
  posts db !! id = Some row →
  let db' := (run (delete_post (id, row)) db).2 in
  posts db' = delete id (posts db) ∧
  (∀ user, (id, user) ∉ post_likes db') ∧
  (∀ k c, comments db' !! k = Some c → c_post c ≠ id) ∧
  users db' !! p_user row = add_post_count (-1) <$> users db !! p_user row ∧
  ledger_consistent db'.
Proof.
  intros Hdb Hrow db'. unfold db'. rewrite run_delete_post.
  split; [done|]. split; [|split; [|split]].
  - intros user [Hne _]%elem_of_filter. by apply Hne.
  - intros k c [_ Hne]%map_lookup_filter_Some. exact Hne.
  - cbn. by rewrite lookup_alter_eq.
  - by apply post_deleted_ledger.
Qed.

(** X6.  Creating a post and deleting it again leaves the database exactly
    as it was. *)
Theorem save_post_delete_post_restores db pk now user content :
  ledger_consistent db →
  posts db !! pk = None →
  ∃ post db1,
    run (save_post pk now (new_post user content)) db = (Ok post, db1) ∧
    run (delete_post post) db1 = (Ok (), db).
Proof.
  intros (_ & _ & _ & Hrl & Hrc) Hfresh. eexists _, _. split; [done|].
  rewrite run_delete_post. f_equal.
  destruct db as [us ps cs fs ls].
  unfold post_deleted, post_saved, set_users, set_posts. cbn in *. f_equal.
  - apply alter_alter_id. intros [n pc fc gc]. unfold add_post_count. cbn.
    f_equal. lia.
  - by apply delete_insert_id.
  - apply map_filter_id. intros k c Hc Heq. cbn in Heq.
    destruct (Hrc k c Hc) as [p Hp]. rewrite Heq in Hp. congruence.
  - apply set_eq. intros e. rewrite elem_of_filter. split; [by intros []|].
    intros He. split; [|done]. intros Heq.
    destruct (Hrl e He) as [p Hp]. rewrite Heq in Hp. congruence.
Qed.

Lemma save_post_delete_post_restores_users :
  ∃ post db1,
    run (save_post 7 BASE_TIMESTAMP (new_post 1 "hello")) users_db
    = (Ok post, db1) ∧
    run (delete_post post) db1 = (Ok (), users_db).
Proof.
  exact (save_post_delete_post_restores users_db 7 BASE_TIMESTAMP 1 "hello"
           users_db_ledger eq_refl).
Defined.

Lemma one_post_db_ledger : ledger_consistent one_post_db.
Proof.
  unfold one_post_db. rewrite run_save_post.
  by apply post_saved_ledger; [apply users_db_ledger|..].
Qed.

Lemma one_post_db_post : posts one_post_db !! 7 = Some hello_post.2.
Proof. by vm_compute. Qed.

(** X7.  [save_comment] of a new comment on a stored post stores the
    comment with the insertion time and raises the post's [comment_count] by
    one.  The post instance the caller holds is refreshed: its
    [comment_count] is the stored one, its other fields are untouched.
    Every counter of the database still equals the rows it counts. *)
Theorem save_comment_ledger db pk now user post content row :
  ledger_consistent db →
  comments db !! pk = None →
  posts db !! post.1 = Some row →
  let stored := mkComment user post.1 content now in
  ∃ post' db',
    run (save_comment pk now (new_comment user post content) post) db
    = (Ok ((pk, stored), post'), db') ∧
    comments db' = <[ pk := stored ]> (comments db) ∧
    posts db' !! post.1 = Some (add_comment_count 1 row) ∧
    post' = (post.1, set_comment_count (comment_count row + 1) post.2) ∧
    ledger_consistent db'.
Proof.
  intros Hdb Hfresh Hrow stored. eexists _, _.
  rewrite (run_save_comment _ _ _ _ row) by done.
  split; [done|]. split; [done|]. split; [|split; [done|]].
  - cbn. by rewrite lookup_alter_eq, Hrow.
  - apply comment_saved_ledger; [done|done|]. cbn. by rewrite Hrow.
Qed.

Lemma save_comment_ledger_one_post :
  ∃ post' db',
    run (save_comment 4 (BASE_TIMESTAMP + 5) (new_comment 2 hello_post "hi")
           hello_post) one_post_db
    = (Ok ((4, mkComment 2 hello_post.1 "hi" (BASE_TIMESTAMP + 5)), post'), db') ∧
    comments db'
    = <[ 4 := mkComment 2 hello_post.1 "hi" (BASE_TIMESTAMP + 5) ]>
        (comments one_post_db) ∧
    posts db' !! hello_post.1 = Some (add_comment_count 1 hello_post.2) ∧
    post' = (hello_post.1,
             set_comment_count (comment_count hello_post.2 + 1) hello_post.2) ∧
    ledger_consistent db'.
Proof.
  exact (save_comment_ledger one_post_db 4 (BASE_TIMESTAMP + 5) 2 hello_post
           "hi" hello_post.2 one_post_db_ledger eq_refl one_post_db_post).
Defined.

(** X8.  [delete_comment] of a stored comment removes it, lowers the
    [comment_count] of its post by one and hands back that post with the
    stored count; every counter of the database still equals the rows it
    counts. *)
Theorem delete_comment_ledger db id c :
  ledger_consistent db →
  comments db !! id = Some c →
  ∃ row db',
    posts db !! c_post c = Some row ∧
    run (delete_comment (id, c)) db
    = (Ok (c_post c, add_comment_count (-1) row), db') ∧
    comments db' = delete id (comments db) ∧
    posts db' !! c_post c = Some (add_comment_count (-1) row) ∧
    ledger_consistent db'.
Proof.
  intros Hdb Hc.
  destruct (proj2 (proj2 (proj2 (proj2 Hdb))) id c Hc) as [row Hrow].
  exists row. eexists. split; [done|].
  rewrite (run_delete_comment _ _ row) by done.
  split; [by destruct row|]. split; [done|]. split.
  - cbn. by rewrite lookup_alter_eq, Hrow.
  - by apply comment_deleted_ledger.
Qed.

Lemma one_comment_db_ledger : ledger_consistent one_comment_db.
Proof.
  unfold one_comment_db.
  rewrite (run_save_comment 4 (BASE_TIMESTAMP + 5)
             (new_comment 2 hello_post "hi") hello_post hello_post.2
             one_post_db one_post_db_post eq_refl).
  apply comment_saved_ledger; [apply one_post_db_ledger|done|by_compute].
Qed.

Lemma one_comment_db_comment :
  comments one_comment_db !! 4
  = Some (mkComment 2 7 "hi" (BASE_TIMESTAMP + 5)).
Proof. by vm_compute. Qed.

Lemma delete_comment_ledger_one_comment :
  ∃ row db',
    posts one_comment_db !! 7 = Some row ∧
    run (delete_comment (4, mkComment 2 7 "hi" (BASE_TIMESTAMP + 5)))
        one_comment_db
    = (Ok (7, add_comment_count (-1) row), db') ∧
    comments db' = delete 4 (comments one_comment_db) ∧
    posts db' !! 7 = Some (add_comment_count (-1) row) ∧
    ledger_consistent db'.
Proof.
  exact (delete_comment_ledger one_comment_db 4 _ one_comment_db_ledger
           one_comment_db_comment).
Defined.

(** X9.  Saving a comment and deleting it again leaves the database exactly
    as it was. *)
Theorem save_comment_delete_comment_restores db pk now user post content :
  comments db !! pk = None →
  is_Some (posts db !! post.1) →
  ∃ comment post' db1,
    run (save_comment pk now (new_comment user post content) post) db
    = (Ok (comment, post'), db1) ∧
    (run (delete_comment comment) db1).2 = db.
Proof.
  intros Hfresh [row Hrow]. eexists _, _, _.
  rewrite (run_save_comment _ _ _ _ row) by done. split; [done|].
  rewrite (run_delete_comment _ _ (add_comment_count 1 row)).
  2:{ cbn. by rewrite lookup_alter_eq, Hrow. }
  destruct db as [us ps cs fs ls].
  unfold comment_deleted, comment_saved, set_posts, set_comments.
  cbn in *. f_equal.
  - apply alter_alter_id. intros [u t s l n]. unfold add_comment_count. cbn.
    f_equal. lia.
  - by apply delete_insert_id.
Qed.

Lemma save_comment_delete_comment_restores_one_post :
  ∃ comment post' db1,
    run (save_comment 4 (BASE_TIMESTAMP + 5) (new_comment 2 hello_post "hi")
           hello_post) one_post_db
    = (Ok (comment, post'), db1) ∧
    (run (delete_comment comment) db1).2 = one_post_db.
Proof.
  refine (save_comment_delete_comment_restores one_post_db 4
            (BASE_TIMESTAMP + 5) 2 hello_post "hi" _ _).
  - reflexivity.
  - by_compute.
Defined.
(** ** Trimmed text *)

Lemma string_app_nil_r (s : string) : s +:+ "" = s.
Proof.
  induction s as [|a s IH]; [done|].
  change (String a (s +:+ "") = String a s). by rewrite IH.
Qed.

Lemma rev_app_app s1 s2 s3 :
  String.rev_app s1 s2 +:+ s3 = String.rev_app s1 (s2 +:+ s3).
Proof. revert s2. induction s1 as [|a s1 IH]; intros s2; [done|]. apply IH. Qed.

Lemma rev_app_rev_app s1 s2 s3 :
  String.rev_app (String.rev_app s1 s2) s3 = String.rev_app s2 (s1 +:+ s3).
Proof.
  revert s2 s3. induction s1 as [|a s1 IH]; intros s2 s3; [done|].
  cbn. by rewrite IH.
Qed.

Lemma rev_rev s : String.rev (String.rev s) = s.
Proof.
  unfold String.rev. rewrite rev_app_rev_app. cbn. apply string_app_nil_r.
Qed.

Lemma rev_app_append s t u :
  String.rev_app (s +:+ t) u = String.rev_app t (String.rev_app s u).
Proof. revert u. induction s as [|a s IH]; intros u; [done|]. apply IH. Qed.

Lemma rev_app_distr s t :
  String.rev (s +:+ t) = String.rev t +:+ String.rev s.
Proof.
  unfold String.rev. rewrite rev_app_app. apply rev_app_append.
Qed.

Lemma lstrip_clean s : starts_clean (lstrip s).
Proof.
  induction s as [|a s IH]; [done|]. cbn.
  by destruct (is_space a) eqn:Ha.
Qed.

Lemma lstrip_id s : starts_clean s → lstrip s = s.
Proof. destruct s as [|a s]; [done|]. cbn. by intros ->. Qed.

Lemma lstrip_split s : ∃ w, s = w +:+ lstrip s.
Proof.
  induction s as [|a s [w IH]]; [by exists ""|]. cbn.
  destruct (is_space a); [|by exists ""].
  exists (String a w). change (String a s = String a (w +:+ lstrip s)).
  by rewrite <- IH.
Qed.

Lemma starts_clean_prefix s t : starts_clean (s +:+ t) → starts_clean s.
Proof. by destruct s. Qed.

Lemma strip_trimmed s : trimmed (strip s).
Proof.
  unfold strip, trimmed. rewrite rev_rev. split; [|apply lstrip_clean].
  destruct (lstrip_split (String.rev (lstrip s))) as [w Hw].
  apply (f_equal String.rev) in Hw. rewrite rev_rev, rev_app_distr in Hw.
  apply (starts_clean_prefix _ (String.rev w)). rewrite <- Hw.
  apply lstrip_clean.
Qed.

Lemma strip_id s : trimmed s → strip s = s.
Proof.
  intros [Hhead Htail]. unfold strip.
  by rewrite (lstrip_id s), (lstrip_id (String.rev s)), rev_rev.
Qed.

Lemma get_body_content_string request content_type s :
  get_body_content request content_type = inr (JStr s) →
  trimmed s ∧ strip s = s.
Proof.
  unfold get_body_content. intros Hs.
  assert (∃ raw, s = strip raw) as [raw ->].
  { destruct (req_body request) as [| |data]; try done;
      destruct (_ !! content_type) as [[]|]; simplify_eq; eauto. }
  split; [apply strip_trimmed|apply strip_id, strip_trimmed].
Qed.

(** X10.  [get_body_content] trims what it returns: a string value has
    neither leading nor trailing white space, so stripping it again changes
    nothing.  An empty body is read as an empty object, so every field is
    reported missing, and a body that is not JSON is reported as such.  The
    field name is not empty, as in every call of the views. *)
Theorem get_body_content_trimmed request content_type :
  content_type ≠ "" →
  (∀ s, get_body_content request content_type = inr (JStr s) →
        trimmed s ∧ strip s = s) ∧
  (req_body request = BodyEmpty →
     get_body_content request content_type
     = inl ("Missing required field: " +:+ content_type)) ∧
  (req_body request = BodyInvalid →
     get_body_content request content_type
     = inl "Invalid JSON in request body").
Proof.
  intros _. split; [apply get_body_content_string|].
  unfold get_body_content. by split; intros ->.
Qed.

Lemma get_body_content_trimmed_bob :
  get_body_content
    (PUT_request (Some 2) [("action", JStr "like"); ("content", JStr "  hi  ")])
    "content" = inr (JStr "hi") ∧
  trimmed "hi" ∧ strip "hi" = "hi".
Proof.
  split; [by vm_compute|].
  refine (proj1 (get_body_content_trimmed
                   (PUT_request (Some 2)
                      [("action", JStr "like"); ("content", JStr "  hi  ")])
                   "content" _) "hi" _).
  - done.
  - by vm_compute.
Defined.
Lemma delete_post_ledger_one_post :
  ledger_consistent one_post_db ∧
  let db' := (run (delete_post hello_post) one_post_db).2 in
  posts db' = delete 7 (posts one_post_db) ∧
  (∀ user, (7, user) ∉ post_likes db') ∧
  (∀ k c, comments db' !! k = Some c → c_post c ≠ 7) ∧
  users db' !! 1 = add_post_count (-1) <$> users one_post_db !! 1 ∧
  ledger_consistent db'.
Proof.
  split; [exact one_post_db_ledger|].
  exact (delete_post_ledger one_post_db 7 hello_post.2
           one_post_db_ledger one_post_db_post).
Defined.

(** ** Accepted content *)

Section content.
Context `{Conversions}.

Lemma validate_content_ok content length ok error :
  validate_content content length = Ok (ok, error) →
  ok = true →
  ∃ s, content = JStr s ∧ s ≠ "" ∧ strip s ≠ "" ∧
       Z.of_nat (String.length s) ≤ length ∧ error = None.
Proof.
  unfold validate_content. intros Hv ->.
  destruct content as [|[]|n|s]; try done.
  - by destruct n.
  - exists s. repeat case_bool_decide; simplify_eq/=. repeat split; try done. lia.
Qed.

(** X11.  For content that is ASCII text or no text at all,
    [validate_content] accepts exactly the strings that are not empty, are
    not white space only, and are no longer than the limit; whenever it
    accepts it gives no message, and whenever it rejects it gives one. *)
Theorem validate_content_accepts content length :
  ascii_json content →
  (validate_content content length = Ok (true, None) ↔
   ∃ s, content = JStr s ∧ strip s ≠ "" ∧ Z.of_nat (String.length s) ≤ length) ∧
  (∀ ok error, validate_content content length = Ok (ok, error) →
     if ok then error = None else is_Some error).
Proof.
  intros _. split; [split|].
  - intros Hv. destruct (validate_content_ok _ _ _ _ Hv eq_refl)
      as (s & -> & _ & Hs & Hlen & _). eauto.
  - intros (s & -> & Hs & Hlen). unfold validate_content.
    assert (s ≠ "") by (by intros ->).
    repeat case_bool_decide; try done. lia.
  - intros [] error Hv.
    + by destruct (validate_content_ok _ _ _ _ Hv eq_refl) as (s & _ & _ & _ & _ & ->).
    + revert Hv. unfold validate_content.
      destruct content as [|[]|n|s]; try (intros; simplify_eq; eauto; fail).
      * destruct n; intros; simplify_eq; eauto.
      * repeat case_bool_decide; simpl; intros; simplify_eq; eauto.
Qed.

End content.
Lemma validate_content_accepts_hello :
  ascii_json (JStr "hello") ∧
  validate_content (H:=decimal_conversions) (JStr "hello") 250 = Ok (true, None).
Proof.
  split; [reflexivity|].
  refine (proj2 (proj1 (validate_content_accepts (H:=decimal_conversions)
                          (JStr "hello") 250 _)) _).
  - reflexivity.
  - exists "hello". split; [reflexivity|]. split; by vm_compute.
Defined.

(** ** Editing, deleting and creating posts *)

Section post_views.
Context `{Conversions}.

Lemma validate_content_trimmed s length :
  strip s = s → s ≠ "" → Z.of_nat (String.length s) ≤ length →
  validate_content (JStr s) length = Ok (true, None).
Proof.
  intros Hstrip Hs Hlen. unfold validate_content. rewrite Hstrip.
  repeat case_bool_decide; try done. lia.
Qed.

(** What [get_body_content] and [validate_content] let through together. *)
Lemma accepted_content request key length content error :
  get_body_content request key = inr content →
  validate_content content length = Ok (true, error) →
  ∃ s, content = JStr s ∧ trimmed s ∧ s ≠ "" ∧
       Z.of_nat (String.length s) ≤ length.
Proof.
  intros Hbody Hvalid.
  destruct (validate_content_ok _ _ _ _ Hvalid eq_refl)
    as (s & -> & Hs & _ & Hlen & _).
  exists s. repeat split; try done;
    by apply (get_body_content_string request key s).
Qed.

Lemma run_edit_post user request post db :
  p_user post.2 = user →
  run (edit_post user request post) db =
    match get_body_content request "content" with
    | inl error => (Ok (false, error, 400, post), db)
    | inr content =>
        match validate_content content 250 with
        | Raised e => (Raised e, db)
        | Ok (false, error) => (Ok (false, default "" error, 400, post), db)
        | Ok (true, _) =>
            (Ok (true, "Post edited.", 200,
                 (post.1, set_content (format_json content) post.2)),
             set_posts (<[ post.1 := set_content (format_json content) post.2 ]>) db)
        end
    end.
Proof.
  intros Howner. unfold edit_post. rewrite bool_decide_eq_false_2 by naive_solver.
  destruct (get_body_content request "content") as [error|content]; [done|].
  by destruct (validate_content content 250) as [[[] error]|e].
Qed.

(** X12.  [update_post] turns a request away without touching the database:
    an anonymous one is sent to the login page; a method other than PUT and
    DELETE is answered 405; after that come, in this order, the post that
    does not exist (400); for a stored post, the body that is not JSON
    (400), the empty body and the JSON object without an action field (400,
    naming the field), and the JSON object whose action, ASCII text
    stripped or another scalar, is none of like, edit and delete (400,
    naming the action). *)
Theorem update_post_rejections db request post_id :
  (req_user request = None →
     run (update_post request post_id) db = (Ok HttpResponseRedirect, db)) ∧
  (is_Some (req_user request) →
   req_method request ∉ ["PUT"; "DELETE"] →
     run (update_post request post_id) db
     = (Ok (JsonResponse
              (DError (PyStr (req_method request +:+ " request required.")))
              405), db)) ∧
  (is_Some (req_user request) →
   req_method request ∈ ["PUT"; "DELETE"] →
     (posts db !! post_id = None →
        run (update_post request post_id) db
        = (Ok (JsonResponse (DError (PyStr "Post does not exist.")) 400), db)) ∧
     (is_Some (posts db !! post_id) →
        (req_body request = BodyInvalid →
           run (update_post request post_id) db
           = (Ok (JsonResponse
                    (DError (PyStr "Invalid JSON in request body")) 400), db)) ∧
        (req_body request = BodyEmpty ∨
         (∃ data, req_body request = BodyJson data ∧ data !! "action" = None) →
           run (update_post request post_id) db
           = (Ok (JsonResponse
                    (DError (PyStr "Missing required field: action")) 400), db)) ∧
        (∀ data sent,
           req_body request = BodyJson data →
           data !! "action" = Some sent →
           ascii_json sent →
           let action :=
             match sent with JStr s => JStr (strip s) | _ => sent end in
           action ∉ [JStr "like"; JStr "edit"; JStr "delete"] →
           run (update_post request post_id) db
           = (Ok (JsonResponse
                    (DError (PyStr ("Invalid action: " +:+ format_json action)))
                    400), db)))).
Proof.
  unfold update_post, login_required, require_put_delete, require_http_methods.
  split; [by intros ->|]. split.
  - intros [user ->] Hmethod. by rewrite bool_decide_eq_false_2.
  - intros [user ->] Hmethod. rewrite bool_decide_eq_true_2 by done.
    rewrite run_bind, run_select. split; [by intros ->|].
    intros [row ->]. unfold get_body_content. split; [|split].
    + by intros ->.
    + by intros [->|(data & -> & ->)].
    + intros data sent -> -> _ Haction.
      assert (∀ action : json,
                action ∉ [JStr "like"; JStr "edit"; JStr "delete"] →
                bool_decide (action = JStr "like") = false ∧
                bool_decide (action = JStr "edit") = false ∧
                bool_decide (action = JStr "delete") = false) as Hnone.
      { intros action Hnot. split_and!; apply bool_decide_eq_false_2;
          intros ->; apply Hnot; set_solver. }
      destruct sent as [|b|n|s]; destruct (Hnone _ Haction) as (-> & -> & ->);
        done.
Qed.

(** X13.  An edit through [update_post] by the owner of the post, with a
    content field that is ASCII text, has two outcomes only.  Either it is
    answered 200 and the stored row differs from the old one in its content
    alone, which is then the text of the request without surrounding white
    space, not empty and of at most 250 characters; or it is answered 400
    and nothing is stored.  Text of that kind is always accepted. *)
Theorem update_post_edit_by_owner db request post_id row :
  req_user request = Some (p_user row) →
  req_method request ∈ ["PUT"; "DELETE"] →
  posts db !! post_id = Some row →
  get_body_content request "action" = inr (JStr "edit") →
  ascii_field request "content" →
  (∀ response db',
     run (update_post request post_id) db = (Ok response, db') →
     (∃ s, get_body_content request "content" = inr (JStr s) ∧
           trimmed s ∧ s ≠ "" ∧ Z.of_nat (String.length s) ≤ 250 ∧
           response = JsonResponse (DEdited "Post edited." s) 200 ∧
           db' = set_posts (<[ post_id := set_content s row ]>) db) ∨
     (status_code response = 400 ∧ db' = db)) ∧
  (∀ s, get_body_content request "content" = inr (JStr s) →
        s ≠ "" → Z.of_nat (String.length s) ≤ 250 →
     run (update_post request post_id) db
     = (Ok (JsonResponse (DEdited "Post edited." s) 200),
        set_posts (<[ post_id := set_content s row ]>) db)).
Proof.
  intros Huser Hmethod Hrow Haction _.
  rewrite (run_update_post _ _ _ _ _ db Huser Hmethod Hrow Haction).
  rewrite bool_decide_eq_false_2, bool_decide_eq_true_2 by done.
  rewrite run_bind, run_edit_post by done. cbn [fst snd]. split.
  - intros response db'.
    destruct (get_body_content request "content") as [error|content] eqn:Hbody.
    { cbn. intros; simplify_eq. by right. }
    destruct (validate_content content 250) as [[[] error]|e] eqn:Hvalid;
      cbn; intros; simplify_eq; [|by right].
    destruct (accepted_content _ _ _ _ _ Hbody Hvalid) as (s & -> & ? & ? & ?).
    left. by exists s.
  - intros s Hbody Hs Hlen. rewrite Hbody.
    rewrite validate_content_trimmed; [done| |done..].
    by apply (get_body_content_string request "content" s).
Qed.

(** X14.  A delete through [update_post] by the owner of the post, on a
    database whose counters agree with its rows, is answered 200;
    afterwards the post is gone, with every like and comment that referred
    to it, the owner's [post_count] is one less, and the counters of the
    database still agree with its rows. *)
Theorem update_post_delete_by_owner db request post_id row :
  req_user request = Some (p_user row) →
  req_method request ∈ ["PUT"; "DELETE"] →
  posts db !! post_id = Some row →
  get_body_content request "action" = inr (JStr "delete") →
  ledger_consistent db →
  ∃ db',
    run (update_post request post_id) db
    = (Ok (JsonResponse (DMessage "Post deleted.") 200), db') ∧
    posts db' = delete post_id (posts db) ∧
    (∀ user, (post_id, user) ∉ post_likes db') ∧
    (∀ k c, comments db' !! k = Some c → c_post c ≠ post_id) ∧
    users db' !! p_user row = add_post_count (-1) <$> users db !! p_user row ∧
    ledger_consistent db'.
Proof.
  intros Huser Hmethod Hrow Haction Hdb.
  rewrite (run_update_post _ _ _ _ _ db Huser Hmethod Hrow Haction).
  rewrite !bool_decide_eq_false_2, bool_decide_eq_true_2 by done.
  rewrite bool_decide_eq_false_2 by naive_solver.
  rewrite run_bind, run_delete_post.
  exists (post_deleted post_id row db). split; [done|]. split; [done|].
  split; [|split; [|split]].
  - intros user [Hne _]%elem_of_filter. by apply Hne.
  - intros k c [_ Hne]%map_lookup_filter_Some. done.
  - unfold post_deleted, set_users. cbn. by rewrite lookup_alter_eq.
  - by apply post_deleted_ledger.
Qed.

Lemma run_create_post pk now request user db :
  req_user request = Some user →
  req_method request = "POST" →
  run (create_post pk now request ()) db =
    match get_body_content request "content" with
    | inl error => (Ok (error_response error 400), db)
    | inr content =>
        match validate_content content 250 with
        | Raised e => (Raised e, db)
        | Ok (false, error) => (Ok (error_response (default "" error) 400), db)
        | Ok (true, _) =>
            let stored := mkPost user now (format_json content) 0 0 in
            (Ok (JsonMore
                   (DPostData
                      (set_liked false
                         (serialize (post_saved pk stored db) (Some user)
                                    (pk, stored))))
                   201),
             post_saved pk stored db)
        end
    end.
Proof.
  intros Huser Hmethod.
  unfold create_post, login_required_api, require_post, require_http_methods.
  rewrite Huser, Hmethod, bool_decide_eq_true_2 by set_solver.
  destruct (get_body_content request "content") as [error|content]; [done|].
  by destruct (validate_content content 250) as [[[] error]|e].
Qed.

(** X15.  For a content field that is ASCII text and a key the table does
    not hold yet: [create_post] stores a post only when it answers 201, and
    then the new row belongs to the requester, carries the text of the
    request without surrounding white space (not empty, at most 250
    characters) and both counters at 0, and the requester's [post_count]
    went up by one; the post data of the answer shows it as written by the
    requester and not liked.  Every other answer leaves the database as it
    was.  Text of that kind sent by a logged-in user with POST is always
    stored, and the counters of the database stay equal to its rows. *)
Theorem create_post_outcomes db request pk now :
  ascii_field request "content" →
  posts db !! pk = None →
  (∀ response db',
     run (create_post pk now request ()) db = (Ok response, db') →
     (∃ user s data,
        req_user request = Some user ∧
        get_body_content request "content" = inr (JStr s) ∧
        trimmed s ∧ s ≠ "" ∧ Z.of_nat (String.length s) ≤ 250 ∧
        response = JsonMore (DPostData data) 201 ∧
        s_id data = pk ∧ s_user_id data = user ∧ s_content data = s ∧
        s_user_is_author data = true ∧ s_liked data = false ∧
        s_like_count data = 0 ∧ s_comment_count data = 0 ∧
        db' = post_saved pk (mkPost user now s 0 0) db) ∨
     (api_status response ≠ 201 ∧ db' = db)) ∧
  (∀ user s,
     req_user request = Some user → req_method request = "POST" →
     get_body_content request "content" = inr (JStr s) →
     s ≠ "" → Z.of_nat (String.length s) ≤ 250 →
     ∃ response,
       run (create_post pk now request ()) db
       = (Ok response, post_saved pk (mkPost user now s 0 0) db) ∧
       api_status response = 201 ∧
       (ledger_consistent db →
        ledger_consistent (post_saved pk (mkPost user now s 0 0) db))).
Proof.
  intros _ Hfresh. split.
  - intros response db'.
    destruct (req_user request) as [user|] eqn:Huser; cycle 1.
    { unfold create_post, login_required_api. rewrite Huser. cbn.
      intros; simplify_eq. by right. }
    destruct (decide (req_method request = "POST")) as [Hmethod|Hmethod]; cycle 1.
    { unfold create_post, login_required_api, require_post, require_http_methods.
      rewrite Huser, bool_decide_eq_false_2 by set_solver. cbn.
      intros; simplify_eq. by right. }
    rewrite (run_create_post _ _ _ _ _ Huser Hmethod).
    destruct (get_body_content request "content") as [error|content] eqn:Hbody.
    { intros; simplify_eq. by right. }
    destruct (validate_content content 250) as [[[] error]|e] eqn:Hvalid;
      cbn; intros; simplify_eq; [|by right].
    destruct (accepted_content _ _ _ _ _ Hbody Hvalid) as (s & -> & ? & ? & ?).
    left. eexists user, s, _. split_and!; try done.
    cbn. by rewrite bool_decide_eq_true_2.
  - intros user s Huser Hmethod Hbody Hs Hlen.
    rewrite (run_create_post _ _ _ _ _ Huser Hmethod), Hbody.
    rewrite validate_content_trimmed; [| |done..]; cycle 1.
    { by apply (get_body_content_string request "content" s). }
    eexists. split; [done|]. split; [done|].
    intros Hdb. by apply post_saved_ledger.
Qed.
End post_views.

(** ** What a feed shows *)

Section feed_contents.
Context `{Conversions}.

Lemma get_posts_shows db request filter_ error posts_qs status :
  get_posts db request filter_ = (error, posts_qs, status) →
  ∀ id p, (id, p) ∈ posts_qs ↔
          posts db !! id = Some p ∧ view_shows db request filter_ p.
Proof.
  unfold get_posts, view_shows, all_posts. intros Hget id p.
  repeat case_bool_decide; try subst filter_;
    repeat case_match; simplify_eq/=;
    rewrite ?list_elem_of_filter, ?elem_of_map_to_list, ?elem_of_nil;
    naive_solver.
Qed.

(** X16.  The queryset [get_posts] hands to the paginator holds exactly the
    stored posts the view asks for: all of them, those of users the
    requester follows, or those of the profile's user; it holds no post
    twice, and none at all when it reports an error. *)
Theorem get_posts_members db request filter_ error posts_qs status :
  get_posts db request filter_ = (error, posts_qs, status) →
  (∀ id p, (id, p) ∈ posts_qs ↔
           posts db !! id = Some p ∧ view_shows db request filter_ p) ∧
  NoDup posts_qs ∧
  (is_Some error → posts_qs = []).
Proof.
  intros Hget. split; [by eapply get_posts_shows|]. split.
  - eapply NoDup_fmap_1, get_posts_NoDup, Hget.
  - revert Hget. unfold get_posts. intros Hget [e ->].
    repeat case_bool_decide; repeat case_match; by simplify_eq/=.
Qed.

Lemma cursor_gt_asym p q : cursor_gt p q → cursor_gt q p → p = q.
Proof. unfold cursor_gt. lia. Qed.

(** X17.  A page depends only on the posts that lie after the cursor: two
    querysets that agree on those posts give the same page and the same
    [has_next], whatever they hold at or before the cursor and in whatever
    order they are stored.  Posts created or deleted above the cursor do not
    move a continuation page. *)
Theorem paginate_posts_stable posts_qs1 posts_qs2 timestamp post_id cursor :
  NoDup posts_qs1.*1 → NoDup posts_qs2.*1 →
  request_cursor timestamp post_id cursor →
  (∀ p, in_range cursor p → p ∈ posts_qs1 ↔ p ∈ posts_qs2) →
  paginate_posts posts_qs1 timestamp post_id
  = paginate_posts posts_qs2 timestamp post_id.
Proof.
  intros Hnd1 Hnd2 Hcursor Hsame.
  rewrite !(paginate_posts_reads _ _ _ _ Hcursor). f_equal.
  apply (StronglySorted_unique_strong cursor_gt).
  - intros p q _ _. apply cursor_gt_asym.
  - by apply StronglySorted_filter, order_by_cursor_strict.
  - by apply StronglySorted_filter, order_by_cursor_strict.
  - apply NoDup_Permutation.
    + apply NoDup_filter. rewrite order_by_cursor_perm. by eapply NoDup_fmap_1.
    + apply NoDup_filter. rewrite order_by_cursor_perm. by eapply NoDup_fmap_1.
    + intros p. rewrite !list_elem_of_filter, !order_by_cursor_perm.
      naive_solver.
Qed.

Lemma paginate_posts_subset posts_qs timestamp post_id error has_next l :
  unpack3 (paginate_posts posts_qs timestamp post_id)
  = Ok (error, has_next, PyPosts l) →
  l ⊆ posts_qs.
Proof.
  assert (∀ posts, posts ⊆ posts_qs →
            unpack3 (fetch_page posts) = Ok (error, has_next, PyPosts l) →
            l ⊆ posts_qs) as Hfetch.
  { intros posts Hsub. rewrite fetch_page_spec. cbn. intros; simplify_eq.
    etrans; [apply subseteq_take|done]. }
  assert (order_by_cursor posts_qs ⊆ posts_qs) as Hall.
  { intros p. by rewrite order_by_cursor_perm. }
  unfold paginate_posts.
  destruct timestamp as [ts|], post_id as [pid|]; try by apply Hfetch.
  destruct (param_truthy (Some ts) && param_truthy (Some pid));
    [|by apply Hfetch].
  destruct (parse_datetime ts) as [t| |]; try done;
    destruct (py_int pid) as [i|]; try done.
  apply Hfetch. etrans; [|apply Hall].
  intros p. rewrite list_elem_of_filter. naive_solver.
Qed.

Lemma page_response_items db request has_next return_posts empty_status
    items hasNext status :
  page_response db request has_next return_posts empty_status
  = Ok (JsonResponse (DPosts items hasNext) status) →
  items = [] ∨
  ∃ l, return_posts = PyPosts l ∧ items = serialize db (req_user request) <$> l.
Proof.
  unfold page_response. destruct (negb (truthy return_posts)).
  { intros; simplify_eq. by left. }
  destruct has_next, return_posts; intros; simplify_eq. right. eauto.
Qed.

Lemma feed_items db request filter_ items hasNext status :
  posts_view db request filter_
    = Ok (JsonResponse (DPosts items hasNext) status) ∨
  get_more_posts db request filter_
    = Ok (JsonResponse (DPosts items hasNext) status) →
  ∃ l, items = serialize db (req_user request) <$> l ∧
       ∀ id p, (id, p) ∈ l →
               posts db !! id = Some p ∧ view_shows db request filter_ p.
Proof.
  unfold posts_view, get_more_posts, require_get, require_http_methods.
  destruct (get_posts db request filter_) as [[error posts_qs] code] eqn:Hget.
  pose proof (get_posts_shows _ _ _ _ _ _ Hget) as Hshows.
  intros Hresp.
  assert (∃ ts pid e has_next return_posts empty_status,
            unpack3 (paginate_posts posts_qs ts pid)
            = Ok (e, has_next, return_posts) ∧
            page_response db request has_next return_posts empty_status
            = Ok (JsonResponse (DPosts items hasNext) status))
    as (ts & pid & e & has_next & return_posts & empty_status & Hpage & Hitems).
  { destruct Hresp as [Hresp|Hresp]; revert Hresp;
      (case_bool_decide; [|done]); (destruct error; [done|]).
    - destruct (unpack3 _) as [[[e has_next] return_posts]|] eqn:Hpage; [|done].
      intros. by eexists _, _, _, _, _, _.
    - destruct (unpack3 _) as [[[e has_next] return_posts]|] eqn:Hpage; [|done].
      destruct (truthy e); [done|]. intros. by eexists _, _, _, _, _, _. }
  apply page_response_items in Hitems as [->|(l & -> & ->)].
  { exists []. split; [done|]. by intros id p ?%elem_of_nil. }
  exists l. split; [done|]. intros id p Hin. apply Hshows.
  by eapply paginate_posts_subset.
Qed.

(** X18.  Every item of a page answered by [posts_view] or [get_more_posts]
    is the serialisation of a post that is stored and that the view asks
    for, with the counters as stored; its [liked] flag says whether the
    requester's like of that post is stored, and its [user_is_author] flag
    whether the requester wrote it.  For an anonymous requester both flags
    are false on every item. *)
Theorem feed_items_sound db request filter_ items hasNext status :
  posts_view db request filter_
    = Ok (JsonResponse (DPosts items hasNext) status) ∨
  get_more_posts db request filter_
    = Ok (JsonResponse (DPosts items hasNext) status) →
  Forall (λ item,
    ∃ p, posts db !! s_id item = Some p ∧
         view_shows db request filter_ p ∧
         s_user_id item = p_user p ∧ s_content item = p_content p ∧
         s_like_count item = like_count p ∧
         s_comment_count item = comment_count p ∧
         match req_user request with
         | Some user =>
             (s_liked item = true ↔ (s_id item, user) ∈ post_likes db) ∧
             (s_user_is_author item = true ↔ p_user p = user)
         | None => s_liked item = false ∧ s_user_is_author item = false
         end) items.
Proof.
  intros (l & -> & Hl)%feed_items. apply Forall_forall.
  intros item ([id p] & -> & Hin)%list_elem_of_fmap.
  destruct (Hl _ _ Hin) as [Hp Hshows]. exists p. cbn.
  split_and!; try done.
  destruct (req_user request) as [user|]; [|done].
  rewrite !bool_decide_eq_true. naive_solver.
Qed.

End feed_contents.

(** ** Following and profiles *)

Section profiles.
Context `{Conversions}.

Lemma run_follow_view db request user id target :
  req_user request = Some user →
  req_method request = "PUT" →
  users db !! id = Some target →
  id ≠ user →
  run (follow_view request id) db =
    if decide ((id, user) ∈ user_followers db)
    then (Ok (JsonResponse (DFollow false (followers_count target + -1)) 200),
          unfollowed user id db)
    else (Ok (JsonResponse (DFollow true (followers_count target + 1)) 200),
          followed user id db).
Proof.
  intros Huser Hmethod Htarget Hother.
  unfold follow_view, login_required, require_put, require_http_methods.
  rewrite Huser, Hmethod, bool_decide_eq_true_2 by set_solver.
  rewrite run_bind, run_select. cbn [get_user]. rewrite Htarget. cbn [fmap option_fmap option_map fst snd].
  rewrite bool_decide_eq_false_2 by done.
  rewrite run_bind, run_toggle_follow, decide_False by done.
  case_decide; rewrite run_bind; unfold users_get; rewrite run_bind, run_select;
    unfold followed, unfollowed, set_users, set_user_followers; cbn [users];
    rewrite lookup_alter_eq;
    (destruct (decide (user = id)) as [->|Hne]; [done|]);
    by rewrite lookup_alter_ne, Htarget by done.
Qed.

(** X19.  A PUT on [follow_view] by a logged-in user for another user, on a
    database whose counters agree with its edges: an unknown target is
    answered 404 and nothing changes; otherwise the answer is 200, the
    follow edge is flipped, the answer's [follow] says whether the edge is
    now present, and its [followers_count] is the target's stored counter
    after the change, which is the number of the target's follower rows;
    the counters still agree with the edges afterwards. *)
Theorem follow_view_toggles db request user id :
  req_user request = Some user →
  req_method request = "PUT" →
  id ≠ user →
  counters_consistent db →
  match users db !! id with
  | None =>
      run (follow_view request id) db
      = (Ok (JsonResponse (DError (PyStr "User not found.")) 404), db)
  | Some target =>
      ∃ follow followers db',
        run (follow_view request id) db
        = (Ok (JsonResponse (DFollow follow followers) 200), db') ∧
        (follow = true ↔ (id, user) ∉ user_followers db) ∧
        user_followers db'
        = (if follow then {[ (id, user) ]} ∪ user_followers db
           else user_followers db ∖ {[ (id, user) ]}) ∧
        followers = followers_count target + (if follow then 1 else -1) ∧
        followers_count <$> users db' !! id = Some followers ∧
        followers = Z.of_nat (follower_edges db' id) ∧
        counters_consistent db'
  end.
Proof.
  intros Huser Hmethod Hother Hdb.
  destruct (users db !! id) as [target|] eqn:Htarget; cycle 1.
  { unfold follow_view, login_required, require_put, require_http_methods.
    rewrite Huser, Hmethod, bool_decide_eq_true_2 by set_solver.
    rewrite run_bind, run_select. cbn [get_user]. rewrite Htarget. by cbn. }
  pose proof (counters_consistent_toggle _ (ToggleFollow user id) Hdb) as Hdb'.
  revert Hdb'.
  rewrite (run_follow_view _ _ _ _ _ Huser Hmethod Htarget Hother).
  rewrite apply_toggle_follow, (decide_False (P:=user = id)) by done.
  assert (∀ followers db',
            counters_consistent db' →
            followers_count <$> users db' !! id = Some followers →
            followers = Z.of_nat (follower_edges db' id)) as Hedges.
  { intros followers db' [_ Hfollows] Hstored.
    destruct (users db' !! id) as [target'|] eqn:Htarget'; [|done].
    destruct (Hfollows _ _ Htarget') as [<- _]. by simplify_eq/=. }
  case_decide; intros Hdb'.
  - exists false, (followers_count target + -1), (unfollowed user id db).
    assert (followers_count <$> users (unfollowed user id db) !! id
            = Some (followers_count target + -1)) as Hstored.
    { unfold unfollowed, set_users, set_user_followers. cbn [users].
      by rewrite lookup_alter_eq, lookup_alter_ne, Htarget by done. }
    split_and!; try done. by eapply Hedges.
  - exists true, (followers_count target + 1), (followed user id db).
    assert (followers_count <$> users (followed user id db) !! id
            = Some (followers_count target + 1)) as Hstored.
    { unfold followed, set_users, set_user_followers. cbn [users].
      by rewrite lookup_alter_eq, lookup_alter_ne, Htarget by done. }
    split_and!; try done. by eapply Hedges.
Qed.

(** X20.  The profile a requester reads after a follow request agrees with
    the answer of that request: whenever [follow_view] answered with a
    follow flag and a followers count, [profile_view] of the same target for
    the same requester is answered 200 with that flag and that count.  A
    profile that does not exist is answered 404, and an anonymous requester
    is never shown as following. *)
Theorem profile_view_after_follow db request id :
  (∀ follow followers status db',
     run (follow_view request id) db
     = (Ok (JsonResponse (DFollow follow followers) status), db') →
     ∀ request',
       req_user request' = req_user request → req_method request' = "GET" →
       ∃ profile,
         profile_view db' request' id = Ok (JsonMore (DProfile profile) 200) ∧
         pr_id profile = id ∧
         pr_follow profile = follow ∧
         pr_followers profile = followers) ∧
  (req_method request = "GET" →
     match users db !! id with
     | None => profile_view db request id = Ok (error_response "User not found." 404)
     | Some user =>
         ∃ profile,
           profile_view db request id = Ok (JsonMore (DProfile profile) 200) ∧
           pr_username profile = username user ∧
           pr_followers profile = followers_count user ∧
           pr_following profile = following_count user ∧
           pr_post_count profile = post_count user ∧
           (req_user request = None → pr_follow profile = false)
     end).
Proof.
  split.
  - intros follow followers status db' Hrun request' Hsame Hget.
    destruct (req_user request) as [user|] eqn:Huser; cycle 1.
    { revert Hrun. unfold follow_view, login_required. by rewrite Huser. }
    destruct (decide (req_method request = "PUT")) as [Hmethod|Hmethod]; cycle 1.
    { revert Hrun.
      unfold follow_view, login_required, require_put, require_http_methods.
      rewrite Huser, bool_decide_eq_false_2 by set_solver. done. }
    destruct (users db !! id) as [target|] eqn:Htarget; cycle 1.
    { revert Hrun.
      unfold follow_view, login_required, require_put, require_http_methods.
      rewrite Huser, Hmethod, bool_decide_eq_true_2 by set_solver.
      rewrite run_bind, run_select. cbn [get_user]. rewrite Htarget. by cbn. }
    destruct (decide (id = user)) as [->|Hother].
    { revert Hrun.
      unfold follow_view, login_required, require_put, require_http_methods.
      rewrite Huser, Hmethod, bool_decide_eq_true_2 by set_solver.
      rewrite run_bind, run_select. cbn [get_user]. rewrite Htarget. cbn.
      by rewrite bool_decide_eq_true_2. }
    rewrite (run_follow_view _ _ _ _ _ Huser Hmethod Htarget Hother) in Hrun.
    assert (follow = true ↔ (id, user) ∈ user_followers db') as Hnow.
    { revert Hrun. unfold followed, unfollowed, set_users, set_user_followers.
      case_decide; intros; simplify_eq; cbn [user_followers]; set_solver. }
    assert (followers_count <$> users db' !! id = Some followers) as Hstored.
    { revert Hrun. unfold followed, unfollowed, set_users, set_user_followers.
      case_decide; intros; simplify_eq; cbn [users];
        by rewrite lookup_alter_eq, lookup_alter_ne, Htarget by done. }
    clear Hrun.
    unfold profile_view, require_get, require_http_methods.
    rewrite Hget, bool_decide_eq_true_2 by set_solver. cbn [get_user].
    destruct (users db' !! id) as [target'|] eqn:Htarget'; [|done].
    cbn. rewrite Hsame. eexists. split; [done|]. cbn. simplify_eq/=.
    split_and!; try done.
    destruct follow.
    + apply bool_decide_eq_true_2. by apply Hnow.
    + apply bool_decide_eq_false_2. intros Hin%Hnow. done.
  - intros Hget. unfold profile_view, require_get, require_http_methods.
    rewrite Hget, bool_decide_eq_true_2 by set_solver. cbn [get_user].
    destruct (users db !! id) as [user|]; [|done].
    cbn. eexists. split; [done|]. cbn. split_and!; try done. by intros ->.
Qed.

End profiles.

(** ** Comments *)

#[global] Instance newer_comment_total : Total newer_comment.
Proof. intros c1 c2. unfold newer_comment. lia. Qed.

#[global] Instance newer_comment_trans : Transitive newer_comment.
Proof. intros c1 c2 c3. unfold newer_comment. lia. Qed.

Lemma comment_edited_ledger id row s db :
  ledger_consistent db →
  comments db !! id = Some row →
  ledger_consistent (set_comments (<[ id := set_c_content s row ]>) db).
Proof.
  intros ((Hlikes & Hfollows) & Hcomments & Hposts & Hrl & Hrc) Hrow.
  destruct db as [us ps cs fs ls].
  unfold ledger_consistent, counters_consistent, references_resolve,
    set_comments, like_edges, follower_edges, following_edges, comments_of,
    posts_of in *. cbn in *.
  rewrite (insert_stored_alter (set_c_content s)) by done.
  split; [done|]. split; [|split; [done|split; [done|]]].
  - intros k p Hp. rewrite size_filter_alter; [exact (Hcomments _ _ Hp)|].
    by intros v.
  - intros k c. destruct (decide (id = k)) as [<-|Hne].
    + rewrite lookup_alter_eq, Hrow. intros [= <-]. exact (Hrc _ _ Hrow).
    + rewrite lookup_alter_ne by done. apply Hrc.
Qed.

Section comments.
Context `{Conversions}.

(** X21.  [comments_view] answers a GET with status 200 and the
    serialisation of exactly the stored comments of the post, each once, the
    newest first.  It does not look the post up: for an id that is no stored
    post the answer is the empty list, not an error. *)
Theorem comments_view_lists db request post_id :
  req_method request = "GET" →
  ∃ ordered,
    comments_view db request post_id
    = Ok (JsonMore
            (DComments (serialize_comment db (req_user request) <$> ordered))
            200) ∧
    StronglySorted newer_comment ordered ∧
    NoDup ordered.*1 ∧
    (∀ id c, (id, c) ∈ ordered ↔ comments db !! id = Some c ∧ c_post c = post_id) ∧
    (references_resolve db → posts db !! post_id = None → ordered = []).
Proof.
  intros Hget. exists (post_comments db post_id).
  unfold comments_view, require_get, require_http_methods.
  rewrite Hget, bool_decide_eq_true_2 by set_solver.
  assert (∀ id c, (id, c) ∈ post_comments db post_id ↔
                  comments db !! id = Some c ∧ c_post c = post_id) as Hmembers.
  { intros id c. unfold post_comments.
    rewrite merge_sort_Permutation, list_elem_of_filter, elem_of_map_to_list.
    naive_solver. }
  split; [done|]. split; [|split; [|split; [done|]]].
  - apply StronglySorted_merge_sort; apply _.
  - unfold post_comments. rewrite merge_sort_Permutation.
    eapply NoDup_fmap_2_strong, NoDup_filter, NoDup_map_to_list.
    intros [k1 c1] [k2 c2] [_ H1%elem_of_map_to_list]%list_elem_of_filter
      [_ H2%elem_of_map_to_list]%list_elem_of_filter Heq.
    cbn in Heq. subst k2. by simplify_eq.
  - intros [_ Hrc] Hpost.
    destruct (post_comments db post_id) as [|[id c] l] eqn:Hl; [done|].
    exfalso. destruct (proj1 (Hmembers id c)) as [Hc <-]; [by left|].
    destruct (Hrc _ _ Hc) as [p Hp]. by rewrite Hpost in Hp.
Qed.

Lemma run_create_comment pk now request user post_id db :
  req_user request = Some user →
  req_method request = "POST" →
  run (create_comment pk now request post_id) db =
    match get_body_content request "content" with
    | inl error => (Ok (error_response error 400), db)
    | inr content =>
        match validate_content content 100 with
        | Raised e => (Raised e, db)
        | Ok (false, error) => (Ok (error_response (default "" error) 400), db)
        | Ok (true, _) =>
            match posts db !! post_id with
            | None => (Ok (error_response "Post does not exist." 400), db)
            | Some row =>
                let stored := mkComment user post_id (format_json content) now in
                (Ok (JsonMore
                       (DCommentCreated "Comment created."
                          (serialize_comment (comment_saved pk stored db)
                                             (Some user) (pk, stored))
                          (comment_count row + 1))
                       201),
                 comment_saved pk stored db)
            end
        end
    end.
Proof.
  intros Huser Hmethod.
  unfold create_comment, login_required_api, require_post, require_http_methods.
  rewrite Huser, Hmethod, bool_decide_eq_true_2 by set_solver.
  destruct (get_body_content request "content") as [error|content]; [done|].
  destruct (validate_content content 100) as [[[] error]|e]; try done.
  rewrite run_bind, run_select.
  destruct (posts db !! post_id) as [row|] eqn:Hrow; [|done].
  rewrite run_bind.
  rewrite (run_save_comment pk now
             (new_comment user (post_id, row) (format_json content))
             (post_id, row) row db Hrow eq_refl).
  by rewrite run_bind, run_select.
Qed.

(** X22.  For a content field that is ASCII text and a key the table does
    not hold yet: [create_comment] stores a comment only when it answers
    201, and then the new row belongs to the requester and to the post of
    the request, carries the text of the request without surrounding white
    space (not empty, at most 100 characters), and the [commentCount] of the
    answer is the post's stored counter, one more than before.  Every other
    answer leaves the database as it was; the content is checked before the
    post is looked up.  Text of that kind sent by a logged-in user with POST
    for a stored post is always stored, and the counters of the database
    stay equal to its rows. *)
Theorem create_comment_outcomes db request pk now post_id :
  ascii_field request "content" →
  comments db !! pk = None →
  (∀ response db',
     run (create_comment pk now request post_id) db = (Ok response, db') →
     (∃ user s row data count,
        req_user request = Some user ∧
        get_body_content request "content" = inr (JStr s) ∧
        trimmed s ∧ s ≠ "" ∧ Z.of_nat (String.length s) ≤ 100 ∧
        posts db !! post_id = Some row ∧
        response = JsonMore (DCommentCreated "Comment created." data count) 201 ∧
        sc_id data = pk ∧ sc_user_id data = user ∧ sc_content data = s ∧
        sc_user_is_author data = true ∧
        db' = comment_saved pk (mkComment user post_id s now) db ∧
        count = comment_count row + 1 ∧
        comment_count <$> posts db' !! post_id = Some count) ∨
     (api_status response ≠ 201 ∧ db' = db)) ∧
  (∀ user error,
     req_user request = Some user → req_method request = "POST" →
     get_body_content request "content" = inl error →
     run (create_comment pk now request post_id) db
     = (Ok (error_response error 400), db)) ∧
  (∀ user s row,
     req_user request = Some user → req_method request = "POST" →
     get_body_content request "content" = inr (JStr s) →
     s ≠ "" → Z.of_nat (String.length s) ≤ 100 →
     posts db !! post_id = Some row →
     ∃ response,
       run (create_comment pk now request post_id) db
       = (Ok response, comment_saved pk (mkComment user post_id s now) db) ∧
       api_status response = 201 ∧
       (ledger_consistent db →
        ledger_consistent (comment_saved pk (mkComment user post_id s now) db))).
Proof.
  intros _ Hfresh. split; [|split].
  - intros response db'.
    destruct (req_user request) as [user|] eqn:Huser; cycle 1.
    { unfold create_comment, login_required_api. rewrite Huser. cbn.
      intros; simplify_eq. by right. }
    destruct (decide (req_method request = "POST")) as [Hmethod|Hmethod]; cycle 1.
    { unfold create_comment, login_required_api, require_post,
        require_http_methods.
      rewrite Huser, bool_decide_eq_false_2 by set_solver. cbn.
      intros; simplify_eq. by right. }
    rewrite (run_create_comment _ _ _ _ _ _ Huser Hmethod).
    destruct (get_body_content request "content") as [error|content] eqn:Hbody.
    { intros; simplify_eq. by right. }
    destruct (validate_content content 100) as [[[] error]|e] eqn:Hvalid;
      cbn; intros; simplify_eq; [|by right].
    destruct (accepted_content _ _ _ _ _ Hbody Hvalid) as (s & -> & ? & ? & ?).
    destruct (posts db !! post_id) as [row|] eqn:Hrow; simplify_eq;
      [|by right].
    left. eexists user, s, row, _, _. split_and!; try done.
    + cbn. by rewrite bool_decide_eq_true_2.
    + unfold comment_saved, set_posts, set_comments. cbn.
      by rewrite lookup_alter_eq, Hrow.
  - intros user error Huser Hmethod Hbody.
    by rewrite (run_create_comment _ _ _ _ _ _ Huser Hmethod), Hbody.
  - intros user s row Huser Hmethod Hbody Hs Hlen Hrow.
    rewrite (run_create_comment _ _ _ _ _ _ Huser Hmethod), Hbody.
    rewrite validate_content_trimmed; [| |done..]; cycle 1.
    { by apply (get_body_content_string request "content" s). }
    rewrite Hrow. eexists. split; [done|]. split; [done|].
    intros Hdb. apply comment_saved_ledger; [done..|]. by exists row.
Qed.

Lemma run_update_comment request user comment_id row action db :
  req_user request = Some user →
  req_method request ∈ ["PUT"; "DELETE"] →
  comments db !! comment_id = Some row →
  get_body_content request "action" = inr action →
  run (update_comment request comment_id) db =
    if bool_decide (action = JStr "delete") then
      if bool_decide (c_user row ≠ user) then
        (Ok (error_response "Unauthorized." 403), db)
      else
        run (post ← delete_comment (comment_id, row);
             Ret (JsonMore
                    (DCommentDeleted "Comment deleted." (comment_count post.2))
                    200)) db
    else if bool_decide (action = JStr "edit") then
      match get_body_content request "content" with
      | inl error => (Ok (error_response error 400), db)
      | inr content =>
          match validate_content content 100 with
          | Raised e => (Raised e, db)
          | Ok (false, error) => (Ok (error_response (default "" error) 400), db)
          | Ok (true, _) =>
              (Ok (Plain (JsonResponse
                            (DEdited "Comment edited." (format_json content))
                            200)),
               set_comments
                 (<[ comment_id := set_c_content (format_json content) row ]>) db)
          end
      end
    else
      (Ok (error_response ("Invalid action: " +:+ format_json action) 400), db).
Proof.
  intros Huser Hmethod Hrow Haction.
  unfold update_comment, login_required_api, require_put_delete,
    require_http_methods.
  rewrite Huser, bool_decide_eq_true_2 by done.
  rewrite run_bind, run_select, Hrow, Haction.
  repeat case_bool_decide; try done.
  destruct (get_body_content request "content") as [error|content]; [done|].
  by destruct (validate_content content 100) as [[[] error]|e].
Qed.

(** X23.  Deleting a comment through [update_comment] is reserved to its
    author: for anyone else the answer is 403 and nothing changes.  For the
    author, on a database whose counters agree with its rows, the comment is
    removed, the answer is 200, and its [commentCount] is the post's stored
    counter, one less than before and still within its range; the counters
    of the database stay equal to its rows. *)
Theorem update_comment_delete db request user comment_id row :
  req_user request = Some user →
  req_method request ∈ ["PUT"; "DELETE"] →
  comments db !! comment_id = Some row →
  get_body_content request "action" = inr (JStr "delete") →
  (c_user row ≠ user →
     run (update_comment request comment_id) db
     = (Ok (error_response "Unauthorized." 403), db)) ∧
  (c_user row = user →
   ledger_consistent db →
   ∃ post db',
     posts db !! c_post row = Some post ∧
     run (update_comment request comment_id) db
     = (Ok (JsonMore
              (DCommentDeleted "Comment deleted." (comment_count post - 1))
              200), db') ∧
     0 ≤ comment_count post - 1 ∧
     comments db' = delete comment_id (comments db) ∧
     comment_count <$> posts db' !! c_post row = Some (comment_count post - 1) ∧
     ledger_consistent db').
Proof.
  intros Huser Hmethod Hrow Haction.
  rewrite (run_update_comment _ _ _ _ _ db Huser Hmethod Hrow Haction).
  rewrite bool_decide_eq_true_2 by done. split.
  - intros Hother. by rewrite bool_decide_eq_true_2.
  - intros Hauthor Hdb. rewrite bool_decide_eq_false_2 by naive_solver.
    destruct (proj2 (proj2 (proj2 (proj2 Hdb))) _ _ Hrow) as [post Hpost].
    pose proof (comment_deleted_ledger _ _ _ Hdb Hrow) as Hdb'.
    rewrite run_bind, (run_delete_comment _ _ _ _ Hpost).
    assert (comment_count
              <$> posts (comment_deleted comment_id row db) !! c_post row
            = Some (comment_count post - 1)) as Hstored.
    { unfold comment_deleted, set_posts, set_comments. cbn.
      by rewrite lookup_alter_eq, Hpost. }
    exists post, (comment_deleted comment_id row db). split_and!; try done.
    destruct (posts (comment_deleted comment_id row db) !! c_post row)
      as [post'|] eqn:Hpost'; [|done].
    destruct Hdb' as (_ & Hcomments & _).
    pose proof (Hcomments _ _ Hpost') as Hcount.
    simplify_eq/=. lia.
Qed.

(** X24.  Editing a comment through [update_comment] is open to every
    logged-in user: the requester is not compared with the author of the
    comment.  For a content field that is ASCII text: text that is not
    empty and has at most 100 characters replaces the content of the stored
    comment, whoever wrote it; author, post and timestamp of the comment
    stay, and so does every counter.  Any other answer to an edit leaves the
    database as it was. *)
Theorem update_comment_edit_by_anyone db request user comment_id row :
  req_user request = Some user →
  req_method request ∈ ["PUT"; "DELETE"] →
  comments db !! comment_id = Some row →
  get_body_content request "action" = inr (JStr "edit") →
  ascii_field request "content" →
  (∀ s, get_body_content request "content" = inr (JStr s) →
        s ≠ "" → Z.of_nat (String.length s) ≤ 100 →
     let db' := set_comments (<[ comment_id := set_c_content s row ]>) db in
     run (update_comment request comment_id) db
     = (Ok (Plain (JsonResponse (DEdited "Comment edited." s) 200)), db') ∧
     (ledger_consistent db → ledger_consistent db')) ∧
  (∀ response db',
     run (update_comment request comment_id) db = (Ok response, db') →
     api_status response ≠ 200 → db' = db).
Proof.
  intros Huser Hmethod Hrow Haction _.
  rewrite (run_update_comment _ _ _ _ _ db Huser Hmethod Hrow Haction).
  rewrite bool_decide_eq_false_2, bool_decide_eq_true_2 by done. split.
  - intros s Hbody Hs Hlen db'. rewrite Hbody.
    rewrite validate_content_trimmed; [| |done..]; cycle 1.
    { by apply (get_body_content_string request "content" s). }
    split; [done|]. intros Hdb. by apply comment_edited_ledger.
  - intros response db'.
    destruct (get_body_content request "content") as [error|content].
    { by intros; simplify_eq. }
    destruct (validate_content content 100) as [[[] error]|e];
      by intros; simplify_eq/=.
Qed.

End comments.

(** ** Decorators and look-ups *)

Section decorators.
Context `{Conversions}.

(** X25.  The order of the decorators: a view under [require_get],
    [require_post], [require_put] or [require_put_delete] answers a request
    of another method with 405 and the message naming the method that was
    sent, before it reads anything; the views under [login_required] send
    an anonymous request to the login page before the method is looked at.
    Neither answer changes the database. *)
Theorem decorators_refuse db request :
  let refused :=
    JsonResponse
      (DError (PyStr (req_method request +:+ " request required."))) 405 in
  (req_method request ≠ "GET" →
     ∀ filter_ id,
       posts_view db request filter_ = Ok refused ∧
       get_more_posts db request filter_ = Ok refused ∧
       comments_view db request id = Ok (Plain refused) ∧
       profile_view db request id = Ok (Plain refused)) ∧
  (is_Some (req_user request) →
     ∀ pk now id,
       (req_method request ≠ "POST" →
          run (create_post pk now request ()) db = (Ok (Plain refused), db) ∧
          run (create_comment pk now request id) db = (Ok (Plain refused), db)) ∧
       (req_method request ∉ ["PUT"; "DELETE"] →
          run (update_post request id) db = (Ok refused, db) ∧
          run (update_comment request id) db = (Ok (Plain refused), db)) ∧
       (req_method request ≠ "PUT" →
          run (follow_view request id) db = (Ok refused, db))) ∧
  (req_user request = None →
     ∀ pk now id,
       run (create_post pk now request ()) db
         = (Ok (Plain HttpResponseRedirect), db) ∧
       run (create_comment pk now request id) db
         = (Ok (Plain HttpResponseRedirect), db) ∧
       run (update_comment request id) db
         = (Ok (Plain HttpResponseRedirect), db) ∧
       run (update_post request id) db = (Ok HttpResponseRedirect, db) ∧
       run (follow_view request id) db = (Ok HttpResponseRedirect, db)).
Proof.
  intros refused.
  unfold posts_view, get_more_posts, comments_view, profile_view, create_post,
    create_comment, update_post, update_comment, follow_view, login_required,
    login_required_api, require_get, require_post, require_put,
    require_put_delete, require_http_methods.
  split; [|split].
  - intros Hmethod filter_ id.
    by rewrite !bool_decide_eq_false_2 by set_solver.
  - intros [user ->] pk now id. split; [|split]; intros Hmethod.
    + by rewrite !bool_decide_eq_false_2 by set_solver.
    + by rewrite !bool_decide_eq_false_2 by done.
    + by rewrite !bool_decide_eq_false_2 by set_solver.
  - by intros ->.
Qed.

(** X26.  [get_user] returns a user only as it is stored under the id it
    was asked for; [None] and text that is no number give no user; and the
    text [str(i)] of an id finds the same user as the id itself. *)
Theorem get_user_finds `{!ConversionsRoundTrip} db :
  (∀ user_id user, get_user db user_id = Some user →
     users db !! user.1 = Some user.2 ∧
     (∀ i, user_id = ArgInt i → user.1 = i)) ∧
  get_user db ArgNone = None ∧
  (∀ s, py_int s = None → get_user db (ArgStr s) = None) ∧
  (∀ i, get_user db (ArgStr (py_str i)) = get_user db (ArgInt i)).
Proof.
  split; [|split; [done|split]].
  - intros user_id [i u] Hget. unfold get_user in Hget.
    destruct user_id as [|j|s]; [done| |].
    + destruct (users db !! j) as [u'|] eqn:Hj; simplify_eq/=.
      split; [done|]. by intros ? [= ->].
    + destruct (py_int s) as [j|]; [|done].
      destruct (users db !! j) as [u'|] eqn:Hj; by simplify_eq/=.
  - intros s Hs. unfold get_user. by rewrite Hs.
  - intros i. unfold get_user. by rewrite int_str.
Qed.

End decorators.

(** ** Views one after the other *)

Section compositions.
Context `{Conversions}.

Lemma get_posts_all db request :
  get_posts db request "all" = (None, all_posts db, 200).
Proof. unfold get_posts. by repeat case_bool_decide. Qed.

(** The post that is newer than all others comes first. *)
Lemma order_by_cursor_newest (posts_qs : list PostObj) newest :
  newest ∈ posts_qs →
  (∀ p, p ∈ posts_qs → p = newest ∨ p_timestamp p.2 < p_timestamp newest.2) →
  ∃ rest, order_by_cursor posts_qs = newest :: rest.
Proof.
  intros Hin Hnewest.
  pose proof (order_by_cursor_sorted posts_qs) as Hsorted.
  pose proof (order_by_cursor_perm posts_qs) as Hperm.
  destruct (order_by_cursor posts_qs) as [|first rest].
  { rewrite <- Hperm in Hin. by apply elem_of_nil in Hin. }
  exists rest. f_equal.
  destruct (Hnewest first) as [|Hlt]; [by rewrite <- Hperm; left|done|].
  rewrite <- Hperm in Hin. apply elem_of_cons in Hin as [->|Hrest]; [done|].
  apply StronglySorted_inv in Hsorted as [_ Hall].
  eapply Forall_forall in Hall; [|done]. unfold cursor_ge in Hall. lia.
Qed.

(** X27.  A post that was just created, from a content field that is ASCII
    text and under a key the table did not hold, is the first item of the next [posts_view] of all posts, for any
    requester, when the clock has moved on since the last post was
    stored. *)
Theorem created_post_heads_feed db request user s pk now request' :
  req_user request = Some user →
  req_method request = "POST" →
  ascii_field request "content" →
  get_body_content request "content" = inr (JStr s) →
  s ≠ "" → Z.of_nat (String.length s) ≤ 250 →
  posts db !! pk = None →
  (∀ id p, posts db !! id = Some p → p_timestamp p < now) →
  req_method request' = "GET" →
  ∃ db' items hasNext,
    (run (create_post pk now request ()) db).2 = db' ∧
    posts_view db' request' "all"
    = Ok (JsonResponse
            (DPosts (serialize db' (req_user request')
                               (pk, mkPost user now s 0 0) :: items)
                    hasNext) 200).
Proof.
  intros Huser Hmethod _ Hbody Hs Hlen _ Hclock Hget.
  rewrite (run_create_post _ _ _ _ _ Huser Hmethod), Hbody.
  rewrite validate_content_trimmed; [| |done..]; cycle 1.
  { by apply (get_body_content_string request "content" s). }
  cbn [snd format_json]. set (stored := mkPost user now s 0 0).
  exists (post_saved pk stored db).
  rewrite (posts_view_page _ _ _ _ Hget (get_posts_all _ _)).
  destruct (order_by_cursor_newest (all_posts (post_saved pk stored db))
              (pk, stored)) as [rest ->].
  - apply elem_of_map_to_list. unfold post_saved, set_users, set_posts. cbn.
    by rewrite lookup_insert_eq.
  - intros [id p] Hp%elem_of_map_to_list.
    unfold post_saved, set_users, set_posts in Hp. cbn in Hp.
    destruct (decide (pk = id)) as [<-|Hne].
    + rewrite lookup_insert_eq in Hp. left. by simplify_eq.
    + rewrite lookup_insert_ne in Hp by done. right. cbn. by eapply Hclock.
  - by eexists _, _.
Qed.

(** X28.  A post that its owner deleted through [update_post], on a
    database whose counters agree with its rows, is on no page of any feed
    afterwards. *)
Theorem deleted_post_leaves_feeds db request post_id row request' filter_
    items hasNext status :
  req_user request = Some (p_user row) →
  req_method request ∈ ["PUT"; "DELETE"] →
  posts db !! post_id = Some row →
  get_body_content request "action" = inr (JStr "delete") →
  ledger_consistent db →
  let db' := (run (update_post request post_id) db).2 in
  posts_view db' request' filter_
    = Ok (JsonResponse (DPosts items hasNext) status) ∨
  get_more_posts db' request' filter_
    = Ok (JsonResponse (DPosts items hasNext) status) →
  Forall (λ item, s_id item ≠ post_id) items.
Proof.
  intros Huser Hmethod Hrow Haction _ db'. unfold db'. clear db'.
  rewrite (run_update_post _ _ _ _ _ db Huser Hmethod Hrow Haction).
  rewrite !bool_decide_eq_false_2, bool_decide_eq_true_2 by done.
  rewrite bool_decide_eq_false_2 by naive_solver.
  rewrite run_bind, run_delete_post. cbn [snd run].
  intros (l & -> & Hl)%feed_items. apply Forall_forall.
  intros item ([id p] & -> & Hin)%list_elem_of_fmap.
  destruct (Hl _ _ Hin) as [Hp _]. cbn. intros ->.
  unfold post_deleted, set_users in Hp. cbn in Hp.
  by rewrite lookup_delete_eq in Hp.
Qed.

(** X29.  A comment that was just created, from a content field that is
    ASCII text and under a key the table did not hold, is among the comments [comments_view] lists for its post;
    and a comment its author deleted, on a database whose counters agree
    with its rows, is not among them any more. *)
Theorem comments_view_follows_changes db request user request' :
  req_user request = Some user →
  req_method request' = "GET" →
  (∀ pk now post_id s row,
     req_method request = "POST" →
     ascii_field request "content" →
     get_body_content request "content" = inr (JStr s) →
     s ≠ "" → Z.of_nat (String.length s) ≤ 100 →
     comments db !! pk = None →
     posts db !! post_id = Some row →
     ∃ db' comments,
       (run (create_comment pk now request post_id) db).2 = db' ∧
       comments_view db' request' post_id
       = Ok (JsonMore (DComments comments) 200) ∧
       serialize_comment db' (req_user request')
         (pk, mkComment user post_id s now) ∈ comments) ∧
  (∀ comment_id row,
     req_method request ∈ ["PUT"; "DELETE"] →
     get_body_content request "action" = inr (JStr "delete") →
     comments db !! comment_id = Some row →
     c_user row = user →
     ledger_consistent db →
     ∃ db' comments,
       (run (update_comment request comment_id) db).2 = db' ∧
       comments_view db' request' (c_post row)
       = Ok (JsonMore (DComments comments) 200) ∧
       Forall (λ comment, sc_id comment ≠ comment_id) comments).
Proof.
  intros Huser Hget.
  assert (∀ db' post_id,
            comments_view db' request' post_id
            = Ok (JsonMore
                    (DComments (serialize_comment db' (req_user request')
                                  <$> post_comments db' post_id)) 200))
    as Hview.
  { intros db' post_id. unfold comments_view, require_get, require_http_methods.
    by rewrite Hget, bool_decide_eq_true_2 by set_solver. }
  assert (∀ db' post_id id c,
            (id, c) ∈ post_comments db' post_id ↔
            comments db' !! id = Some c ∧ c_post c = post_id) as Hmembers.
  { intros db' post_id id c. unfold post_comments.
    rewrite merge_sort_Permutation, list_elem_of_filter, elem_of_map_to_list.
    naive_solver. }
  split.
  - intros pk now post_id s row Hmethod _ Hbody Hs Hlen _ Hrow.
    rewrite (run_create_comment _ _ _ _ _ _ Huser Hmethod), Hbody.
    rewrite validate_content_trimmed; [| |done..]; cycle 1.
    { by apply (get_body_content_string request "content" s). }
    rewrite Hrow. cbn [snd format_json]. eexists _, _.
    split; [done|]. split; [apply Hview|].
    apply list_elem_of_fmap_2, Hmembers. split; [|done].
    unfold comment_saved, set_posts, set_comments. cbn.
    by rewrite lookup_insert_eq.
  - intros comment_id row Hmethod Haction Hrow Hauthor Hdb.
    destruct (proj2 (proj2 (proj2 (proj2 Hdb))) _ _ Hrow) as [post Hpost].
    rewrite (run_update_comment _ _ _ _ _ db Huser Hmethod Hrow Haction).
    rewrite bool_decide_eq_true_2 by done.
    rewrite bool_decide_eq_false_2 by naive_solver.
    rewrite run_bind, (run_delete_comment _ _ _ _ Hpost). cbn [snd run].
    eexists _, _. split; [done|]. split; [apply Hview|].
    apply Forall_forall.
    intros comment ([id c] & -> & [Hc _]%Hmembers)%list_elem_of_fmap.
    cbn. intros ->. unfold comment_deleted, set_posts, set_comments in Hc.
    cbn in Hc. by rewrite lookup_delete_eq in Hc.
Qed.

End compositions.


(** * The further properties on the small databases *)

Lemma one_post_db_clock id p :
  posts one_post_db !! id = Some p → p_timestamp p < BASE_TIMESTAMP + 1000000.
Proof.
  assert (posts one_post_db = {[ 7 := hello_post.2 ]}) as -> by by vm_compute.
  intros [_ <-]%lookup_singleton_Some. by vm_compute.
Qed.

Lemma two_posts_db_ledger : ledger_consistent two_posts_db.
Proof.
  unfold two_posts_db. rewrite run_save_post.
  apply post_saved_ledger; [exact one_post_db_ledger|by vm_compute|done..].
Qed.

Lemma two_posts_db_post : posts two_posts_db !! 7 = Some hello_post.2.
Proof. by vm_compute. Qed.

Lemma update_post_rejections_fixture :
  run (update_post (H:=decimal_conversions) (PUT_request None []) 3) fixture_db
  = (Ok HttpResponseRedirect, fixture_db) ∧
  run (update_post (H:=decimal_conversions) bob_likes_request 99) fixture_db
  = (Ok (JsonResponse (DError (PyStr "Post does not exist.")) 400), fixture_db) ∧
  run (update_post (H:=decimal_conversions) bob_says_nothing_request 3) fixture_db
  = (Ok (JsonResponse (DError (PyStr "Missing required field: action")) 400),
     fixture_db) ∧
  run (update_post (H:=decimal_conversions) bob_shouts_request 3) fixture_db
  = (Ok (JsonResponse (DError (PyStr "Invalid action: shout")) 400), fixture_db).
Proof.
  split; [|split; [|split]].
  - refine (proj1 (update_post_rejections (H:=decimal_conversions) fixture_db
                     (PUT_request None []) 3) _).
    reflexivity.
  - refine (proj1 (proj2 (proj2 (update_post_rejections (H:=decimal_conversions)
                                   fixture_db bob_likes_request 99)) _ _) _).
    + by eexists.
    + by_compute.
    + by vm_compute.
  - refine (proj1 (proj2 (proj2 (proj2 (proj2
              (update_post_rejections (H:=decimal_conversions)
                 fixture_db bob_says_nothing_request 3)) _ _) _)) _).
    + by eexists.
    + by_compute.
    + exists (mkPost 1 (BASE_TIMESTAMP - 2000000) "Post" 0 0).
      exact fixture_post_3.
    + right. exists ∅. split; [reflexivity|by vm_compute].
  - refine (proj2 (proj2 (proj2 (proj2 (proj2
              (update_post_rejections (H:=decimal_conversions)
                 fixture_db bob_shouts_request 3)) _ _) _))
              (list_to_map [("action", JStr "shout")]) (JStr "shout") _ _ _ _).
    + by eexists.
    + by_compute.
    + exists (mkPost 1 (BASE_TIMESTAMP - 2000000) "Post" 0 0).
      exact fixture_post_3.
    + reflexivity.
    + by vm_compute.
    + reflexivity.
    + by_compute.
Defined.

Lemma update_post_edit_by_owner_one_post :
  run (update_post (H:=decimal_conversions) alice_edits_request 7) one_post_db
  = (Ok (JsonResponse (DEdited "Post edited." "Edited") 200),
     set_posts (<[ 7 := set_content "Edited" hello_post.2 ]>) one_post_db).
Proof.
  refine (proj2 (update_post_edit_by_owner (H:=decimal_conversions) one_post_db
                   alice_edits_request 7 hello_post.2 _ _ _ _ _)
            "Edited" _ _ _).
  - reflexivity.
  - by_compute.
  - exact one_post_db_post.
  - by vm_compute.
  - by vm_compute.
  - by vm_compute.
  - done.
  - by vm_compute.
Defined.

Lemma update_post_delete_by_owner_one_post :
  ∃ db',
    run (update_post (H:=decimal_conversions) alice_deletes_request 7) one_post_db
    = (Ok (JsonResponse (DMessage "Post deleted.") 200), db') ∧
    posts db' = delete 7 (posts one_post_db) ∧
    (∀ user, (7, user) ∉ post_likes db') ∧
    (∀ k c, comments db' !! k = Some c → c_post c ≠ 7) ∧
    users db' !! 1 = add_post_count (-1) <$> users one_post_db !! 1 ∧
    ledger_consistent db'.
Proof.
  refine (update_post_delete_by_owner (H:=decimal_conversions) one_post_db
            alice_deletes_request 7 hello_post.2 _ _ _ _ _).
  - reflexivity.
  - by_compute.
  - exact one_post_db_post.
  - by vm_compute.
  - exact one_post_db_ledger.
Defined.

Lemma create_post_outcomes_users :
  ∃ response,
    run (create_post (H:=decimal_conversions) 7 BASE_TIMESTAMP
           alice_posts_request ()) users_db
    = (Ok response,
       post_saved 7 (mkPost 1 BASE_TIMESTAMP "Second post" 0 0) users_db) ∧
    api_status response = 201 ∧
    (ledger_consistent users_db →
     ledger_consistent
       (post_saved 7 (mkPost 1 BASE_TIMESTAMP "Second post" 0 0) users_db)).
Proof.
  refine (proj2 (create_post_outcomes (H:=decimal_conversions) users_db
                   alice_posts_request 7 BASE_TIMESTAMP _ _)
            1 "Second post" _ _ _ _ _).
  - by vm_compute.
  - by vm_compute.
  - reflexivity.
  - reflexivity.
  - by vm_compute.
  - done.
  - by vm_compute.
Defined.

Lemma follow_view_toggles_fixture :
  ∃ follow followers db',
    run (follow_view (H:=decimal_conversions) bob_follows_request 1) fixture_db
    = (Ok (JsonResponse (DFollow follow followers) 200), db') ∧
    (follow = true ↔ (1, 2) ∉ user_followers fixture_db) ∧
    user_followers db'
    = (if follow then {[ (1, 2) ]} ∪ user_followers fixture_db
       else user_followers fixture_db ∖ {[ (1, 2) ]}) ∧
    followers = followers_count (mkUser "alice" 0 0 0)
                + (if follow then 1 else -1) ∧
    followers_count <$> users db' !! 1 = Some followers ∧
    followers = Z.of_nat (follower_edges db' 1) ∧
    counters_consistent db'.
Proof.
  refine (follow_view_toggles (H:=decimal_conversions) fixture_db
            bob_follows_request 2 1 _ _ _ fixture_db_consistent).
  - reflexivity.
  - reflexivity.
  - done.
Defined.

Lemma create_comment_outcomes_one_post :
  ∃ response,
    run (create_comment (H:=decimal_conversions) 4 (BASE_TIMESTAMP + 5)
           bob_comments_request 7) one_post_db
    = (Ok response,
       comment_saved 4 (mkComment 2 7 "Nice" (BASE_TIMESTAMP + 5)) one_post_db) ∧
    api_status response = 201 ∧
    (ledger_consistent one_post_db →
     ledger_consistent
       (comment_saved 4 (mkComment 2 7 "Nice" (BASE_TIMESTAMP + 5))
          one_post_db)).
Proof.
  refine (proj2 (proj2 (create_comment_outcomes (H:=decimal_conversions)
                          one_post_db bob_comments_request 4
                          (BASE_TIMESTAMP + 5) 7 _ _))
            2 "Nice" hello_post.2 _ _ _ _ _ _).
  - by vm_compute.
  - by vm_compute.
  - reflexivity.
  - reflexivity.
  - by vm_compute.
  - done.
  - by vm_compute.
  - exact one_post_db_post.
Defined.

Lemma update_comment_delete_one_comment :
  run (update_comment (H:=decimal_conversions) alice_deletes_comment_request 4)
    one_comment_db
  = (Ok (error_response "Unauthorized." 403), one_comment_db) ∧
  ∃ post db',
    posts one_comment_db !! 7 = Some post ∧
    run (update_comment (H:=decimal_conversions) bob_deletes_comment_request 4)
      one_comment_db
    = (Ok (JsonMore
             (DCommentDeleted "Comment deleted." (comment_count post - 1)) 200),
       db') ∧
    0 ≤ comment_count post - 1 ∧
    comments db' = delete 4 (comments one_comment_db) ∧
    comment_count <$> posts db' !! 7 = Some (comment_count post - 1) ∧
    ledger_consistent db'.
Proof.
  split.
  - refine (proj1 (update_comment_delete (H:=decimal_conversions) one_comment_db
                     alice_deletes_comment_request 1 4
                     (mkComment 2 7 "hi" (BASE_TIMESTAMP + 5)) _ _ _ _) _).
    + reflexivity.
    + by_compute.
    + exact one_comment_db_comment.
    + by vm_compute.
    + done.
  - refine (proj2 (update_comment_delete (H:=decimal_conversions) one_comment_db
                     bob_deletes_comment_request 2 4
                     (mkComment 2 7 "hi" (BASE_TIMESTAMP + 5)) _ _ _ _)
              _ one_comment_db_ledger).
    + reflexivity.
    + by_compute.
    + exact one_comment_db_comment.
    + by vm_compute.
    + reflexivity.
Defined.

Lemma update_comment_edit_by_anyone_one_comment :
  let db' :=
    set_comments
      (<[ 4 := set_c_content "Rewritten"
                 (mkComment 2 7 "hi" (BASE_TIMESTAMP + 5)) ]>) one_comment_db in
  run (update_comment (H:=decimal_conversions) alice_edits_comment_request 4)
    one_comment_db
  = (Ok (Plain (JsonResponse (DEdited "Comment edited." "Rewritten") 200)), db') ∧
  (ledger_consistent one_comment_db → ledger_consistent db').
Proof.
  refine (proj1 (update_comment_edit_by_anyone (H:=decimal_conversions)
                   one_comment_db alice_edits_comment_request 1 4
                   (mkComment 2 7 "hi" (BASE_TIMESTAMP + 5)) _ _ _ _ _)
            "Rewritten" _ _ _).
  - reflexivity.
  - by_compute.
  - exact one_comment_db_comment.
  - by vm_compute.
  - by vm_compute.
  - by vm_compute.
  - done.
  - by vm_compute.
Defined.

Lemma created_post_heads_feed_one_post :
  ∃ db' items hasNext,
    (run (create_post (H:=decimal_conversions) 8 (BASE_TIMESTAMP + 1000000)
            alice_posts_again_request ()) one_post_db).2 = db' ∧
    posts_view (H:=decimal_conversions) db' (GET_request (Some 2) []) "all"
    = Ok (JsonResponse
            (DPosts (serialize (H:=decimal_conversions) db' (Some 2) world_post
                     :: items)
                    hasNext) 200).
Proof.
  refine (created_post_heads_feed (H:=decimal_conversions) one_post_db
            alice_posts_again_request 1 "world" 8 (BASE_TIMESTAMP + 1000000)
            (GET_request (Some 2) []) _ _ _ _ _ _ _ one_post_db_clock _).
  - reflexivity.
  - reflexivity.
  - by vm_compute.
  - by vm_compute.
  - done.
  - by vm_compute.
  - by vm_compute.
  - reflexivity.
Defined.

Lemma deleted_post_leaves_feeds_two_posts :
  Forall (λ item, s_id item ≠ 7)
    [serialize (H:=decimal_conversions)
       (run (update_post (H:=decimal_conversions) alice_deletes_request 7)
          two_posts_db).2 None world_post].
Proof.
  refine (deleted_post_leaves_feeds (H:=decimal_conversions) two_posts_db
            alice_deletes_request 7 hello_post.2 (GET_request None []) "all"
            _ false 200 _ _ two_posts_db_post _ two_posts_db_ledger
            (or_introl _)).
  - reflexivity.
  - by_compute.
  - by vm_compute.
  - by vm_compute.
Defined.

Lemma comments_view_follows_changes_one_post :
  (∃ db' comments,
     (run (create_comment (H:=decimal_conversions) 4 (BASE_TIMESTAMP + 5)
             bob_comments_request 7) one_post_db).2 = db' ∧
     comments_view db' (GET_request None []) 7
     = Ok (JsonMore (DComments comments) 200) ∧
     serialize_comment db' None (4, mkComment 2 7 "Nice" (BASE_TIMESTAMP + 5))
     ∈ comments) ∧
  (∃ db' comments,
     (run (update_comment (H:=decimal_conversions) bob_deletes_comment_request 4)
        one_comment_db).2 = db' ∧
     comments_view db' (GET_request None []) 7
     = Ok (JsonMore (DComments comments) 200) ∧
     Forall (λ comment, sc_id comment ≠ 4) comments).
Proof.
  split.
  - refine (proj1 (comments_view_follows_changes (H:=decimal_conversions)
                     one_post_db bob_comments_request 2 (GET_request None [])
                     _ _)
              4 (BASE_TIMESTAMP + 5) 7 "Nice" hello_post.2 _ _ _ _ _ _ _).
    + reflexivity.
    + reflexivity.
    + reflexivity.
    + by vm_compute.
    + by vm_compute.
    + done.
    + by vm_compute.
    + by vm_compute.
    + exact one_post_db_post.
  - refine (proj2 (comments_view_follows_changes (H:=decimal_conversions)
                     one_comment_db bob_deletes_comment_request 2
                     (GET_request None []) _ _)
              4 (mkComment 2 7 "hi" (BASE_TIMESTAMP + 5)) _ _ _ _
              one_comment_db_ledger).
    + reflexivity.
    + reflexivity.
    + by_compute.
    + by vm_compute.
    + exact one_comment_db_comment.
    + reflexivity.
Defined.

Lemma get_posts_members_fixture :
  (∀ id p, (id, p) ∈ all_posts fixture_db ↔
           posts fixture_db !! id = Some p ∧
           view_shows (H:=decimal_conversions) fixture_db
             (GET_request None []) "all" p) ∧
  NoDup (all_posts fixture_db) ∧
  (is_Some (@None string) → all_posts fixture_db = []).
Proof.
  refine (get_posts_members (H:=decimal_conversions) fixture_db
            (GET_request None []) "all" None (all_posts fixture_db) 200 _).
  by vm_compute.
Defined.

Lemma paginate_posts_stable_fixture :
  paginate_posts (H:=decimal_conversions) fixture_posts
    (Some "1764503991000000") (Some "10")
  = paginate_posts (H:=decimal_conversions) (newest_post :: fixture_posts)
      (Some "1764503991000000") (Some "10").
Proof.
  refine (paginate_posts_stable (H:=decimal_conversions) fixture_posts
            (newest_post :: fixture_posts)
            (Some "1764503991000000") (Some "10")
            (Some tenth_post_position) _ _ _ _).
  - by_compute.
  - by_compute.
  - constructor; by vm_compute.
  - intros p Hp. rewrite elem_of_cons. split; [by right|].
    intros [->|Hin]; [|done]. exfalso. revert Hp.
    unfold in_range, tenth_post_position, after_cursor, newest_post,
      BASE_TIMESTAMP. cbn. lia.
Defined.

Lemma feed_items_sound_fixture :
  Forall (λ item,
    ∃ p, posts fixture_db !! s_id item = Some p ∧
         view_shows (H:=decimal_conversions) fixture_db
           (GET_request None []) "all" p ∧
         s_user_id item = p_user p ∧ s_content item = p_content p ∧
         s_like_count item = like_count p ∧
         s_comment_count item = comment_count p ∧
         s_liked item = false ∧ s_user_is_author item = false)
    (serialize (H:=decimal_conversions) fixture_db None <$> take 10 fixture_posts).
Proof.
  refine (feed_items_sound (H:=decimal_conversions) fixture_db
            (GET_request None []) "all"
            (serialize (H:=decimal_conversions) fixture_db None
               <$> take 10 fixture_posts)
            true 200 (or_introl _)).
  by vm_compute.
Defined.

Lemma profile_view_after_follow_fixture :
  ∃ profile,
    profile_view (H:=decimal_conversions)
      (apply_toggle fixture_db (ToggleFollow 2 1)) (GET_request (Some 2) []) 1
    = Ok (JsonMore (DProfile profile) 200) ∧
    pr_id profile = 1 ∧
    pr_follow profile = true ∧
    pr_followers profile = 1.
Proof.
  refine (proj1 (profile_view_after_follow (H:=decimal_conversions) fixture_db
                   bob_follows_request 1)
            true 1 200 (apply_toggle fixture_db (ToggleFollow 2 1)) _
            (GET_request (Some 2) []) _ _).
  - by vm_compute.
  - reflexivity.
  - reflexivity.
Defined.

Lemma comments_view_lists_one_comment :
  ∃ ordered,
    comments_view one_comment_db (GET_request None []) 7
    = Ok (JsonMore
            (DComments (serialize_comment one_comment_db None <$> ordered)) 200) ∧
    StronglySorted newer_comment ordered ∧
    NoDup ordered.*1 ∧
    (∀ id c, (id, c) ∈ ordered ↔
             comments one_comment_db !! id = Some c ∧ c_post c = 7) ∧
    (references_resolve one_comment_db → posts one_comment_db !! 7 = None →
     ordered = []).
Proof.
  refine (comments_view_lists one_comment_db (GET_request None []) 7 _).
  reflexivity.
Defined.

Lemma decorators_refuse_fixture :
  run (create_post (H:=decimal_conversions) 31 BASE_TIMESTAMP
         (POST_request None []) ()) fixture_db
    = (Ok (Plain HttpResponseRedirect), fixture_db) ∧
  posts_view (H:=decimal_conversions) fixture_db alice_posts_request "all"
    = Ok (JsonResponse (DError (PyStr "POST request required.")) 405).
Proof.
  split.
  - refine (proj1 (proj2 (proj2 (decorators_refuse (H:=decimal_conversions)
                                   fixture_db (POST_request None [])))
                     _ 31 BASE_TIMESTAMP 0)).
    reflexivity.
  - refine (proj1 (proj1 (decorators_refuse (H:=decimal_conversions)
                            fixture_db alice_posts_request) _ "all" 0)).
    done.
Defined.

Lemma get_user_finds_fixture :
  get_user (H:=decimal_conversions) fixture_db (ArgStr "2")
  = get_user (H:=decimal_conversions) fixture_db (ArgInt 2).
Proof.
  exact (proj2 (proj2 (proj2 (get_user_finds (H:=decimal_conversions)
                                (H0:=decimal_round_trip)
                                fixture_db))) 2).
Defined.
